(** * SD-Mox engine: change submission and convergence verification

    A shallow embedding of [app/sd_mox.py] (class [SDMox]) and the
    properties of its validation, payload building and polling code.

    Conventions of the embedding.
    - Python [str] is [string], the UTF-8 encoding of the text. [len],
      [isalnum] and [upper] work on its characters (code points) with the
      tables of the Unicode Character Database; [strip] removes ASCII white
      space.
    - A value that may be [None] is an [option]; a [dict] read with [.get]
      is a record of [option] fields or a [gmap].
    - Exceptions are the constructors of [exn]; a method that can raise, read
      the registry or publish is a computation in the monad [M] over [World].
    - The collaborators (directory reader, address lookup, registry reader,
      payload renderers) and the engine's settings are the fields of [Env].
      The directory and the registry readers are taken to answer and the
      message channel to accept a document: a transport failure of theirs
      is outside the model. The address lookup can fail, as the code
      handles its failures.
    - The engine is taken to be constructed with a from-date, so that
      [self.virkning] exists.
    - Logging is not modelled. *)

From Stdlib Require Import Ascii String.
From stdpp Require Import gmap strings list.


(** ** Python string primitives *)

Module Py.

(** The characters of a text held as its UTF-8 encoding, as code points:
    a byte below 192 stands for itself, a larger one opens a sequence of
    two, three or four bytes, each of the bytes after it giving six bits.
    A sequence cut short by the end of the text, which no text encodes to,
    gives no character. *)
Fixpoint codepoints_from (s : string) (pending : nat) (acc : N) : list N :=
  match s with
  | EmptyString => []
  | String b t =>
      let n := N_of_ascii b in
      match pending with
      | O =>
          if (n <? 192)%N then n :: codepoints_from t 0 0
          else if (n <? 224)%N then codepoints_from t 1 (n - 192)
          else if (n <? 240)%N then codepoints_from t 2 (n - 224)
          else codepoints_from t 3 (n - 240)
      | S k =>
          let acc := (acc * 64 + n mod 64)%N in
          match k with
          | O => acc :: codepoints_from t 0 0
          | S _ => codepoints_from t k acc
          end
      end
  end.

Definition codepoints (s : string) : list N := codepoints_from s 0 0.

(** The UTF-8 encoding of the character [n], put in front of [rest]. *)
Definition utf8 (n : N) (rest : string) : string :=
  if (n <? 128)%N then String (ascii_of_N n) rest
  else if (n <? 2048)%N then
    String (ascii_of_N (192 + n / 64))
      (String (ascii_of_N (128 + n mod 64)) rest)
  else if (n <? 65536)%N then
    String (ascii_of_N (224 + n / 4096))
      (String (ascii_of_N (128 + (n / 64) mod 64))
         (String (ascii_of_N (128 + n mod 64)) rest))
  else
    String (ascii_of_N (240 + n / 262144))
      (String (ascii_of_N (128 + (n / 4096) mod 64))
         (String (ascii_of_N (128 + (n / 64) mod 64))
            (String (ascii_of_N (128 + n mod 64)) rest))).

(** The characters for which [str.isalnum] holds (alphabetic, decimal,
    digit or numeric), as ranges of code points, and the upper-casing of
    [str.upper], character by character: the tables of the Unicode
    Character Database 14.0, as CPython 3.11 has them. *)
Definition alnum_ranges : list (N * N) :=
  [(48, 57); (65, 90); (97, 122); (170, 170); (178, 179); (181, 181); (185, 186);
   (188, 190); (192, 214); (216, 246); (248, 705); (710, 721); (736, 740); (748, 748);
   (750, 750); (880, 884); (886, 887); (890, 893); (895, 895); (902, 902); (904, 906);
   (908, 908); (910, 929); (931, 1013); (1015, 1153); (1162, 1327); (1329, 1366);
   (1369, 1369); (1376, 1416); (1488, 1514); (1519, 1522); (1568, 1610); (1632, 1641);
   (1646, 1647); (1649, 1747); (1749, 1749); (1765, 1766); (1774, 1788); (1791, 1791);
   (1808, 1808); (1810, 1839); (1869, 1957); (1969, 1969); (1984, 2026); (2036, 2037);
   (2042, 2042); (2048, 2069); (2074, 2074); (2084, 2084); (2088, 2088); (2112, 2136);
   (2144, 2154); (2160, 2183); (2185, 2190); (2208, 2249); (2308, 2361); (2365, 2365);
   (2384, 2384); (2392, 2401); (2406, 2415); (2417, 2432); (2437, 2444); (2447, 2448);
   (2451, 2472); (2474, 2480); (2482, 2482); (2486, 2489); (2493, 2493); (2510, 2510);
   (2524, 2525); (2527, 2529); (2534, 2545); (2548, 2553); (2556, 2556); (2565, 2570);
   (2575, 2576); (2579, 2600); (2602, 2608); (2610, 2611); (2613, 2614); (2616, 2617);
   (2649, 2652); (2654, 2654); (2662, 2671); (2674, 2676); (2693, 2701); (2703, 2705);
   (2707, 2728); (2730, 2736); (2738, 2739); (2741, 2745); (2749, 2749); (2768, 2768);
   (2784, 2785); (2790, 2799); (2809, 2809); (2821, 2828); (2831, 2832); (2835, 2856);
   (2858, 2864); (2866, 2867); (2869, 2873); (2877, 2877); (2908, 2909); (2911, 2913);
   (2918, 2927); (2929, 2935); (2947, 2947); (2949, 2954); (2958, 2960); (2962, 2965);
   (2969, 2970); (2972, 2972); (2974, 2975); (2979, 2980); (2984, 2986); (2990, 3001);
   (3024, 3024); (3046, 3058); (3077, 3084); (3086, 3088); (3090, 3112); (3114, 3129);
   (3133, 3133); (3160, 3162); (3165, 3165); (3168, 3169); (3174, 3183); (3192, 3198);
   (3200, 3200); (3205, 3212); (3214, 3216); (3218, 3240); (3242, 3251); (3253, 3257);
   (3261, 3261); (3293, 3294); (3296, 3297); (3302, 3311); (3313, 3314); (3332, 3340);
   (3342, 3344); (3346, 3386); (3389, 3389); (3406, 3406); (3412, 3414); (3416, 3425);
   (3430, 3448); (3450, 3455); (3461, 3478); (3482, 3505); (3507, 3515); (3517, 3517);
   (3520, 3526); (3558, 3567); (3585, 3632); (3634, 3635); (3648, 3654); (3664, 3673);
   (3713, 3714); (3716, 3716); (3718, 3722); (3724, 3747); (3749, 3749); (3751, 3760);
   (3762, 3763); (3773, 3773); (3776, 3780); (3782, 3782); (3792, 3801); (3804, 3807);
   (3840, 3840); (3872, 3891); (3904, 3911); (3913, 3948); (3976, 3980); (4096, 4138);
   (4159, 4169); (4176, 4181); (4186, 4189); (4193, 4193); (4197, 4198); (4206, 4208);
   (4213, 4225); (4238, 4238); (4240, 4249); (4256, 4293); (4295, 4295); (4301, 4301);
   (4304, 4346); (4348, 4680); (4682, 4685); (4688, 4694); (4696, 4696); (4698, 4701);
   (4704, 4744); (4746, 4749); (4752, 4784); (4786, 4789); (4792, 4798); (4800, 4800);
   (4802, 4805); (4808, 4822); (4824, 4880); (4882, 4885); (4888, 4954); (4969, 4988);
   (4992, 5007); (5024, 5109); (5112, 5117); (5121, 5740); (5743, 5759); (5761, 5786);
   (5792, 5866); (5870, 5880); (5888, 5905); (5919, 5937); (5952, 5969); (5984, 5996);
   (5998, 6000); (6016, 6067); (6103, 6103); (6108, 6108); (6112, 6121); (6128, 6137);
   (6160, 6169); (6176, 6264); (6272, 6276); (6279, 6312); (6314, 6314); (6320, 6389);
   (6400, 6430); (6470, 6509); (6512, 6516); (6528, 6571); (6576, 6601); (6608, 6618);
   (6656, 6678); (6688, 6740); (6784, 6793); (6800, 6809); (6823, 6823); (6917, 6963);
   (6981, 6988); (6992, 7001); (7043, 7072); (7086, 7141); (7168, 7203); (7232, 7241);
   (7245, 7293); (7296, 7304); (7312, 7354); (7357, 7359); (7401, 7404); (7406, 7411);
   (7413, 7414); (7418, 7418); (7424, 7615); (7680, 7957); (7960, 7965); (7968, 8005);
   (8008, 8013); (8016, 8023); (8025, 8025); (8027, 8027); (8029, 8029); (8031, 8061);
   (8064, 8116); (8118, 8124); (8126, 8126); (8130, 8132); (8134, 8140); (8144, 8147);
   (8150, 8155); (8160, 8172); (8178, 8180); (8182, 8188); (8304, 8305); (8308, 8313);
   (8319, 8329); (8336, 8348); (8450, 8450); (8455, 8455); (8458, 8467); (8469, 8469);
   (8473, 8477); (8484, 8484); (8486, 8486); (8488, 8488); (8490, 8493); (8495, 8505);
   (8508, 8511); (8517, 8521); (8526, 8526); (8528, 8585); (9312, 9371); (9450, 9471);
   (10102, 10131); (11264, 11492); (11499, 11502); (11506, 11507); (11517, 11517);
   (11520, 11557); (11559, 11559); (11565, 11565); (11568, 11623); (11631, 11631);
   (11648, 11670); (11680, 11686); (11688, 11694); (11696, 11702); (11704, 11710);
   (11712, 11718); (11720, 11726); (11728, 11734); (11736, 11742); (11823, 11823);
   (12293, 12295); (12321, 12329); (12337, 12341); (12344, 12348); (12353, 12438);
   (12445, 12447); (12449, 12538); (12540, 12543); (12549, 12591); (12593, 12686);
   (12690, 12693); (12704, 12735); (12784, 12799); (12832, 12841); (12872, 12879);
   (12881, 12895); (12928, 12937); (12977, 12991); (13312, 19903); (19968, 42124);
   (42192, 42237); (42240, 42508); (42512, 42539); (42560, 42606); (42623, 42653);
   (42656, 42735); (42775, 42783); (42786, 42888); (42891, 42954); (42960, 42961);
   (42963, 42963); (42965, 42969); (42994, 43009); (43011, 43013); (43015, 43018);
   (43020, 43042); (43056, 43061); (43072, 43123); (43138, 43187); (43216, 43225);
   (43250, 43255); (43259, 43259); (43261, 43262); (43264, 43301); (43312, 43334);
   (43360, 43388); (43396, 43442); (43471, 43481); (43488, 43492); (43494, 43518);
   (43520, 43560); (43584, 43586); (43588, 43595); (43600, 43609); (43616, 43638);
   (43642, 43642); (43646, 43695); (43697, 43697); (43701, 43702); (43705, 43709);
   (43712, 43712); (43714, 43714); (43739, 43741); (43744, 43754); (43762, 43764);
   (43777, 43782); (43785, 43790); (43793, 43798); (43808, 43814); (43816, 43822);
   (43824, 43866); (43868, 43881); (43888, 44002); (44016, 44025); (44032, 55203);
   (55216, 55238); (55243, 55291); (63744, 64109); (64112, 64217); (64256, 64262);
   (64275, 64279); (64285, 64285); (64287, 64296); (64298, 64310); (64312, 64316);
   (64318, 64318); (64320, 64321); (64323, 64324); (64326, 64433); (64467, 64829);
   (64848, 64911); (64914, 64967); (65008, 65019); (65136, 65140); (65142, 65276);
   (65296, 65305); (65313, 65338); (65345, 65370); (65382, 65470); (65474, 65479);
   (65482, 65487); (65490, 65495); (65498, 65500); (65536, 65547); (65549, 65574);
   (65576, 65594); (65596, 65597); (65599, 65613); (65616, 65629); (65664, 65786);
   (65799, 65843); (65856, 65912); (65930, 65931); (66176, 66204); (66208, 66256);
   (66273, 66299); (66304, 66339); (66349, 66378); (66384, 66421); (66432, 66461);
   (66464, 66499); (66504, 66511); (66513, 66517); (66560, 66717); (66720, 66729);
   (66736, 66771); (66776, 66811); (66816, 66855); (66864, 66915); (66928, 66938);
   (66940, 66954); (66956, 66962); (66964, 66965); (66967, 66977); (66979, 66993);
   (66995, 67001); (67003, 67004); (67072, 67382); (67392, 67413); (67424, 67431);
   (67456, 67461); (67463, 67504); (67506, 67514); (67584, 67589); (67592, 67592);
   (67594, 67637); (67639, 67640); (67644, 67644); (67647, 67669); (67672, 67702);
   (67705, 67742); (67751, 67759); (67808, 67826); (67828, 67829); (67835, 67867);
   (67872, 67897); (67968, 68023); (68028, 68047); (68050, 68096); (68112, 68115);
   (68117, 68119); (68121, 68149); (68160, 68168); (68192, 68222); (68224, 68255);
   (68288, 68295); (68297, 68324); (68331, 68335); (68352, 68405); (68416, 68437);
   (68440, 68466); (68472, 68497); (68521, 68527); (68608, 68680); (68736, 68786);
   (68800, 68850); (68858, 68899); (68912, 68921); (69216, 69246); (69248, 69289);
   (69296, 69297); (69376, 69415); (69424, 69445); (69457, 69460); (69488, 69505);
   (69552, 69579); (69600, 69622); (69635, 69687); (69714, 69743); (69745, 69746);
   (69749, 69749); (69763, 69807); (69840, 69864); (69872, 69881); (69891, 69926);
   (69942, 69951); (69956, 69956); (69959, 69959); (69968, 70002); (70006, 70006);
   (70019, 70066); (70081, 70084); (70096, 70106); (70108, 70108); (70113, 70132);
   (70144, 70161); (70163, 70187); (70272, 70278); (70280, 70280); (70282, 70285);
   (70287, 70301); (70303, 70312); (70320, 70366); (70384, 70393); (70405, 70412);
   (70415, 70416); (70419, 70440); (70442, 70448); (70450, 70451); (70453, 70457);
   (70461, 70461); (70480, 70480); (70493, 70497); (70656, 70708); (70727, 70730);
   (70736, 70745); (70751, 70753); (70784, 70831); (70852, 70853); (70855, 70855);
   (70864, 70873); (71040, 71086); (71128, 71131); (71168, 71215); (71236, 71236);
   (71248, 71257); (71296, 71338); (71352, 71352); (71360, 71369); (71424, 71450);
   (71472, 71483); (71488, 71494); (71680, 71723); (71840, 71922); (71935, 71942);
   (71945, 71945); (71948, 71955); (71957, 71958); (71960, 71983); (71999, 71999);
   (72001, 72001); (72016, 72025); (72096, 72103); (72106, 72144); (72161, 72161);
   (72163, 72163); (72192, 72192); (72203, 72242); (72250, 72250); (72272, 72272);
   (72284, 72329); (72349, 72349); (72368, 72440); (72704, 72712); (72714, 72750);
   (72768, 72768); (72784, 72812); (72818, 72847); (72960, 72966); (72968, 72969);
   (72971, 73008); (73030, 73030); (73040, 73049); (73056, 73061); (73063, 73064);
   (73066, 73097); (73112, 73112); (73120, 73129); (73440, 73458); (73648, 73648);
   (73664, 73684); (73728, 74649); (74752, 74862); (74880, 75075); (77712, 77808);
   (77824, 78894); (82944, 83526); (92160, 92728); (92736, 92766); (92768, 92777);
   (92784, 92862); (92864, 92873); (92880, 92909); (92928, 92975); (92992, 92995);
   (93008, 93017); (93019, 93025); (93027, 93047); (93053, 93071); (93760, 93846);
   (93952, 94026); (94032, 94032); (94099, 94111); (94176, 94177); (94179, 94179);
   (94208, 100343); (100352, 101589); (101632, 101640); (110576, 110579);
   (110581, 110587); (110589, 110590); (110592, 110882); (110928, 110930);
   (110948, 110951); (110960, 111355); (113664, 113770); (113776, 113788);
   (113792, 113800); (113808, 113817); (119520, 119539); (119648, 119672);
   (119808, 119892); (119894, 119964); (119966, 119967); (119970, 119970);
   (119973, 119974); (119977, 119980); (119982, 119993); (119995, 119995);
   (119997, 120003); (120005, 120069); (120071, 120074); (120077, 120084);
   (120086, 120092); (120094, 120121); (120123, 120126); (120128, 120132);
   (120134, 120134); (120138, 120144); (120146, 120485); (120488, 120512);
   (120514, 120538); (120540, 120570); (120572, 120596); (120598, 120628);
   (120630, 120654); (120656, 120686); (120688, 120712); (120714, 120744);
   (120746, 120770); (120772, 120779); (120782, 120831); (122624, 122654);
   (123136, 123180); (123191, 123197); (123200, 123209); (123214, 123214);
   (123536, 123565); (123584, 123627); (123632, 123641); (124896, 124902);
   (124904, 124907); (124909, 124910); (124912, 124926); (124928, 125124);
   (125127, 125135); (125184, 125251); (125259, 125259); (125264, 125273);
   (126065, 126123); (126125, 126127); (126129, 126132); (126209, 126253);
   (126255, 126269); (126464, 126467); (126469, 126495); (126497, 126498);
   (126500, 126500); (126503, 126503); (126505, 126514); (126516, 126519);
   (126521, 126521); (126523, 126523); (126530, 126530); (126535, 126535);
   (126537, 126537); (126539, 126539); (126541, 126543); (126545, 126546);
   (126548, 126548); (126551, 126551); (126553, 126553); (126555, 126555);
   (126557, 126557); (126559, 126559); (126561, 126562); (126564, 126564);
   (126567, 126570); (126572, 126578); (126580, 126583); (126585, 126588);
   (126590, 126590); (126592, 126601); (126603, 126619); (126625, 126627);
   (126629, 126633); (126635, 126651); (127232, 127244); (130032, 130041);
   (131072, 173791); (173824, 177976); (177984, 178205); (178208, 183969);
   (183984, 191456); (194560, 195101); (196608, 201546)]%N.

(** Runs of single-character upper-casings: the characters from [lo] to [hi]
    at distance [stride] go, in order, to the characters from [target] on. *)
Definition upper_runs : list (N * N * N * N) :=
  [(97, 122, 1, 65); (181, 181, 1, 924); (224, 246, 1, 192); (248, 254, 1, 216);
   (255, 255, 1, 376); (257, 303, 2, 256); (305, 305, 1, 73); (307, 311, 2, 306);
   (314, 328, 2, 313); (331, 375, 2, 330); (378, 382, 2, 377); (383, 383, 1, 83);
   (384, 384, 1, 579); (387, 389, 2, 386); (392, 392, 1, 391); (396, 396, 1, 395);
   (402, 402, 1, 401); (405, 405, 1, 502); (409, 409, 1, 408); (410, 410, 1, 573);
   (414, 414, 1, 544); (417, 421, 2, 416); (424, 424, 1, 423); (429, 429, 1, 428);
   (432, 432, 1, 431); (436, 438, 2, 435); (441, 441, 1, 440); (445, 445, 1, 444);
   (447, 447, 1, 503); (453, 453, 1, 452); (454, 454, 1, 452); (456, 456, 1, 455);
   (457, 457, 1, 455); (459, 459, 1, 458); (460, 460, 1, 458); (462, 476, 2, 461);
   (477, 477, 1, 398); (479, 495, 2, 478); (498, 498, 1, 497); (499, 499, 1, 497);
   (501, 501, 1, 500); (505, 543, 2, 504); (547, 563, 2, 546); (572, 572, 1, 571);
   (575, 576, 1, 11390); (578, 578, 1, 577); (583, 591, 2, 582); (592, 592, 1, 11375);
   (593, 593, 1, 11373); (594, 594, 1, 11376); (595, 595, 1, 385); (596, 596, 1, 390);
   (598, 599, 1, 393); (601, 601, 1, 399); (603, 603, 1, 400); (604, 604, 1, 42923);
   (608, 608, 1, 403); (609, 609, 1, 42924); (611, 611, 1, 404); (613, 613, 1, 42893);
   (614, 614, 1, 42922); (616, 616, 1, 407); (617, 617, 1, 406); (618, 618, 1, 42926);
   (619, 619, 1, 11362); (620, 620, 1, 42925); (623, 623, 1, 412);
   (625, 625, 1, 11374); (626, 626, 1, 413); (629, 629, 1, 415); (637, 637, 1, 11364);
   (640, 640, 1, 422); (642, 642, 1, 42949); (643, 643, 1, 425); (647, 647, 1, 42929);
   (648, 648, 1, 430); (649, 649, 1, 580); (650, 651, 1, 433); (652, 652, 1, 581);
   (658, 658, 1, 439); (669, 669, 1, 42930); (670, 670, 1, 42928); (837, 837, 1, 921);
   (881, 883, 2, 880); (887, 887, 1, 886); (891, 893, 1, 1021); (940, 940, 1, 902);
   (941, 943, 1, 904); (945, 961, 1, 913); (962, 962, 1, 931); (963, 971, 1, 931);
   (972, 972, 1, 908); (973, 974, 1, 910); (976, 976, 1, 914); (977, 977, 1, 920);
   (981, 981, 1, 934); (982, 982, 1, 928); (983, 983, 1, 975); (985, 1007, 2, 984);
   (1008, 1008, 1, 922); (1009, 1009, 1, 929); (1010, 1010, 1, 1017);
   (1011, 1011, 1, 895); (1013, 1013, 1, 917); (1016, 1016, 1, 1015);
   (1019, 1019, 1, 1018); (1072, 1103, 1, 1040); (1104, 1119, 1, 1024);
   (1121, 1153, 2, 1120); (1163, 1215, 2, 1162); (1218, 1230, 2, 1217);
   (1231, 1231, 1, 1216); (1233, 1327, 2, 1232); (1377, 1414, 1, 1329);
   (4304, 4346, 1, 7312); (4349, 4351, 1, 7357); (5112, 5117, 1, 5104);
   (7296, 7296, 1, 1042); (7297, 7297, 1, 1044); (7298, 7298, 1, 1054);
   (7299, 7300, 1, 1057); (7301, 7301, 1, 1058); (7302, 7302, 1, 1066);
   (7303, 7303, 1, 1122); (7304, 7304, 1, 42570); (7545, 7545, 1, 42877);
   (7549, 7549, 1, 11363); (7566, 7566, 1, 42950); (7681, 7829, 2, 7680);
   (7835, 7835, 1, 7776); (7841, 7935, 2, 7840); (7936, 7943, 1, 7944);
   (7952, 7957, 1, 7960); (7968, 7975, 1, 7976); (7984, 7991, 1, 7992);
   (8000, 8005, 1, 8008); (8017, 8023, 2, 8025); (8032, 8039, 1, 8040);
   (8048, 8049, 1, 8122); (8050, 8053, 1, 8136); (8054, 8055, 1, 8154);
   (8056, 8057, 1, 8184); (8058, 8059, 1, 8170); (8060, 8061, 1, 8186);
   (8112, 8113, 1, 8120); (8126, 8126, 1, 921); (8144, 8145, 1, 8152);
   (8160, 8161, 1, 8168); (8165, 8165, 1, 8172); (8526, 8526, 1, 8498);
   (8560, 8575, 1, 8544); (8580, 8580, 1, 8579); (9424, 9449, 1, 9398);
   (11312, 11359, 1, 11264); (11361, 11361, 1, 11360); (11365, 11365, 1, 570);
   (11366, 11366, 1, 574); (11368, 11372, 2, 11367); (11379, 11379, 1, 11378);
   (11382, 11382, 1, 11381); (11393, 11491, 2, 11392); (11500, 11502, 2, 11499);
   (11507, 11507, 1, 11506); (11520, 11557, 1, 4256); (11559, 11559, 1, 4295);
   (11565, 11565, 1, 4301); (42561, 42605, 2, 42560); (42625, 42651, 2, 42624);
   (42787, 42799, 2, 42786); (42803, 42863, 2, 42802); (42874, 42876, 2, 42873);
   (42879, 42887, 2, 42878); (42892, 42892, 1, 42891); (42897, 42899, 2, 42896);
   (42900, 42900, 1, 42948); (42903, 42921, 2, 42902); (42933, 42947, 2, 42932);
   (42952, 42954, 2, 42951); (42961, 42961, 1, 42960); (42967, 42969, 2, 42966);
   (42998, 42998, 1, 42997); (43859, 43859, 1, 42931); (43888, 43967, 1, 5024);
   (65345, 65370, 1, 65313); (66600, 66639, 1, 66560); (66776, 66811, 1, 66736);
   (66967, 66977, 1, 66928); (66979, 66993, 1, 66940); (66995, 67001, 1, 66956);
   (67003, 67004, 1, 66964); (68800, 68850, 1, 68736); (71872, 71903, 1, 71840);
   (93792, 93823, 1, 93760); (125218, 125251, 1, 125184)]%N.

(** The characters whose upper-casing is more than one character. *)
Definition upper_special : list (N * list N) :=
  [(223, [83; 83]); (329, [700; 78]); (496, [74; 780]); (912, [921; 776; 769]);
   (944, [933; 776; 769]); (1415, [1333; 1362]); (7830, [72; 817]); (7831, [84; 776]);
   (7832, [87; 778]); (7833, [89; 778]); (7834, [65; 702]); (8016, [933; 787]);
   (8018, [933; 787; 768]); (8020, [933; 787; 769]); (8022, [933; 787; 834]);
   (8064, [7944; 921]); (8065, [7945; 921]); (8066, [7946; 921]); (8067, [7947; 921]);
   (8068, [7948; 921]); (8069, [7949; 921]); (8070, [7950; 921]); (8071, [7951; 921]);
   (8072, [7944; 921]); (8073, [7945; 921]); (8074, [7946; 921]); (8075, [7947; 921]);
   (8076, [7948; 921]); (8077, [7949; 921]); (8078, [7950; 921]); (8079, [7951; 921]);
   (8080, [7976; 921]); (8081, [7977; 921]); (8082, [7978; 921]); (8083, [7979; 921]);
   (8084, [7980; 921]); (8085, [7981; 921]); (8086, [7982; 921]); (8087, [7983; 921]);
   (8088, [7976; 921]); (8089, [7977; 921]); (8090, [7978; 921]); (8091, [7979; 921]);
   (8092, [7980; 921]); (8093, [7981; 921]); (8094, [7982; 921]); (8095, [7983; 921]);
   (8096, [8040; 921]); (8097, [8041; 921]); (8098, [8042; 921]); (8099, [8043; 921]);
   (8100, [8044; 921]); (8101, [8045; 921]); (8102, [8046; 921]); (8103, [8047; 921]);
   (8104, [8040; 921]); (8105, [8041; 921]); (8106, [8042; 921]); (8107, [8043; 921]);
   (8108, [8044; 921]); (8109, [8045; 921]); (8110, [8046; 921]); (8111, [8047; 921]);
   (8114, [8122; 921]); (8115, [913; 921]); (8116, [902; 921]); (8118, [913; 834]);
   (8119, [913; 834; 921]); (8124, [913; 921]); (8130, [8138; 921]);
   (8131, [919; 921]); (8132, [905; 921]); (8134, [919; 834]);
   (8135, [919; 834; 921]); (8140, [919; 921]); (8146, [921; 776; 768]);
   (8147, [921; 776; 769]); (8150, [921; 834]); (8151, [921; 776; 834]);
   (8162, [933; 776; 768]); (8163, [933; 776; 769]); (8164, [929; 787]);
   (8166, [933; 834]); (8167, [933; 776; 834]); (8178, [8186; 921]);
   (8179, [937; 921]); (8180, [911; 921]); (8182, [937; 834]);
   (8183, [937; 834; 921]); (8188, [937; 921]); (64256, [70; 70]); (64257, [70; 73]);
   (64258, [70; 76]); (64259, [70; 70; 73]); (64260, [70; 70; 76]); (64261, [83; 84]);
   (64262, [83; 84]); (64275, [1348; 1350]); (64276, [1348; 1333]);
   (64277, [1348; 1339]); (64278, [1358; 1350]); (64279, [1348; 1341])]%N.

(** [c.isalnum()] of one character. *)
Definition isalnum_cp (n : N) : bool :=
  existsb (fun r => (r.1 <=? n)%N && (n <=? r.2)%N) alnum_ranges.

(** [c.upper()] of one character. *)
Definition upper_cp (n : N) : list N :=
  match list_find (fun e => bool_decide (e.1 = n)) upper_special with
  | Some (_, (_, l)) => l
  | None =>
      match list_find
              (fun r => let '(lo, hi, stride, _) := r in
                        bool_decide ((lo <= n <= hi)%N /\ ((n - lo) mod stride = 0)%N))
              upper_runs with
      | Some (_, (lo, _, _, target)) => [(target + (n - lo))%N]
      | None => [n]
      end
  end.

(** [str.isspace] on ASCII: TAB..CR, FS..US and the blank. *)
Definition is_space (c : ascii) : bool :=
  let n := nat_of_ascii c in
  ((9 <=? n)%nat && (n <=? 13)%nat) || ((28 <=? n)%nat && (n <=? 32)%nat).

(** [s.isalnum()]: every character alphanumeric and at least one character. *)
Definition isalnum (s : string) : bool :=
  match codepoints s with
  | [] => false
  | l => forallb isalnum_cp l
  end.

(** [s.upper()] *)
Definition upper (s : string) : string :=
  foldr utf8 EmptyString (codepoints s ≫= upper_cp).

(** [len(s)]: the number of characters. *)
Definition len (s : string) : nat := length (codepoints s).

(** [expected.startswith(actual)] *)
Definition startswith (s pre : string) : bool := String.prefix pre s.

(** [s.endswith(",")], for a one-character suffix. *)
Fixpoint endswith_char (s : string) (c : ascii) : bool :=
  match s with
  | EmptyString => false
  | String a EmptyString => bool_decide (a = c)
  | String _ t => endswith_char t c
  end.

(** [s[:-1]] *)
Fixpoint drop_last (s : string) : string :=
  match s with
  | EmptyString => EmptyString
  | String _ EmptyString => EmptyString
  | String a t => String a (drop_last t)
  end.

Fixpoint lstrip (s : string) : string :=
  match s with
  | EmptyString => EmptyString
  | String c t => if is_space c then lstrip t else s
  end.

(** [rstrip] keeps a character when it is not white or something is kept
    after it. *)
Fixpoint rstrip (s : string) : string :=
  match s with
  | EmptyString => EmptyString
  | String c t =>
      match rstrip t with
      | EmptyString => if is_space c then EmptyString else String c EmptyString
      | r => String c r
      end
  end.

(** [s.strip()] *)
Definition strip (s : string) : string := rstrip (lstrip s).

(** [s.rpartition(" ")] when the separator occurs: the text before the last
    blank and the text after it. *)
Fixpoint rpartition (s : string) : option (string * string) :=
  match s with
  | EmptyString => None
  | String c t =>
      match rpartition t with
      | Some (l, r) => Some (String c l, r)
      | None => if bool_decide (c = " "%char) then Some (EmptyString, t) else None
      end
  end.

(** [s.rsplit(" ", maxsplit)] *)
Fixpoint rsplit (s : string) (maxsplit : nat) : list string :=
  match maxsplit with
  | O => [s]
  | S n =>
      match rpartition s with
      | None => [s]
      | Some (l, r) => rsplit l n ++ [r]
      end
  end.

(** [sep.join(l)] *)
Fixpoint join (sep : string) (l : list string) : string :=
  match l with
  | [] => ""
  | [x] => x
  | x :: t => x +:+ sep +:+ join sep t
  end.

(** [str(x)] / ["{}".format(x)] of an optional text. *)
Definition str (x : option string) : string :=
  match x with
  | None => "None"
  | Some s => s
  end.

(** [repr(s)] of a text without quotes, backslashes or control characters. *)
Definition repr (s : string) : string := "'" +:+ s +:+ "'".

(** [a or b] on optional texts: [a] when it is truthy (neither [None] nor
    empty). *)
Definition or_ (a b : option string) : option string :=
  match a with
  | None | Some EmptyString => b
  | Some _ => a
  end.

(** Truthiness of an optional text. *)
Definition truthy (a : option string) : bool :=
  match a with
  | None | Some EmptyString => false
  | Some _ => true
  end.

End Py.

(** ** Exceptions and the engine monad *)

Inductive exn : Type :=
| SDMoxError (message : string)   (* str(exc) is "SD-Mox: " + message *)
| ValueError
| KeyError (key : string)
| IndexError
| TypeError.

Inductive result (A : Type) : Type :=
| Ok (a : A)
| Raise (e : exn).
Arguments Ok {A} a.
Arguments Raise {A} e.

(** ** Data of the directory and of the registry *)

(** An address record of the directory: [d["address_type"]["scope"]],
    [d["address_type"]["user_key"]] and [d["value"]]. *)
Record Address : Type := {
  addr_scope : string;
  addr_user_key : string;
  addr_value : string
}.

(** An organisational unit as the directory returns it. [name] and
    [user_key] may be null; [org_unit_level] is
    [unit["org_unit_level"]["uuid"]]; [details] is
    [unit.get("details", [])]. *)
Record OrgUnit : Type := {
  ou_name : option string;
  ou_user_key : option string;
  ou_uuid : string;
  ou_org_unit_level : string;
  ou_details : list Address
}.

Record ContactInformation : Type := {
  TelephoneNumberIdentifier : option (list (option string))
}.

Record PostalAddress : Type := {
  StandardAddressIdentifier : option string;
  PostalCode : option string;
  DistrictName : option string
}.

(** A department of the registry; an absent key is [None]. *)
Record Department : Type := {
  ActivationDate : option string;
  DepartmentName : option string;
  DepartmentIdentifier : option string;
  DepartmentUUIDIdentifier : option string;
  DepartmentLevelIdentifier : option string;
  ContactInformation_ : option ContactInformation;
  ProductionUnitIdentifier : option string;
  PostalAddress_ : option PostalAddress
}.

(** [department.get("Department", None)]: nothing, one department, or a
    list of them when the lookup is not unique. *)
Inductive DepartmentInfo : Type :=
| NoDepartment
| OneDepartment (d : Department)
| DepartmentList (l : list Department).

(** [parent.get("DepartmentParent", None)] when present. *)
Record DepartmentParent : Type := {
  ParentUUIDIdentifier : option string   (* key DepartmentUUIDIdentifier *)
}.

(** What one [requests.get] on the address service does: the call itself
    raises, or a response comes back whose [json()] either raises ([None])
    or parses to a list of objects, and whose [raise_for_status()] passes
    or raises. *)
Inductive HttpOutcome : Type :=
| RequestFailed
| Response (json : option (list (gmap string string))) (status_ok : bool).

(** ** Payloads *)

(** The [parent] entry of a create/move payload. *)
Record ParentRef : Type := {
  parent_unit_code : option string;
  parent_uuid : string;
  parent_level : string
}.

(** The dictionary built by [_payload_create]. *)
Record CreatePayload : Type := {
  cp_unit_name : option string;
  cp_parent : ParentRef;
  cp_unit_code : option string;
  cp_unit_level : string;
  cp_unit_uuid : string
}.

(** The dictionary built by [_mo_to_sd_address]. *)
Record SDAddress : Type := {
  AdresseNavn : string;
  PostKodeIdentifikator : string;
  ByNavn : string
}.

(** The dictionary built by [_payload_edit]. *)
Record EditPayload : Type := {
  ep_unit_name : option string;
  ep_unit_code : option string;
  ep_unit_uuid : string;
  ep_phone : option string;
  ep_pnummer : option string;
  ep_adresse : option SDAddress;
  ep_formaalskode : option string;
  ep_skolekode : option string
}.

(** The keyword arguments of [_check_department] (and of [_check_unit]),
    each [None] unless the payload carries it. [integration_values] is
    ignored by the check and left out. *)
Record CheckArgs : Type := {
  unit_name : option string;
  unit_code : option string;
  unit_uuid : option string;
  unit_level : option string;
  phone : option string;
  pnummer : option string;
  adresse : option SDAddress;
  parent : option ParentRef
}.

Inductive Operation : Type := flyt | ret | import.

(** [**payload] of a create/move payload. *)
Definition check_args_of_create (p : CreatePayload) : CheckArgs :=
  {| unit_name := cp_unit_name p;
     unit_code := cp_unit_code p;
     unit_uuid := Some (cp_unit_uuid p);
     unit_level := Some (cp_unit_level p);
     phone := None; pnummer := None; adresse := None;
     parent := Some (cp_parent p) |}.

(** [**payload] of an edit payload. *)
Definition check_args_of_edit (p : EditPayload) : CheckArgs :=
  {| unit_name := ep_unit_name p;
     unit_code := ep_unit_code p;
     unit_uuid := Some (ep_unit_uuid p);
     unit_level := None;
     phone := ep_phone p; pnummer := ep_pnummer p; adresse := ep_adresse p;
     parent := None |}.

(** ** The world outside the engine *)

(** What the engine changes outside itself: the documents published on the
    message channel (oldest first), the address-service requests made
    (endpoint and id, oldest first) and the number of [asyncio.sleep] waits
    so far, which is the time the registry answers at. *)
Record World : Type := {
  published : list string;
  lookups : list (string * string);
  clock : nat
}.

(** The world after [n] more waits, after the documents [docs] were
    published, after the address requests [reqs] were made. *)
Definition waited (n : nat) (w : World) : World :=
  {| published := published w; lookups := lookups w; clock := clock w + n |}.

Definition sent (docs : list string) (w : World) : World :=
  {| published := published w ++ docs; lookups := lookups w; clock := clock w |}.

Definition requested (reqs : list (string * string)) (w : World) : World :=
  {| published := published w; lookups := lookups w ++ reqs; clock := clock w |}.

(** The settings, the engine's fields and its collaborators. The registry
    reader answers by the time of the read, as the registry applies changes
    asynchronously. The three renderers stand for [xmltodict.unparse] of the
    dictionaries of [app.sd_mox_payloads]. *)
Record Env : Type := {
  amqp_check_retries : nat;
  sd_levels : list (string * string);
  from_date : string;
  read_ou : string -> option string -> OrgUnit;
  read_ou_address : string -> option string -> list Address;
  requests_get : string -> string -> HttpOutcome;
  getDepartment : nat -> option string -> option string -> DepartmentInfo;
  getDepartmentParent : nat -> option string -> option DepartmentParent;
  _create_xml_import : CreatePayload -> string;
  _create_xml_flyt : CreatePayload -> string;
  _create_xml_ret : EditPayload -> string
}.

(** ** The engine monad: state over [World] with exceptions *)

Definition M (A : Type) : Type := World -> result A * World.

Definition ret_ {A} (a : A) : M A := fun w => (Ok a, w).

Definition raise {A} (e : exn) : M A := fun w => (Raise e, w).

Definition bind {A B} (m : M A) (k : A -> M B) : M B :=
  fun w =>
    match m w with
    | (Ok a, w') => k a w'
    | (Raise e, w') => (Raise e, w')
    end.

Definition lift {A} (r : result A) : M A := fun w => (r, w).

Declare Scope engine_scope.
Delimit Scope engine_scope with engine.
Notation "'let*' x ':=' m 'in' k" := (bind m (fun x => k))
  (at level 10, x pattern, m at level 100, k at level 200) : engine_scope.
Notation "m ;;; k" := (bind m (fun _ => k))
  (at level 100, right associativity) : engine_scope.
Open Scope engine_scope.

(** [await asyncio.sleep(...)] *)
Definition sleep : M unit := fun w => (Ok tt, waited 1 w).

(** [self._call(xml)]: connect and publish the document. *)
Definition _call (xml : string) : M unit := fun w => (Ok tt, sent [xml] w).

(** The current time of the registry. *)
Definition now : M nat := fun w => (Ok (clock w), w).

(** ** The engine *)

Section SDMox.

Context (self : Env).

(** [self.level_by_uuid = {v: k for k, v in self.sd_levels.items()}] *)
Definition level_by_uuid : gmap string string :=
  foldl (fun m kv => <[kv.2 := kv.1]> m) ∅ (sd_levels self).

(** [l.index(x)] *)
Fixpoint index (x : string) (l : list string) : result nat :=
  match l with
  | [] => Raise ValueError
  | y :: t =>
      if bool_decide (y = x) then Ok 0
      else match index x t with
           | Ok i => Ok (S i)
           | Raise e => Raise e
           end
  end.

(** [list(self.sd_levels.keys()).index(level)] *)
Definition level_index (level : string) : result nat :=
  index level (sd_levels self).*1.

(** [d[key]] on a department: [KeyError] when the key is absent. *)
Definition getitem (key : string) (v : option string) : result string :=
  match v with
  | Some x => Ok x
  | None => Raise (KeyError key)
  end.

(** A department dictionary is truthy when it has a key. *)
Definition has_keys (d : Department) : bool :=
  bool_decide (is_Some (ActivationDate d)) || bool_decide (is_Some (DepartmentName d))
  || bool_decide (is_Some (DepartmentIdentifier d))
  || bool_decide (is_Some (DepartmentUUIDIdentifier d))
  || bool_decide (is_Some (DepartmentLevelIdentifier d))
  || bool_decide (is_Some (ContactInformation_ d))
  || bool_decide (is_Some (ProductionUnitIdentifier d))
  || bool_decide (is_Some (PostalAddress_ d)).

Definition _read_parent (unit_uuid : option string) : M (option DepartmentParent) :=
  let* t := now in
  ret_ (getDepartmentParent self t unit_uuid).

Definition _read_department (unit_code unit_uuid unit_level : option string)
  : M (option Department) :=
  let* t := now in
  match getDepartment self t (Py.or_ unit_uuid unit_code) unit_level with
  | NoDepartment => ret_ None
  | OneDepartment d => ret_ (Some d)
  | DepartmentList _ =>
      raise (SDMoxError ("Afdeling ikke unik. Code " +:+ Py.str unit_code
                         +:+ ", uuid " +:+ Py.str unit_uuid
                         +:+ ", level " +:+ Py.str unit_level))
  end.

(** The comparators of [compare]: [operator.ne], and for the name
    [lambda actual, expected: not expected.startswith(actual)], which raises
    [TypeError] on an absent observed name. *)
Definition ne (actual : option string) (expected : string) : result bool :=
  Ok (negb (bool_decide (actual = Some expected))).

Definition not_startswith (actual : option string) (expected : string) : result bool :=
  match actual with
  | Some a => Ok (negb (Py.startswith expected a))
  | None => Raise TypeError
  end.

(** The local [compare] of [_check_department]; [errors] is the list it
    appends to. *)
Definition compare (actual expected : option string) (error : string)
    (comparator : option string -> string -> result bool) (errors : list string)
  : result (list string) :=
  match expected with
  | None => Ok errors
  | Some e =>
      match comparator actual e with
      | Ok true => Ok (errors ++ [error])
      | Ok false => Ok errors
      | Raise x => Raise x
      end
  end.

(** [department.get("ContactInformation", {}).get("TelephoneNumberIdentifier", [None])[0]] *)
Definition observed_phone (department : Department) : result (option string) :=
  match ContactInformation_ department with
  | None => Ok None
  | Some ci =>
      match TelephoneNumberIdentifier ci with
      | None => Ok None
      | Some [] => Raise IndexError
      | Some (x :: _) => Ok x
      end
  end.

Definition in_ret_import (operation : Operation) : bool :=
  match operation with
  | ret | import => true
  | flyt => false
  end.

Definition _check_department (a : CheckArgs) (operation : Operation)
  : M (option Department * list string) :=
  let errors := [] in
  let* found := _read_department (unit_code a) (unit_uuid a) (unit_level a) in
  match found with
  | None => ret_ (None, ["Unit"])
  | Some department =>
      let* errors :=
        lift (if in_ret_import operation
              then compare (ActivationDate department) (Some (from_date self))
                     "Activation Date" ne errors
              else Ok errors) in
      let* errors :=
        lift (compare (DepartmentName department) (unit_name a) "Name" not_startswith errors) in
      let* errors :=
        lift (compare (DepartmentIdentifier department) (unit_code a) "Unit code" ne errors) in
      let* errors :=
        lift (compare (DepartmentUUIDIdentifier department) (unit_uuid a) "UUID" ne errors) in
      let* errors :=
        lift (compare (DepartmentLevelIdentifier department) (unit_level a) "Level" ne errors) in
      let* actual_phone := lift (observed_phone department) in
      let* errors := lift (compare actual_phone (phone a) "Phone" ne errors) in
      let* errors :=
        lift (compare (ProductionUnitIdentifier department) (pnummer a) "Pnummer" ne errors) in
      let* errors :=
        match adresse a with
        | Some adr =>
            let actual := PostalAddress_ department in
            let* errors :=
              lift (compare (actual ≫= StandardAddressIdentifier) (Some (AdresseNavn adr))
                      "Address" ne errors) in
            let* errors :=
              lift (compare (actual ≫= PostalCode) (Some (PostKodeIdentifikator adr))
                      "Zip code" ne errors) in
            lift (compare (actual ≫= DistrictName) (Some (ByNavn adr))
                    "Postal Area" ne errors)
        | None => ret_ errors
        end in
      let* errors :=
        match parent a with
        | Some par =>
            let parent_uuid := parent_uuid par in
            let* actual := _read_parent (unit_uuid a) in
            match actual with
            | Some actual =>
                lift (compare (ParentUUIDIdentifier actual) (Some parent_uuid) "Parent" ne errors)
            | None => ret_ (errors ++ ["Parent"])
            end
        | None => ret_ errors
        end in
      ret_ (Some department, errors)
  end.

(** The syntax rules of [_validate_unit_code], in the order the code
    appends their messages. *)
Definition unit_code_syntax_errors (unit_code : option string) : list string :=
  match unit_code with
  | None => ["Enhedsnummer ikke angivet"]
  | Some c =>
      (if (Py.len c <? 2)%nat then ["Enhedsnummer for kort"]
       else if (4 <? Py.len c)%nat then ["Enhedsnummer for langt"]
       else [])
      ++ (if negb (Py.isalnum c) then ["Ugyldigt tegn i enhedsnummer"] else [])
      ++ (if negb (bool_decide (Py.upper c = c))
          then ["Enhedsnummer skal være store bogstaver"] else [])
  end.

Definition _validate_unit_code (unit_code : option string) (can_exist : bool)
  : M (list string) :=
  let code_errors := unit_code_syntax_errors unit_code in
  if bool_decide (code_errors = []) && negb can_exist then
    let* department := _read_department unit_code None None in
    match department with
    | Some _ => ret_ (code_errors ++ ["Enhedsnummer er i brug"])
    | None => ret_ code_errors
    end
  else ret_ code_errors.

(** The tuple unpacking of [address.rsplit(" ", maxsplit=2)] raises
    [ValueError] unless the split has three parts. *)
Definition _mo_to_sd_address (address : option string) : result (option SDAddress) :=
  match address with
  | None => Ok None
  | Some address =>
      match Py.rsplit address 2 with
      | [street; zip_code; city] =>
          let street :=
            if Py.endswith_char street ","%char then Py.drop_last street else street in
          Ok (Some {| AdresseNavn := Py.strip street;
                      PostKodeIdentifikator := Py.strip zip_code;
                      ByNavn := Py.strip city |})
      | _ => Raise ValueError
      end
  end.

(** The level check shared by [_create_unit] and [_move_unit], from the
    read of the parent department on. *)
Definition check_parent_level (p : CreatePayload) : M unit :=
  let* parent_department :=
    _read_department (parent_unit_code (cp_parent p)) None
      (Some (parent_level (cp_parent p))) in
  match parent_department with
  | None => raise (SDMoxError "Forældrenheden findes ikke")
  | Some pd =>
      if negb (has_keys pd) then raise (SDMoxError "Forældrenheden findes ikke")
      else
        let* unit_index := lift (level_index (cp_unit_level p)) in
        let* parent_level :=
          lift (getitem "DepartmentLevelIdentifier" (DepartmentLevelIdentifier pd)) in
        let* parent_index := lift (level_index parent_level) in
        if negb (parent_index <? unit_index)%nat
        then raise (SDMoxError "Enhedstypen passer ikke til forældreenheden")
        else ret_ tt
  end.

Definition _create_unit (p : CreatePayload) (test_run : bool) : M string :=
  let* code_errors := _validate_unit_code (cp_unit_code p) false in
  if negb (bool_decide (code_errors = []))
  then raise (SDMoxError (Py.join ", " code_errors))
  else
    check_parent_level p ;;;
    let xml := _create_xml_import self p in
    (if negb test_run then _call xml else ret_ tt) ;;;
    ret_ (cp_unit_uuid p).

Definition _edit_unit (test_run : bool) (p : EditPayload) : M string :=
  let xml := _create_xml_ret self p in
  (if negb test_run then _call xml else ret_ tt) ;;;
  ret_ (ep_unit_uuid p).

Definition _move_unit (p : CreatePayload) (test_run : bool) : M string :=
  let* code_errors := _validate_unit_code (cp_unit_code p) true in
  if negb (bool_decide (code_errors = []))
  then raise (SDMoxError (Py.join ", " code_errors))
  else
    check_parent_level p ;;;
    let xml := _create_xml_flyt self p in
    (if negb test_run then _call xml else ret_ tt) ;;;
    ret_ (cp_unit_uuid p).

(** The [for] loop of [_check_unit]: [attempts] iterations are left,
    [unit] and [errors] are the variables of the method. *)
Fixpoint check_unit_loop (attempts : nat) (a : CheckArgs) (operation : Operation)
    (unit : option Department) (errors : option (list string))
  : M (option Department * option (list string)) :=
  match attempts with
  | O => ret_ (unit, errors)
  | S n =>
      sleep ;;;
      let* r := _check_department a operation in
      match r.1 with
      | Some _ => ret_ (r.1, Some r.2)
      | None => check_unit_loop n a operation r.1 (Some r.2)
      end
  end.

Definition _check_unit (operation : Operation) (a : CheckArgs) : M Department :=
  let* r := check_unit_loop (amqp_check_retries self) a operation None None in
  match r.1 with
  | None => raise (SDMoxError ("Afdeling ikke fundet: " +:+ Py.str (unit_uuid a)))
  | Some unit =>
      match r.2 with
      | Some (e :: errors) =>
          let errstr := Py.join ", " (e :: errors) in
          raise (SDMoxError ("Følgende felter kunne ikke opdateres i SD: " +:+ errstr))
      | _ => ret_ unit
      end
  end.

Definition _payload_create (unit_uuid : string) (unit parent : OrgUnit) : M CreatePayload :=
  let unit_level := level_by_uuid !! ou_org_unit_level unit in
  if negb (Py.truthy unit_level)
  then raise (SDMoxError "Enhedstype er ikke et kendt NY-niveau")
  else
    let parent_level := level_by_uuid !! ou_org_unit_level parent in
    if negb (Py.truthy parent_level)
    then raise (SDMoxError "Forældreenhedens enhedstype er ikke et kendt NY-niveau")
    else
      ret_ {| cp_unit_name := ou_name unit;
              cp_parent := {| parent_unit_code := ou_user_key parent;
                              parent_uuid := ou_uuid parent;
                              parent_level := default "" parent_level |};
              cp_unit_code := ou_user_key unit;
              cp_unit_level := default "" unit_level;
              cp_unit_uuid := unit_uuid |}.

(** One [requests.get("https://dawa.aws.dk/" + addrtype, params=[("id", addrid), ...])] *)
Definition get (addrtype addrid : string) : M HttpOutcome :=
  fun w =>
    (Ok (requests_get self ("https://dawa.aws.dk/" +:+ addrtype) addrid),
     requested [(addrtype, addrid)] w).

Definition addrtypes : list string :=
  ["adresser"; "adgangsadresser"; "historik/adresser"; "historik/adgangsadresser"].

(** The [for ... else] of [_get_dar_address] over the endpoints left. *)
Fixpoint dar_loop (addrid : string) (types : list string) : M (list (gmap string string)) :=
  match types with
  | [] => raise (SDMoxError ("Addresse ikke fundet i DAR: " +:+ Py.repr addrid))
  | addrtype :: rest =>
      let* r := get addrtype addrid in
      match r with
      | Response (Some addrobjs) true =>
          match addrobjs with
          | _ :: _ => ret_ addrobjs
          | [] => dar_loop addrid rest
          end
      | _ => raise (SDMoxError ("Fejlende opslag i DAR for " +:+ addrid))
      end
  end.

Definition _get_dar_address (addrid : string) : M string :=
  let* addrobjs := dar_loop addrid addrtypes in
  match last addrobjs with
  | None => raise IndexError
  | Some obj => lift (getitem "betegnelse" (obj !! "betegnelse"))
  end.

(** [m.setdefault(k, []).append(v)] *)
Definition setdefault_append (k v : string) (m : gmap string (list string))
  : gmap string (list string) :=
  <[k := default [] (m !! k) ++ [v]]> m.

(** The loop of [_grouped_addresses] over the details left. *)
Fixpoint grouped_loop (details : list Address) (scoped keyed : gmap string (list string))
  : M (gmap string (list string) * gmap string (list string)) :=
  match details with
  | [] => ret_ (scoped, keyed)
  | d :: rest =>
      let* v :=
        if bool_decide (addr_scope d = "DAR")
        then _get_dar_address (addr_value d)
        else ret_ (addr_value d) in
      grouped_loop rest
        (setdefault_append (addr_scope d) v scoped)
        (setdefault_append (addr_user_key d) (addr_value d) keyed)
  end.

Definition _grouped_addresses (details : list Address)
  : M (gmap string (list string) * gmap string (list string)) :=
  grouped_loop details ∅ ∅.

(** [m.get(k, [None])[0]] *)
Definition first_of (m : gmap string (list string)) (k : string) : result (option string) :=
  match m !! k with
  | None => Ok None
  | Some [] => Raise IndexError
  | Some (x :: _) => Ok (Some x)
  end.

Definition _payload_edit (unit_uuid : string) (unit : OrgUnit) (addresses : list Address)
  : M EditPayload :=
  let* g := _grouped_addresses addresses in
  let scoped := g.1 in
  let keyed := g.2 in
  if bool_decide (is_Some (scoped !! "PNUMBER")) && negb (bool_decide (is_Some (scoped !! "DAR")))
  then raise (SDMoxError "Opret postaddresse før pnummer")
  else
    let* phone := lift (first_of scoped "PHONE") in
    let* pnummer := lift (first_of scoped "PNUMBER") in
    let* dar := lift (first_of scoped "DAR") in
    let* adresse := lift (_mo_to_sd_address dar) in
    let* formaalskode := lift (first_of keyed "Formålskode") in
    let* skolekode := lift (first_of keyed "Skolekode") in
    ret_ {| ep_unit_name := ou_name unit;
            ep_unit_code := ou_user_key unit;
            ep_unit_uuid := unit_uuid;
            ep_phone := phone;
            ep_pnummer := pnummer;
            ep_adresse := adresse;
            ep_formaalskode := formaalskode;
            ep_skolekode := skolekode |}.

Definition _update_ou (unit_uuid : string) (unit_data : OrgUnit) (addresses : list Address)
    (dry_run : bool) : M Department :=
  let* payload := _payload_edit unit_uuid unit_data addresses in
  _edit_unit dry_run payload ;;;
  _check_unit ret (check_args_of_edit payload).

(** ** The public operations *)

(** [unit_data["name"] = new_unit_name] *)
Definition set_name (unit_data : OrgUnit) (new_unit_name : string) : OrgUnit :=
  {| ou_name := Some new_unit_name;
     ou_user_key := ou_user_key unit_data;
     ou_uuid := ou_uuid unit_data;
     ou_org_unit_level := ou_org_unit_level unit_data;
     ou_details := ou_details unit_data |}.

Definition rename_unit (unit_uuid new_unit_name at_ : string) (dry_run : bool)
  : M Department :=
  let unit_data := read_ou self unit_uuid (Some at_) in
  let unit_data := set_name unit_data new_unit_name in
  let* code_errors := _validate_unit_code (ou_user_key unit_data) true in
  if negb (bool_decide (code_errors = []))
  then raise (SDMoxError (Py.join ", " code_errors))
  else
    let addresses := read_ou_address self unit_uuid (Some at_) in
    _update_ou unit_uuid unit_data addresses dry_run.

(** [payload["unit_name"] = None] followed by [**payload]: what move
    verifies. *)
Definition move_check_args (p : CreatePayload) : CheckArgs :=
  {| unit_name := None;
     unit_code := cp_unit_code p;
     unit_uuid := Some (cp_unit_uuid p);
     unit_level := Some (cp_unit_level p);
     phone := None; pnummer := None; adresse := None;
     parent := Some (cp_parent p) |}.

Definition move_unit (unit_uuid new_parent_uuid at_ : string) (dry_run : bool)
  : M Department :=
  let unit_data := read_ou self unit_uuid (Some at_) in
  let* code_errors := _validate_unit_code (ou_user_key unit_data) true in
  if negb (bool_decide (code_errors = []))
  then raise (SDMoxError (Py.join ", " code_errors))
  else
    let new_parent_unit := read_ou self new_parent_uuid None in
    let* payload := _payload_create unit_uuid unit_data new_parent_unit in
    _move_unit payload dry_run ;;;
    _check_unit flyt (move_check_args payload).

Definition create_unit (unit_uuid : string) (unit_data parent_data : OrgUnit)
    (dry_run : bool) : M Department :=
  let* payload := _payload_create unit_uuid unit_data parent_data in
  _create_unit payload dry_run ;;;
  let details := ou_details unit_data in
  (match details with
   | _ :: _ =>
       let addresses := details in
       _update_ou unit_uuid unit_data addresses dry_run ;;; ret_ tt
   | [] => ret_ tt
   end) ;;;
  _check_unit import (check_args_of_create payload).

Definition create_address (unit_uuid : string) (address_data : Address) (at_ : string)
    (dry_run : bool) : M Department :=
  let unit_data := read_ou self unit_uuid (Some at_) in
  let previous_addresses := read_ou_address self unit_uuid (Some at_) in
  let addresses := [address_data] ++ previous_addresses in
  _update_ou unit_uuid unit_data addresses dry_run.

Definition edit_address (unit_uuid : string) (address_data : Address) (at_ : string)
    (dry_run : bool) : M Department :=
  create_address unit_uuid address_data at_ dry_run.

End SDMox.

(** ** Construction of the level hierarchy *)

(** [_fetch_class_map]: [dict(map(itemgetter("user_key", "uuid"), classes))]
    over the classes of the facet, each given by its user key and its uuid;
    a later class takes the place of an earlier one of the same key. *)
Definition _fetch_class_map (classes : list (string * string)) : gmap string string :=
  foldl (fun m kv => <[kv.1 := kv.2]> m) ∅ classes.

(** [d[k] = v] on an [OrderedDict]: a new key goes last, a known key keeps
    its place and takes the value. *)
Fixpoint od_insert (k v : string) (d : list (string * string)) : list (string * string) :=
  match d with
  | [] => [(k, v)]
  | (k', v') :: t =>
      if bool_decide (k' = k) then (k, v) :: t else (k', v') :: od_insert k v t
  end.

(** [OrderedDict(map(lambda key: (key, classes[key]), keys))], the pairs
    being produced one by one: the first key that is no class raises
    [KeyError]. *)
Fixpoint od_of_keys (classes : gmap string string) (keys : list string)
    (d : list (string * string)) : result (list (string * string)) :=
  match keys with
  | [] => Ok d
  | key :: rest =>
      match classes !! key with
      | None => Raise (KeyError key)
      | Some v => od_of_keys classes rest (od_insert key v d)
      end
  end.

(** [_read_ou_levelkeys], from the classes of the facet [org_unit_level]
    and the setting [ou_levelkeys]. *)
Definition _read_ou_levelkeys (org_unit_level : list (string * string))
    (ou_levelkeys : list string) : result (list (string * string)) :=
  let classes := _fetch_class_map org_unit_level in
  od_of_keys classes ou_levelkeys [].

(** ** The validity window *)

(** The attributes [self.virkning] and [self._times] of the engine, each
    absent until it is first set; [_times] holds [virk_from] and
    [virk_to]. *)
Record Validity (V : Type) : Type := {
  virkning : option V;
  _times : option (string * string)
}.
Arguments virkning {V} _.
Arguments _times {V} _.

Section Virkning.

(** Dates with their day of the month, [date(9999, 12, 31)],
    [d.strftime("%Y-%m-%dT00:00:00.00")] and [smp.sd_virkning] on the two
    dates at midnight. *)
Context {date V : Type}.
Context (day : date -> nat) (date_9999_12_31 : date).
Context (strftime : date -> string) (sd_virkning : date -> option date -> V).

Definition _update_virkning (from_date : date) (to_date : option date) (s : Validity V)
  : result unit * Validity V :=
  let s := {| virkning := Some (sd_virkning from_date to_date); _times := _times s |} in
  let to_date := default date_9999_12_31 to_date in
  if negb (day from_date =? 1)%nat
  then (Raise (SDMoxError "Startdato skal altid være den første i en måned"), s)
  else (Ok tt, {| virkning := virkning s;
                  _times := Some (strftime from_date, strftime to_date) |}).

End Virkning.

(** ** Predicates of the statements *)

(** A code of two to four characters that is alphanumeric and in upper
    case: upper-casing leaves it as it is. *)
Definition well_formed_code (c : string) : Prop :=
  (2 <= Py.len c <= 4)%nat /\ Py.isalnum c = true /\ Py.upper c = c.

(** The number of blanks (the separator of [rsplit]) in a text. *)
Fixpoint blanks (s : string) : nat :=
  match s with
  | EmptyString => 0
  | String c t => (if bool_decide (c = " "%char) then 1 else 0) + blanks t
  end.

(** An endpoint answers without error and with an empty result. *)
Definition empty_answer (o : HttpOutcome) : Prop := o = Response (Some []) true.

(** An endpoint's request raises: the connection fails, the body does not
    parse, or the status is an error status. *)
Definition request_raises (o : HttpOutcome) : Prop :=
  match o with
  | RequestFailed => True
  | Response None _ => True
  | Response (Some _) false => True
  | Response (Some _) true => False
  end.

(** What a comparison by [operator.ne] adds to the errors: the label, when
    an expected value is given and the observed one differs. *)
Definition mismatch (actual expected : option string) (error : string) : list string :=
  match expected with
  | Some e => if bool_decide (actual = Some e) then [] else [error]
  | None => []
  end.

(** What the comparison of the name adds, for an observed name that is
    present. *)
Definition name_mismatch (actual expected : option string) : list string :=
  match expected, actual with
  | Some e, Some a => if Py.startswith e a then [] else ["Name"]
  | _, _ => []
  end.

Definition address_mismatch (actual : option PostalAddress) (adr : option SDAddress)
  : list string :=
  match adr with
  | None => []
  | Some adr =>
      mismatch (actual ≫= StandardAddressIdentifier) (Some (AdresseNavn adr)) "Address"
      ++ mismatch (actual ≫= PostalCode) (Some (PostKodeIdentifikator adr)) "Zip code"
      ++ mismatch (actual ≫= DistrictName) (Some (ByNavn adr)) "Postal Area"
  end.

Definition parent_mismatch (actual : option DepartmentParent) (par : option ParentRef)
  : list string :=
  match par with
  | None => []
  | Some par =>
      match actual with
      | Some actual => mismatch (ParentUUIDIdentifier actual) (Some (parent_uuid par)) "Parent"
      | None => ["Parent"]
      end
  end.

(** The mismatches of a department [d] found at time [t], whose first
    telephone number is [ph], against the expected values [a]. *)
Definition field_mismatches (self : Env) (a : CheckArgs) (operation : Operation)
    (d : Department) (ph : option string) (t : nat) : list string :=
  (if in_ret_import operation
   then mismatch (ActivationDate d) (Some (from_date self)) "Activation Date"
   else [])
  ++ name_mismatch (DepartmentName d) (unit_name a)
  ++ mismatch (DepartmentIdentifier d) (unit_code a) "Unit code"
  ++ mismatch (DepartmentUUIDIdentifier d) (unit_uuid a) "UUID"
  ++ mismatch (DepartmentLevelIdentifier d) (unit_level a) "Level"
  ++ mismatch ph (phone a) "Phone"
  ++ mismatch (ProductionUnitIdentifier d) (pnummer a) "Pnummer"
  ++ address_mismatch (PostalAddress_ d) (adresse a)
  ++ parent_mismatch (getDepartmentParent self t (unit_uuid a)) (parent a).

(** The registry's answer to the lookup of [_check_department] at the time
    of [w]. *)
Definition registry_answer (self : Env) (a : CheckArgs) (w : World) : DepartmentInfo :=
  getDepartment self (clock w) (Py.or_ (unit_uuid a) (unit_code a)) (unit_level a).

(** Keyword arguments that expect nothing. *)
Definition no_expectations : CheckArgs :=
  {| unit_name := None; unit_code := None; unit_uuid := None; unit_level := None;
     phone := None; pnummer := None; adresse := None; parent := None |}.

(** A computation that publishes nothing, however it ends. *)
Definition quiet {A} (m : M A) : Prop :=
  forall w r w', m w = (r, w') -> published w' = published w.

(** The messages [_validate_unit_code] can give. *)
Definition unit_code_messages : list string :=
  ["Enhedsnummer ikke angivet"; "Enhedsnummer for kort"; "Enhedsnummer for langt";
   "Ugyldigt tegn i enhedsnummer"; "Enhedsnummer skal være store bogstaver";
   "Enhedsnummer er i brug"].

(** The validation failures: a bad unit code (the violations joined), a
    unit level that does not fit the parent's, a production unit number
    without a postal address, a level the hierarchy does not know. *)
Inductive validation_failure : exn -> Prop :=
| bad_unit_code errs :
    errs <> [] -> errs ⊆ unit_code_messages ->
    validation_failure (SDMoxError (Py.join ", " errs))
| level_mismatch :
    validation_failure (SDMoxError "Enhedstypen passer ikke til forældreenheden")
| ordering_violation :
    validation_failure (SDMoxError "Opret postaddresse før pnummer")
| unknown_level :
    validation_failure (SDMoxError "Enhedstype er ikke et kendt NY-niveau")
| unknown_parent_level :
    validation_failure
      (SDMoxError "Forældreenhedens enhedstype er ikke et kendt NY-niveau").

(** A computation whose failures in [V] come before anything is
    published, and one that has no failure in [V]. *)
Definition guarded {A} (V : exn -> Prop) (m : M A) : Prop :=
  forall w e w', m w = (Raise e, w') -> V e -> published w' = published w.

Definition never {A} (V : exn -> Prop) (m : M A) : Prop :=
  forall w e w', m w = (Raise e, w') -> ~ V e.

(** The first two characters of a message. *)
Definition head2 (s : string) : string :=
  match s with
  | String a (String b _) => String a (String b EmptyString)
  | _ => s
  end.

(** The failures of the address lookup. *)
Definition lookup_failure (e : exn) : Prop :=
  (exists addrid,
     e = SDMoxError ("Fejlende opslag i DAR for " +:+ addrid)
     \/ e = SDMoxError ("Addresse ikke fundet i DAR: " +:+ Py.repr addrid))
  \/ e = IndexError \/ e = KeyError "betegnelse".

(** The failures of the verification after submission. *)
Definition verification_failure (e : exn) : Prop :=
  (exists s,
     e = SDMoxError ("Afdeling ikke unik. Code " +:+ s)
     \/ e = SDMoxError ("Afdeling ikke fundet: " +:+ s)
     \/ e = SDMoxError ("Følgende felter kunne ikke opdateres i SD: " +:+ s))
  \/ e = TypeError \/ e = IndexError.

(** The validation failures other than the ordering error. *)
Definition validation_failure_but_ordering (e : exn) : Prop :=
  validation_failure e /\ e <> SDMoxError "Opret postaddresse før pnummer".

(** The group of a key in a grouping: the list under the key, or the empty
    list when the key is absent. *)
Definition group (m : gmap string (list string)) (k : string) : list string :=
  default [] (m !! k).

(** No key of the grouping has an empty group. *)
Definition groups_nonempty (m : gmap string (list string)) : Prop :=
  forall k l, m !! k = Some l -> l <> [].

(** What a dictionary holds under a key whose group is [l]. *)
Definition grouped (l : list string) : option (list string) :=
  match l with
  | [] => None
  | _ => Some l
  end.

(** The address service resolves the value of a record to a label. *)
Definition resolves (self : Env) (d : Address) (label : string) : Prop :=
  exists w1 w2, _get_dar_address self (addr_value d) w1 = (Ok label, w2).

(** The records of a scope, and of a user key, in their order. *)
Definition of_scope (s : string) (details : list Address) : list Address :=
  filter (fun d => addr_scope d = s) details.

Definition of_user_key (k : string) (details : list Address) : list Address :=
  filter (fun d => addr_user_key d = k) details.

(** The labels of the comparisons, in the order in which an attempt makes
    them. *)
Definition mismatch_labels : list string :=
  ["Activation Date"; "Name"; "Unit code"; "UUID"; "Level"; "Phone"; "Pnummer";
   "Address"; "Zip code"; "Postal Area"; "Parent"].

(** A computation that leaves the world as it is, however it ends. *)
Definition reads_only {A} (m : M A) : Prop :=
  forall w r w', m w = (r, w') -> w' = w.

(** A computation that, however it ends, has added to the published
    documents a list of documents in [P]. *)
Definition emits {A} (P : list string -> Prop) (m : M A) : Prop :=
  forall w r w', m w = (r, w') -> exists docs, published w' = published w ++ docs /\ P docs.

(** ** Scenarios

    Concrete engines and worlds on which the statements are evaluated. The
    level keys and the date are those of the unit tests. *)

Module Scenario.

Definition w0 : World := {| published := []; lookups := []; clock := 0 |}.

Definition levels : list (string * string) :=
  [("NY1-niveau", "uuid-a"); ("Afdelings-niveau", "uuid-b")].

Definition unit_sdm2 : OrgUnit :=
  {| ou_name := Some "A-sdm2"; ou_user_key := Some "SDM2";
     ou_uuid := "12345-22-22-22-12345"; ou_org_unit_level := "uuid-b";
     ou_details := [] |}.

Definition unit_parent : OrgUnit :=
  {| ou_name := Some "A-sdm1"; ou_user_key := Some "SDM1";
     ou_uuid := "12345-11-11-11-12345"; ou_org_unit_level := "uuid-a";
     ou_details := [] |}.

(** An engine over a given registry, address service and directory
    addresses; three polling attempts. *)
Definition engine
    (registry : nat -> option string -> option string -> DepartmentInfo)
    (registry_parent : nat -> option string -> option DepartmentParent)
    (dawa : string -> string -> HttpOutcome)
    (addresses : list Address) : Env :=
  {| amqp_check_retries := 3;
     sd_levels := levels;
     from_date := "2019-07-01";
     read_ou := fun uuid _ =>
       if bool_decide (uuid = "12345-11-11-11-12345") then unit_parent else unit_sdm2;
     read_ou_address := fun _ _ => addresses;
     requests_get := dawa;
     getDepartment := registry;
     getDepartmentParent := registry_parent;
     _create_xml_import := fun _ => "<import/>";
     _create_xml_flyt := fun _ => "<flyt/>";
     _create_xml_ret := fun _ => "<ret/>" |}.

(** An empty registry and an address service that knows nothing. *)
Definition engine_empty : Env :=
  engine (fun _ _ _ => NoDepartment) (fun _ _ => None)
    (fun _ _ => Response (Some []) true) [].

(** An address service whose first endpoint answers every id with one
    object labelled [label]. *)
Definition dawa_label (label : string) : string -> string -> HttpOutcome :=
  fun _ _ => Response (Some [{["betegnelse" := label]}]) true.

Definition dar_address : Address :=
  {| addr_scope := "DAR"; addr_user_key := "dar-key-1";
     addr_value := "0a3f507b-6331-32b8-e044-0003ba298018" |}.

(** The address service labels the address with the city alone. *)
Definition engine_short_label : Env :=
  engine (fun _ _ _ => NoDepartment) (fun _ _ => None) (dawa_label "Ballerup") [].

(** The first endpoint finds nothing and the second one fails. *)
Definition dawa_second_fails : string -> string -> HttpOutcome :=
  fun url _ =>
    if bool_decide (url = "https://dawa.aws.dk/adresser")
    then Response (Some []) true
    else RequestFailed.

Definition engine_second_fails : Env :=
  engine (fun _ _ _ => NoDepartment) (fun _ _ => None) dawa_second_fails [].

(** The department of the renamed unit as the registry shows it, under a
    given name and activation date. *)
Definition department_sdm2 (name activation : string) : Department :=
  {| ActivationDate := Some activation;
     DepartmentName := Some name;
     DepartmentIdentifier := Some "SDM2";
     DepartmentUUIDIdentifier := Some "12345-22-22-22-12345";
     DepartmentLevelIdentifier := Some "Afdelings-niveau";
     ContactInformation_ := None;
     ProductionUnitIdentifier := None;
     PostalAddress_ := None |}.

(** The registry shows the unit under the name truncated to five
    characters. *)
Definition engine_truncating : Env :=
  engine (fun _ _ _ => OneDepartment (department_sdm2 "A-sdm" "2019-07-01"))
    (fun _ _ => None) (fun _ _ => Response (Some []) true) [].

(** What a rename to "A-sdm1" verifies. *)
Definition rename_args : CheckArgs :=
  {| unit_name := Some "A-sdm1"; unit_code := Some "SDM2";
     unit_uuid := Some "12345-22-22-22-12345"; unit_level := None;
     phone := None; pnummer := None; adresse := None; parent := None |}.

(** The registry shows the unit as activated half a year before the
    engine's date. *)
Definition engine_earlier_activation : Env :=
  engine (fun _ _ _ => OneDepartment (department_sdm2 "A-sdm2" "2019-01-01"))
    (fun _ _ => None) (fun _ _ => Response (Some []) true) [].

(** The registry shows the old name at the first poll and the requested
    one from the second poll on. *)
Definition engine_slow_registry : Env :=
  engine (fun t _ _ =>
            OneDepartment (department_sdm2 (if (t <? 2)%nat then "A-old" else "A-sdm1")
                             "2019-07-01"))
    (fun _ _ => None) (fun _ _ => Response (Some []) true) [].

(** The parent as the registry shows it. *)
Definition department_sdm1 : Department :=
  {| ActivationDate := Some "2019-01-01";
     DepartmentName := Some "A-sdm1";
     DepartmentIdentifier := Some "SDM1";
     DepartmentUUIDIdentifier := Some "12345-11-11-11-12345";
     DepartmentLevelIdentifier := Some "NY1-niveau";
     ContactInformation_ := None;
     ProductionUnitIdentifier := None;
     PostalAddress_ := None |}.

(** A registry that holds the parent, at the top level, and nothing else. *)
Definition registry_parent_only : nat -> option string -> option string -> DepartmentInfo :=
  fun _ identifier level =>
    if bool_decide (identifier = Some "SDM1" /\ level = Some "NY1-niveau")
    then OneDepartment department_sdm1
    else NoDepartment.

Definition engine_parent_only : Env :=
  engine registry_parent_only (fun _ _ => None) (fun _ _ => Response (Some []) true) [].

(** The payload of creating the unit under the parent, and of the
    reverse. *)
Definition payload_sdm2 : CreatePayload :=
  {| cp_unit_name := Some "A-sdm2";
     cp_parent := {| parent_unit_code := Some "SDM1";
                     parent_uuid := "12345-11-11-11-12345";
                     parent_level := "NY1-niveau" |};
     cp_unit_code := Some "SDM2";
     cp_unit_level := "Afdelings-niveau";
     cp_unit_uuid := "12345-22-22-22-12345" |}.

Definition pnumber_address : Address :=
  {| addr_scope := "PNUMBER"; addr_user_key := "pnum-key-1"; addr_value := "0123456789" |}.

(** The unit to create, with a production unit number as its only
    address. *)
Definition unit_sdm2_pnumber : OrgUnit :=
  {| ou_name := Some "A-sdm2"; ou_user_key := Some "SDM2";
     ou_uuid := "12345-22-22-22-12345"; ou_org_unit_level := "uuid-b";
     ou_details := [pnumber_address] |}.

(** The address service of the unit tests: two known addresses. *)
Definition dawa_test : string -> string -> HttpOutcome :=
  fun url addrid =>
    if bool_decide (url = "https://dawa.aws.dk/adresser") then
      if bool_decide (addrid = "0a3f507b-6331-32b8-e044-0003ba298018")
      then Response (Some [{["betegnelse" := "Banegårdspladsen 1, 2750 Ballerup"]}]) true
      else if bool_decide (addrid = "0a3f507b-7750-32b8-e044-0003ba298018")
      then Response (Some [{["betegnelse" := "Toftebjerghaven 4, 2750 Ballerup"]}]) true
      else Response (Some []) true
    else Response (Some []) true.

Definition engine_test : Env :=
  engine (fun _ _ _ => NoDepartment) (fun _ _ => None) dawa_test [].

(** The addresses of [test_payload_edit_address]. *)
Definition test_addresses : list Address :=
  [ {| addr_scope := "DAR"; addr_user_key := "dar-userkey-not-used";
       addr_value := "0a3f507b-7750-32b8-e044-0003ba298018" |};
    {| addr_scope := "PHONE"; addr_user_key := "phone-user-key-not-used";
       addr_value := "12345678" |};
    {| addr_scope := "PNUMBER"; addr_user_key := "pnummer-user-key-not-used";
       addr_value := "0123456789" |} ].

(** The reverse of [payload_sdm2]: the top-level unit under the
    second-level one. *)
Definition payload_reversed : CreatePayload :=
  {| cp_unit_name := Some "A-sdm1";
     cp_parent := {| parent_unit_code := Some "SDM2";
                     parent_uuid := "12345-22-22-22-12345";
                     parent_level := "Afdelings-niveau" |};
     cp_unit_code := Some "SDM1";
     cp_unit_level := "NY1-niveau";
     cp_unit_uuid := "12345-11-11-11-12345" |}.

(** A registry that holds the second-level unit only. *)
Definition engine_child_only : Env :=
  engine (fun _ identifier level =>
            if bool_decide (identifier = Some "SDM2" /\ level = Some "Afdelings-niveau")
            then OneDepartment (department_sdm2 "A-sdm2" "2019-07-01")
            else NoDepartment)
    (fun _ _ => None) (fun _ _ => Response (Some []) true) [].

(** The parent as a registry shows it that reports a level outside the
    configured hierarchy. *)
Definition department_foreign_level : Department :=
  {| ActivationDate := Some "2019-01-01";
     DepartmentName := Some "A-sdm1";
     DepartmentIdentifier := Some "SDM1";
     DepartmentUUIDIdentifier := Some "12345-11-11-11-12345";
     DepartmentLevelIdentifier := Some "NY7-niveau";
     ContactInformation_ := None;
     ProductionUnitIdentifier := None;
     PostalAddress_ := None |}.

Definition engine_foreign_level : Env :=
  engine (fun _ identifier level =>
            if bool_decide (identifier = Some "SDM1" /\ level = Some "NY1-niveau")
            then OneDepartment department_foreign_level
            else NoDepartment)
    (fun _ _ => None) (fun _ _ => Response (Some []) true) [].

(** The registry shows nothing at the first poll and two departments
    under the identifier from the second poll on. *)
Definition engine_ambiguous : Env :=
  engine (fun t _ _ =>
            if (t <? 2)%nat then NoDepartment
            else DepartmentList [department_sdm2 "A-sdm1" "2019-07-01";
                                 department_sdm2 "A-sdm1" "2019-07-01"])
    (fun _ _ => None) (fun _ _ => Response (Some []) true) [].

End Scenario.

(** * Properties *)

(** ** Reasoning about computations *)

Lemma bind_ok {A B} (m : M A) (k : A -> M B) w a w1 :
  m w = (Ok a, w1) -> bind m k w = k a w1.
Proof. intros H. unfold bind. by rewrite H. Qed.

Lemma bind_raise {A B} (m : M A) (k : A -> M B) w e w1 :
  m w = (Raise e, w1) -> bind m k w = (Raise e, w1).
Proof. intros H. unfold bind. by rewrite H. Qed.

Lemma bind_inv {A B} (m : M A) (k : A -> M B) w r w' :
  bind m k w = (r, w') ->
  (exists a w1, m w = (Ok a, w1) /\ k a w1 = (r, w'))
  \/ (exists e, m w = (Raise e, w') /\ r = Raise e).
Proof.
  unfold bind. destruct (m w) as [[a|e] w1]; intros H.
  - left. eauto.
  - right. exists e. by inversion H.
Qed.

(** ** Unit codes *)

Lemma well_formed_no_errors c :
  well_formed_code c -> unit_code_syntax_errors (Some c) = [].
Proof.
  intros ([Hlo Hhi] & Hal & Hup). unfold unit_code_syntax_errors.
  rewrite Hal, Hup, bool_decide_eq_true_2 by done.
  destruct (Nat.ltb_spec (Py.len c) 2); [lia|].
  destruct (Nat.ltb_spec 4 (Py.len c)); [lia|]. done.
Qed.

Lemma validate_syntax_only self unit_code can_exist w :
  can_exist = true \/ unit_code_syntax_errors unit_code <> [] ->
  _validate_unit_code self unit_code can_exist w
  = (Ok (unit_code_syntax_errors unit_code), w).
Proof.
  intros H. unfold _validate_unit_code.
  destruct H as [-> | H].
  - by rewrite andb_false_r.
  - by rewrite bool_decide_eq_false_2.
Qed.


Lemma syntax_errors_some c x :
  x ∈ unit_code_syntax_errors (Some c) <->
  (x = "Enhedsnummer for kort" /\ (Py.len c < 2)%nat)
  \/ (x = "Enhedsnummer for langt" /\ (4 < Py.len c)%nat)
  \/ (x = "Ugyldigt tegn i enhedsnummer" /\ Py.isalnum c = false)
  \/ (x = "Enhedsnummer skal være store bogstaver" /\ Py.upper c <> c).
Proof.
  unfold unit_code_syntax_errors. rewrite !elem_of_app.
  destruct (Nat.ltb_spec (Py.len c) 2) as [H2|H2];
    [|destruct (Nat.ltb_spec 4 (Py.len c)) as [H4|H4]];
    destruct (Py.isalnum c) eqn:Hal; simpl;
    case_bool_decide as Hup; simpl;
    rewrite ?elem_of_cons, ?elem_of_nil; intuition (try congruence; try lia).
Qed.

(** C4 (amended). The syntax validation collects the violations
    independently: the presence violation exactly when the code is null, the
    two length violations when the number of characters is below 2 or above
    4, the character-set violation when the code is not alphanumeric (an
    empty code included), the case violation when the code differs from its
    upper-cased form. An empty code has no presence violation: it is too
    short and not alphanumeric. A list with a violation is returned whatever
    [can_exist] is, and a code of two to four upper-case alphanumeric
    characters has no violation. Length, alphanumeric and upper-cased are
    Python's notions, on the characters of any text. *)
Theorem validate_unit_code_violations (self : Env) (unit_code : option string) (w : World) :
  exists errs,
    _validate_unit_code self unit_code true w = (Ok errs, w) /\
    ("Enhedsnummer ikke angivet" ∈ errs <-> unit_code = None) /\
    ("Enhedsnummer for kort" ∈ errs <-> exists c, unit_code = Some c /\ (Py.len c < 2)%nat) /\
    ("Enhedsnummer for langt" ∈ errs <-> exists c, unit_code = Some c /\ (4 < Py.len c)%nat) /\
    ("Ugyldigt tegn i enhedsnummer" ∈ errs
       <-> exists c, unit_code = Some c /\ Py.isalnum c = false) /\
    ("Enhedsnummer skal være store bogstaver" ∈ errs
       <-> exists c, unit_code = Some c /\ Py.upper c <> c) /\
    (errs <> [] -> _validate_unit_code self unit_code false w = (Ok errs, w)) /\
    ((exists c, unit_code = Some c /\ well_formed_code c) -> errs = []).
Proof.
  exists (unit_code_syntax_errors unit_code).
  split; [apply validate_syntax_only; by left|].
  destruct unit_code as [c|].
  - rewrite !syntax_errors_some.
    repeat split.
    all: try (intros (c' & [= <-] & H'); tauto).
    all: try (intros H; exists c; split; [done|];
              decompose [and or] H; first [done | lia | congruence]).
    all: try (intros H; apply validate_syntax_only; by right).
    all: try (intros (c' & [= <-] & H'); by apply well_formed_no_errors).
    + intros H. decompose [and or] H; done.
    + done.
  - simpl. rewrite !elem_of_cons, !elem_of_nil.
    repeat split; try done.
    all: try (intros [? | []]; done).
    all: try (intros (c' & ? & _); done).
    all: try (by left).
    all: intros H; apply validate_syntax_only; by right.
Qed.

(** C4 (the claim as stated fails). An empty unit code gets no presence
    violation: it is reported as too short and not alphanumeric. *)
Lemma validate_unit_code_empty_code :
  _validate_unit_code Scenario.engine_empty (Some "") true Scenario.w0
  = (Ok ["Enhedsnummer for kort"; "Ugyldigt tegn i enhedsnummer"], Scenario.w0)
  /\ "Enhedsnummer ikke angivet" ∉ ["Enhedsnummer for kort"; "Ugyldigt tegn i enhedsnummer"].
Proof.
  split; [reflexivity|].
  rewrite !elem_of_cons, elem_of_nil. intros [H|[H|[]]]; discriminate H.
Qed.

(** The rules count and classify characters, not bytes: two Danish capital
    letters are a code without violation, their small letters violate the
    case rule alone, and five letters are too long. *)
Example unit_code_syntax_errors_letters :
  unit_code_syntax_errors (Some "ÆØ") = []
  /\ unit_code_syntax_errors (Some "æø") = ["Enhedsnummer skal være store bogstaver"]
  /\ unit_code_syntax_errors (Some "ÆØÅÆØ") = ["Enhedsnummer for langt"]
  /\ unit_code_syntax_errors (Some "SD M") = ["Ugyldigt tegn i enhedsnummer"].
Proof. repeat split; vm_compute; reflexivity. Qed.

(** ** Postal addresses *)

Example rsplit_ballerup :
  Py.rsplit "Toftebjerghaven 4, 2750 Ballerup" 2 = ["Toftebjerghaven 4,"; "2750"; "Ballerup"].
Proof. reflexivity. Qed.


Lemma append_cons x (a b : string) : String x a +:+ b = String x (a +:+ b).
Proof. reflexivity. Qed.



Lemma rpartition_none_blanks s : Py.rpartition s = None -> blanks s = 0.
Proof.
  induction s as [|c s IH]; simpl; [done|].
  destruct (Py.rpartition s) as [[??]|]; [done|].
  case_bool_decide; [done|]. intros _. by rewrite IH.
Qed.

Lemma rpartition_blanks s l r :
  Py.rpartition s = Some (l, r) -> blanks s = S (blanks l) /\ blanks r = 0.
Proof.
  revert l r. induction s as [|c s IH]; simpl; [done|].
  intros l r. destruct (Py.rpartition s) as [[l' r']|] eqn:E.
  - intros [= <- <-]. destruct (IH _ _ eq_refl) as [-> ->]. simpl. lia.
  - case_bool_decide; [|done]. intros [= <- <-]. simpl.
    by rewrite (rpartition_none_blanks s E).
Qed.



Lemma blanks_app a b : blanks (a +:+ b) = blanks a + blanks b.
Proof.
  induction a as [|x a IH]; [done|]. rewrite append_cons. simpl. rewrite IH. lia.
Qed.





(** ** The address lookup *)

Lemma dar_loop_skip self addrid tried rest w :
  (forall t, t ∈ tried ->
     empty_answer (requests_get self ("https://dawa.aws.dk/" +:+ t) addrid)) ->
  dar_loop self addrid (tried ++ rest) w
  = dar_loop self addrid rest (requested ((fun t => (t, addrid)) <$> tried) w).
Proof.
  revert w. induction tried as [|t tried IH]; intros w Hall.
  - simpl. unfold requested. rewrite app_nil_r. by destruct w.
  - simpl. unfold bind, get.
    rewrite (Hall t) by (by left).
    rewrite IH by (intros; apply Hall; by right).
    f_equal. unfold requested. simpl. by rewrite <- app_assoc.
Qed.

(** C10. The fallback endpoints are tried in order while each answers
    without error and with an empty result. At the first endpoint whose
    request raises (connection, body parsing or status), the lookup ends in
    the error of a failed lookup and the endpoints after it are not
    requested; at the first endpoint with a non-empty result the lookup ends
    with the label of the last object of that result, again without
    requesting the endpoints after it. *)
Theorem get_dar_address_fallback (self : Env) (addrid : string)
    (tried rest : list string) (addrtype : string) (w : World) :
  addrtypes = tried ++ addrtype :: rest ->
  (forall t, t ∈ tried ->
     empty_answer (requests_get self ("https://dawa.aws.dk/" +:+ t) addrid)) ->
  let outcome := requests_get self ("https://dawa.aws.dk/" +:+ addrtype) addrid in
  let w' := requested ((fun t => (t, addrid)) <$> (tried ++ [addrtype])) w in
  (request_raises outcome ->
   _get_dar_address self addrid w
   = (Raise (SDMoxError ("Fejlende opslag i DAR for " +:+ addrid)), w'))
  /\ (forall objs obj label,
        outcome = Response (Some (objs ++ [obj])) true ->
        obj !! "betegnelse" = Some label ->
        _get_dar_address self addrid w = (Ok label, w')).
Proof.
  intros Htypes Hempty outcome w'.
  assert (w' = requested [(addrtype, addrid)]
                 (requested ((fun t => (t, addrid)) <$> tried) w)) as Hw'.
  { unfold w', requested. simpl. rewrite fmap_app. simpl. by rewrite app_assoc. }
  unfold _get_dar_address. rewrite Htypes.
  split.
  - intros Hraise.
    apply bind_raise. rewrite dar_loop_skip by done. simpl.
    unfold bind, get. fold outcome. rewrite Hw'.
    destruct outcome as [|[objs|] [|]]; simpl in Hraise; done.
  - intros objs obj label Hout Hlabel.
    rewrite (bind_ok _ _ _ (objs ++ [obj]) w').
    + rewrite last_snoc, Hlabel. done.
    + rewrite dar_loop_skip by done. simpl.
      unfold bind, get. fold outcome. rewrite Hout, Hw'.
      destruct objs; done.
Qed.

(** C10, at an engine whose first endpoint finds nothing and whose second
    endpoint fails: two requests are made, the history endpoints are not
    tried. *)
Lemma get_dar_address_fallback_witness :
  _get_dar_address Scenario.engine_second_fails "0a3f507b" Scenario.w0
  = (Raise (SDMoxError "Fejlende opslag i DAR for 0a3f507b"),
     requested [("adresser", "0a3f507b"); ("adgangsadresser", "0a3f507b")] Scenario.w0).
Proof.
  refine (proj1 (get_dar_address_fallback Scenario.engine_second_fails "0a3f507b"
                   ["adresser"] ["historik/adresser"; "historik/adgangsadresser"]
                   "adgangsadresser" Scenario.w0 eq_refl _) _).
  - intros t Ht. apply list_elem_of_singleton in Ht as ->. reflexivity.
  - exact I.
Defined.

Lemma get_dar_address_not_found self addrid w :
  (forall t, t ∈ addrtypes ->
     empty_answer (requests_get self ("https://dawa.aws.dk/" +:+ t) addrid)) ->
  _get_dar_address self addrid w
  = (Raise (SDMoxError ("Addresse ikke fundet i DAR: " +:+ Py.repr addrid)),
     requested ((fun t => (t, addrid)) <$> addrtypes) w).
Proof.
  intros Hall. unfold _get_dar_address. apply bind_raise.
  rewrite <- (app_nil_r addrtypes) at 1. by rewrite dar_loop_skip.
Qed.

(** ** Verification of one attempt *)

Lemma bind_lift_ok {A B} (x : A) (k : A -> M B) w : bind (lift (Ok x)) k w = k x w.
Proof. reflexivity. Qed.

Lemma bind_lift_raise {A B} e (k : A -> M B) w :
  bind (lift (Raise e)) k w = (Raise e, w).
Proof. reflexivity. Qed.

Lemma bind_ret {A B} (x : A) (k : A -> M B) w : bind (ret_ x) k w = k x w.
Proof. reflexivity. Qed.

Lemma bind_assoc {A B C} (m : M A) (k1 : A -> M B) (k2 : B -> M C) w :
  bind (bind m k1) k2 w = bind m (fun x => bind (k1 x) k2) w.
Proof. unfold bind. by destruct (m w) as [[?|?] ?]. Qed.

Lemma bind_now {B} (k : nat -> M B) w : bind now k w = k (clock w) w.
Proof. reflexivity. Qed.

Lemma compare_ne actual expected error errors :
  compare actual expected error ne errors = Ok (errors ++ mismatch actual expected error).
Proof.
  unfold compare, mismatch, ne. destruct expected as [e|]; [|by rewrite app_nil_r].
  case_bool_decide; simpl; [by rewrite app_nil_r | done].
Qed.

Lemma compare_name actual expected errors :
  compare actual expected "Name" not_startswith errors
  = match expected, actual with
    | Some _, None => Raise TypeError
    | _, _ => Ok (errors ++ name_mismatch actual expected)
    end.
Proof.
  unfold compare, name_mismatch, not_startswith.
  destruct expected as [e|], actual as [a|]; rewrite ?app_nil_r; try done.
  destruct (Py.startswith e a); simpl; [by rewrite app_nil_r | done].
Qed.

Lemma read_department_eval self unit_code unit_uuid unit_level w :
  _read_department self unit_code unit_uuid unit_level w
  = match getDepartment self (clock w) (Py.or_ unit_uuid unit_code) unit_level with
    | NoDepartment => (Ok None, w)
    | OneDepartment d => (Ok (Some d), w)
    | DepartmentList _ =>
        (Raise (SDMoxError ("Afdeling ikke unik. Code " +:+ Py.str unit_code
                            +:+ ", uuid " +:+ Py.str unit_uuid
                            +:+ ", level " +:+ Py.str unit_level)), w)
    end.
Proof.
  unfold _read_department. rewrite bind_now.
  by destruct (getDepartment _ _ _ _).
Qed.

(** What one attempt does, by the registry's answer: nothing found, a
    non-unique answer, or a department whose fields are compared. *)
Lemma check_department_eval self a operation w :
  _check_department self a operation w
  = match registry_answer self a w with
    | NoDepartment => (Ok (None, ["Unit"]), w)
    | DepartmentList _ =>
        (Raise (SDMoxError ("Afdeling ikke unik. Code " +:+ Py.str (unit_code a)
                            +:+ ", uuid " +:+ Py.str (unit_uuid a)
                            +:+ ", level " +:+ Py.str (unit_level a))), w)
    | OneDepartment d =>
        match unit_name a, DepartmentName d with
        | Some _, None => (Raise TypeError, w)
        | _, _ =>
            match observed_phone d with
            | Raise e => (Raise e, w)
            | Ok ph => (Ok (Some d, field_mismatches self a operation d ph (clock w)), w)
            end
        end
    end.
Proof.
  unfold _check_department, registry_answer.
  unfold bind at 1. rewrite read_department_eval.
  destruct (getDepartment _ _ _ _) as [|d|l]; [done| |done].
  assert (forall k : list string -> M (option Department * list string),
    bind (lift (if in_ret_import operation
                then compare (ActivationDate d) (Some (from_date self))
                       "Activation Date" ne []
                else Ok [])) k w
    = k (if in_ret_import operation
         then mismatch (ActivationDate d) (Some (from_date self)) "Activation Date"
         else []) w) as ->.
  { intros k. destruct (in_ret_import operation); [|done]. by rewrite compare_ne. }
  set (e0 := if in_ret_import operation then _ else _).
  rewrite compare_name.
  destruct (unit_name a) as [en|] eqn:Hn, (DepartmentName d) as [an|] eqn:Hd;
    try done.
  all: repeat (rewrite compare_ne || rewrite bind_lift_ok).
  all: destruct (observed_phone d) as [ph|e]; [|reflexivity].
  all: repeat (rewrite compare_ne || rewrite bind_lift_ok).
  all: unfold field_mismatches; fold e0; rewrite Hn, Hd.
  all: unfold address_mismatch, parent_mismatch, _read_parent.
  all: destruct (adresse a) as [adr|]; cbv beta iota zeta.
  all: repeat (rewrite compare_ne || rewrite bind_lift_ok || rewrite bind_ret
               || rewrite bind_assoc).
  all: destruct (parent a) as [par|]; cbv beta iota zeta.
  all: repeat (rewrite bind_now || rewrite bind_ret || rewrite bind_assoc).
  all: try destruct (getDepartmentParent self (clock w) (unit_uuid a)) as [pp|].
  all: repeat (rewrite compare_ne || rewrite bind_lift_ok || rewrite bind_ret).
  all: unfold ret_; apply (f_equal (fun l => (Ok (Some d, l), w))).
  all: rewrite ?app_nil_r, <- ?app_assoc; reflexivity.
Qed.

Lemma elem_of_mismatch x actual expected error :
  x ∈ mismatch actual expected error
  <-> x = error /\ exists e, expected = Some e /\ actual <> Some e.
Proof.
  unfold mismatch. destruct expected as [e|].
  - case_bool_decide as H.
    + rewrite elem_of_nil. split; [done|]. intros (_ & e' & [= <-] & ?). done.
    + rewrite list_elem_of_singleton. split; [|tauto]. intros ->. eauto.
  - rewrite elem_of_nil. split; [done|]. by intros (_ & e' & ? & _).
Qed.

Lemma elem_of_name_mismatch x actual expected :
  x ∈ name_mismatch actual expected
  <-> x = "Name" /\ exists e a, expected = Some e /\ actual = Some a
                              /\ Py.startswith e a = false.
Proof.
  unfold name_mismatch. destruct expected as [e|], actual as [a|].
  2-4: rewrite elem_of_nil; split; [done|]; by intros (_ & ? & ? & ? & ? & _).
  destruct (Py.startswith e a) eqn:E.
  - rewrite elem_of_nil. split; [done|].
    intros (_ & ? & ? & [= <-] & [= <-] & ?). congruence.
  - rewrite list_elem_of_singleton. split; [|tauto]. intros ->.
    split; [done|]. by exists e, a.
Qed.

Lemma elem_of_address_mismatch x actual adr :
  x ∈ address_mismatch actual adr ->
  is_Some adr /\ (x = "Address" \/ x = "Zip code" \/ x = "Postal Area").
Proof.
  unfold address_mismatch. destruct adr as [adr|]; [|by rewrite elem_of_nil].
  rewrite !elem_of_app, !elem_of_mismatch. split; [by eexists|]. tauto.
Qed.

Lemma elem_of_parent_mismatch x actual par :
  x ∈ parent_mismatch actual par -> is_Some par /\ x = "Parent".
Proof.
  unfold parent_mismatch. destruct par as [par|]; [|by rewrite elem_of_nil].
  destruct actual as [act|].
  - rewrite elem_of_mismatch. split; [by eexists | tauto].
  - rewrite list_elem_of_singleton. split; [by eexists | done].
Qed.

(** The labels distinguish the comparisons: a label is among the
    mismatches only through the comparison that carries it. *)
Lemma elem_of_field_mismatches x self a operation d ph t :
  x ∈ field_mismatches self a operation d ph t ->
  (x = "Activation Date" /\ in_ret_import operation = true
     /\ ActivationDate d <> Some (from_date self))
  \/ (x = "Name" /\ exists e o, unit_name a = Some e /\ DepartmentName d = Some o
                               /\ Py.startswith e o = false)
  \/ (x = "Unit code" /\ is_Some (unit_code a))
  \/ (x = "UUID" /\ is_Some (unit_uuid a))
  \/ (x = "Level" /\ is_Some (unit_level a))
  \/ (x = "Phone" /\ is_Some (phone a))
  \/ (x = "Pnummer" /\ is_Some (pnummer a))
  \/ ((x = "Address" \/ x = "Zip code" \/ x = "Postal Area") /\ is_Some (adresse a))
  \/ (x = "Parent" /\ is_Some (parent a)).
Proof.
  unfold field_mismatches. rewrite !elem_of_app.
  intros [H|[H|[H|[H|[H|[H|[H|[H|H]]]]]]]].
  - left. destruct (in_ret_import operation); [|by apply elem_of_nil in H].
    apply elem_of_mismatch in H as (-> & e & [= <-] & ?). done.
  - right; left. by apply elem_of_name_mismatch in H.
  - do 2 right; left. apply elem_of_mismatch in H as (-> & e & -> & _). eauto.
  - do 3 right; left. apply elem_of_mismatch in H as (-> & e & -> & _). eauto.
  - do 4 right; left. apply elem_of_mismatch in H as (-> & e & -> & _). eauto.
  - do 5 right; left. apply elem_of_mismatch in H as (-> & e & -> & _). eauto.
  - do 6 right; left. apply elem_of_mismatch in H as (-> & e & -> & _). eauto.
  - do 7 right; left. apply elem_of_address_mismatch in H. tauto.
  - do 8 right. apply elem_of_parent_mismatch in H. tauto.
Qed.

Lemma name_in_field_mismatches self a operation d ph t :
  "Name" ∈ field_mismatches self a operation d ph t
  <-> exists e o, unit_name a = Some e /\ DepartmentName d = Some o
                  /\ Py.startswith e o = false.
Proof.
  split.
  - intros H. apply elem_of_field_mismatches in H.
    decompose [and or] H; try discriminate. done.
  - intros (e & o & He & Ho & Hs). unfold field_mismatches.
    rewrite He, Ho. simpl. rewrite Hs.
    apply elem_of_app. right. by left.
Qed.

Lemma activation_in_field_mismatches self a operation d ph t :
  "Activation Date" ∈ field_mismatches self a operation d ph t
  <-> in_ret_import operation = true /\ ActivationDate d <> Some (from_date self).
Proof.
  split.
  - intros H. apply elem_of_field_mismatches in H.
    decompose [and or] H; try discriminate. done.
  - intros [Hop Hne]. unfold field_mismatches. rewrite Hop.
    apply elem_of_app. left. apply elem_of_mismatch. eauto.
Qed.

(** An attempt that finds the department found it in the registry and
    reports its field mismatches; no attempt changes the world. *)
Lemma check_department_found_inv self a operation w found errs w' :
  _check_department self a operation w = (Ok (Some found, errs), w') ->
  w' = w /\ registry_answer self a w = OneDepartment found
  /\ exists ph, observed_phone found = Ok ph
                /\ errs = field_mismatches self a operation found ph (clock w).
Proof.
  rewrite check_department_eval.
  destruct (registry_answer self a w) as [|d|l]; [done| |done].
  destruct (unit_name a), (DepartmentName d); try done.
  all: destruct (observed_phone d) as [ph|e] eqn:E; [|done].
  all: intros [= <- <- <-]; eauto.
Qed.

Lemma check_department_found_name self a operation w found errs w' expected :
  _check_department self a operation w = (Ok (Some found, errs), w') ->
  unit_name a = Some expected ->
  is_Some (DepartmentName found).
Proof.
  rewrite check_department_eval. intros Hrun He. rewrite He in Hrun.
  destruct (registry_answer self a w) as [|d|l]; [done| |done].
  destruct (DepartmentName d) as [o|] eqn:Ho; [|done].
  destruct (observed_phone d); [|done].
  injection Hrun as <- _ _. rewrite Ho. by eexists.
Qed.

Lemma check_department_world self a operation w r w' :
  _check_department self a operation w = (r, w') -> w' = w.
Proof.
  rewrite check_department_eval.
  destruct (registry_answer self a w) as [|d|l]; [congruence| |congruence].
  destruct (unit_name a), (DepartmentName d); try congruence.
  all: destruct (observed_phone d); congruence.
Qed.

Lemma check_department_not_found_inv self a operation w errs w' :
  _check_department self a operation w = (Ok (None, errs), w') -> errs = ["Unit"].
Proof.
  rewrite check_department_eval.
  destruct (registry_answer self a w) as [|d|l]; [congruence| |done].
  destruct (unit_name a), (DepartmentName d); try done.
  all: destruct (observed_phone d); done.
Qed.

Lemma check_department_found self a operation w d ph :
  registry_answer self a w = OneDepartment d ->
  (is_Some (unit_name a) -> is_Some (DepartmentName d)) ->
  observed_phone d = Ok ph ->
  _check_department self a operation w
  = (Ok (Some d, field_mismatches self a operation d ph (clock w)), w).
Proof.
  intros Hr Hn Hp. rewrite check_department_eval, Hr, Hp.
  destruct (unit_name a) as [e|], (DepartmentName d) as [o|]; try done.
  destruct Hn as [? [=]]. by eexists.
Qed.

Lemma startswith_app observed rest : Py.startswith (observed +:+ rest) observed = true.
Proof.
  unfold Py.startswith. induction observed as [|c o IH]; [by destruct rest|].
  rewrite append_cons. simpl. by destruct (ascii_dec c c).
Qed.

Lemma append_nil_r (s : string) : s +:+ "" = s.
Proof. induction s as [|c s IH]; [done|]. rewrite append_cons. by f_equal. Qed.

(** ** The name comparison *)

(** C5. When a name is expected, an attempt that finds the unit found it
    under a name, and reports a name mismatch exactly when the expected name
    does not start with the observed one; such an attempt completes for every
    unit the registry shows under a name. An observed name that is a prefix
    of the expected name, the expected name itself included, gives no name
    mismatch. *)
Theorem name_mismatch_iff_not_prefix (self : Env) (a : CheckArgs) (operation : Operation)
    (w : World) (expected : string) :
  unit_name a = Some expected ->
  (forall found errs w',
     _check_department self a operation w = (Ok (Some found, errs), w') ->
     exists observed,
       DepartmentName found = Some observed
       /\ ("Name" ∈ errs <-> Py.startswith expected observed = false))
  /\ (forall d observed ph,
        registry_answer self a w = OneDepartment d ->
        DepartmentName d = Some observed ->
        observed_phone d = Ok ph ->
        exists errs,
          _check_department self a operation w = (Ok (Some d, errs), w)
          /\ ("Name" ∈ errs <-> Py.startswith expected observed = false)
          /\ (observed = expected -> "Name" ∉ errs)
          /\ (forall rest, expected = observed +:+ rest -> "Name" ∉ errs)).
Proof.
  intros He.
  assert (forall d observed ph t,
            DepartmentName d = Some observed ->
            "Name" ∈ field_mismatches self a operation d ph t
            <-> Py.startswith expected observed = false) as Hiff.
  { intros d observed ph t Ho. rewrite name_in_field_mismatches. split.
    - intros (e & o & He' & Ho' & Hs). congruence.
    - intros Hs. eauto. }
  split.
  - intros found errs w' Hrun.
    destruct (check_department_found_name _ _ _ _ _ _ _ _ Hrun He) as [observed Ho].
    apply check_department_found_inv in Hrun as (_ & _ & ph & _ & ->).
    exists observed. split; [done|]. by apply Hiff.
  - intros d observed ph Hr Ho Hp.
    exists (field_mismatches self a operation d ph (clock w)).
    split; [|split; [by apply Hiff|split]].
    + apply check_department_found; [done| |done]. rewrite Ho. by eexists.
    + intros <-. rewrite (Hiff _ _ _ _ Ho). rewrite <- (append_nil_r observed) at 1.
      by rewrite startswith_app.
    + intros rest ->. rewrite (Hiff _ _ _ _ Ho). by rewrite startswith_app.
Qed.

(** C5, at the rename of the end-to-end scenario: the registry shows
    "A-sdm" for the requested "A-sdm1" and no name mismatch is reported. *)
Lemma name_mismatch_iff_not_prefix_witness :
  exists errs,
    _check_department Scenario.engine_truncating Scenario.rename_args ret Scenario.w0
    = (Ok (Some (Scenario.department_sdm2 "A-sdm" "2019-07-01"), errs), Scenario.w0)
    /\ "Name" ∉ errs.
Proof.
  destruct (proj2 (name_mismatch_iff_not_prefix Scenario.engine_truncating
                     Scenario.rename_args ret Scenario.w0 "A-sdm1" eq_refl)
              (Scenario.department_sdm2 "A-sdm" "2019-07-01") "A-sdm" None
              eq_refl eq_refl eq_refl)
    as (errs & Hrun & _ & _ & Hprefix).
  exists errs. split; [exact Hrun|]. apply (Hprefix "1"). reflexivity.
Defined.

(** ** The polling loop *)

Lemma waited_0 w : waited 0 w = w.
Proof. destruct w. unfold waited. simpl. by rewrite Nat.add_0_r. Qed.

Lemma waited_waited i j w : waited j (waited i w) = waited (i + j) w.
Proof. unfold waited. simpl. by rewrite Nat.add_assoc. Qed.

Lemma bind_sleep {B} (k : unit -> M B) w : bind sleep k w = k tt (waited 1 w).
Proof. reflexivity. Qed.

Lemma check_department_nothing self a operation w :
  registry_answer self a w = NoDepartment ->
  _check_department self a operation w = (Ok (None, ["Unit"]), w).
Proof. intros H. by rewrite check_department_eval, H. Qed.

(** While the registry shows nothing the loop goes on: after [k] such
    attempts it is where it would be with [k] attempts fewer to make. *)
Lemma check_unit_loop_skip self a operation k :
  forall n w unit errors,
    (forall j, 1 <= j <= k -> registry_answer self a (waited j w) = NoDepartment) ->
    check_unit_loop self (k + n) a operation unit errors w
    = check_unit_loop self n a operation
        (match k with 0 => unit | _ => None end)
        (match k with 0 => errors | _ => Some ["Unit"] end)
        (waited k w).
Proof.
  induction k as [|k IH]; intros n w unit errors Hnone.
  - by rewrite waited_0.
  - cbn [Nat.add check_unit_loop]. rewrite bind_sleep.
    rewrite (bind_ok _ _ _ (None, ["Unit"]) (waited 1 w)).
    2: { apply check_department_nothing, Hnone. lia. }
    cbn [fst snd]. rewrite IH.
    + rewrite waited_waited. by destruct k.
    + intros j Hj. rewrite waited_waited. apply Hnone. lia.
Qed.

Lemma check_unit_loop_found self a operation k n w unit errors d errs :
  1 <= k <= n ->
  (forall j, 1 <= j < k -> registry_answer self a (waited j w) = NoDepartment) ->
  _check_department self a operation (waited k w) = (Ok (Some d, errs), waited k w) ->
  check_unit_loop self n a operation unit errors w
  = (Ok (Some d, Some errs), waited k w).
Proof.
  intros Hk Hnone Hfound.
  replace n with ((k - 1) + S (n - k)) by lia.
  rewrite check_unit_loop_skip by (intros; apply Hnone; lia).
  cbn [check_unit_loop]. rewrite bind_sleep, waited_waited.
  replace (k - 1 + 1) with k by lia.
  by rewrite (bind_ok _ _ _ _ _ Hfound).
Qed.

Lemma check_unit_loop_exhausted self a operation n w :
  1 <= n ->
  (forall j, 1 <= j <= n -> registry_answer self a (waited j w) = NoDepartment) ->
  check_unit_loop self n a operation None None w
  = (Ok (None, Some ["Unit"]), waited n w).
Proof.
  intros Hn Hnone.
  rewrite <- (Nat.add_0_r n) at 1. rewrite check_unit_loop_skip by done.
  destruct n; [lia|]. done.
Qed.

(** C1 (amended). The loop makes an attempt after each wait, up to the
    configured number, and goes on only while the unit is not found. It
    stops at the first attempt that finds the unit, whether or not the
    fields match: without mismatches the unit is returned, with mismatches
    the mismatches of that attempt are reported at once and no further
    attempt is made. When no attempt finds the unit, all attempts are made
    and the unit is reported as not found. *)
Theorem check_unit_stops_when_found (self : Env) (operation : Operation)
    (a : CheckArgs) (w : World) :
  (forall k d errs,
     1 <= k <= amqp_check_retries self ->
     (forall j, 1 <= j < k -> registry_answer self a (waited j w) = NoDepartment) ->
     _check_department self a operation (waited k w) = (Ok (Some d, errs), waited k w) ->
     _check_unit self operation a w
     = (match errs with
        | [] => Ok d
        | _ => Raise (SDMoxError ("Følgende felter kunne ikke opdateres i SD: "
                                  +:+ Py.join ", " errs))
        end, waited k w))
  /\ ((forall j, 1 <= j <= amqp_check_retries self ->
         registry_answer self a (waited j w) = NoDepartment) ->
      _check_unit self operation a w
      = (Raise (SDMoxError ("Afdeling ikke fundet: " +:+ Py.str (unit_uuid a))),
         waited (amqp_check_retries self) w)).
Proof.
  split.
  - intros k d errs Hk Hnone Hfound. unfold _check_unit.
    rewrite (bind_ok _ _ _ (Some d, Some errs) (waited k w)).
    + by destruct errs.
    + by apply check_unit_loop_found.
  - intros Hnone. unfold _check_unit.
    destruct (amqp_check_retries self) as [|n] eqn:En.
    + by rewrite waited_0.
    + rewrite (bind_ok _ _ _ (None, Some ["Unit"]) (waited (S n) w)); [done|].
      apply check_unit_loop_exhausted; [lia|done].
Qed.

(** C1 (amended), at an engine with three attempts whose registry shows the
    unit under its old name at the first poll: the name mismatch of the
    first attempt is reported after one wait. *)
Lemma check_unit_stops_when_found_witness :
  _check_unit Scenario.engine_slow_registry ret Scenario.rename_args Scenario.w0
  = (Raise (SDMoxError "Følgende felter kunne ikke opdateres i SD: Name"),
     waited 1 Scenario.w0).
Proof.
  refine (proj1 (check_unit_stops_when_found Scenario.engine_slow_registry ret
                   Scenario.rename_args Scenario.w0)
            1 (Scenario.department_sdm2 "A-old" "2019-07-01") ["Name"] _ _ _).
  - simpl. lia.
  - intros j Hj. lia.
  - reflexivity.
Defined.

(** C1 (the claim as stated fails). With three attempts configured, a
    rename whose first poll finds the unit under the old name ends after
    that poll with the name mismatch, although the second poll would have
    found no mismatch. *)
Lemma rename_gives_up_at_first_mismatch :
  amqp_check_retries Scenario.engine_slow_registry = 3
  /\ rename_unit Scenario.engine_slow_registry "12345-22-22-22-12345" "A-sdm1"
       "2019-07-01" false Scenario.w0
     = (Raise (SDMoxError "Følgende felter kunne ikke opdateres i SD: Name"),
        {| published := ["<ret/>"]; lookups := []; clock := 1 |})
  /\ _check_department Scenario.engine_slow_registry Scenario.rename_args ret
       (waited 2 Scenario.w0)
     = (Ok (Some (Scenario.department_sdm2 "A-sdm1" "2019-07-01"), []),
        waited 2 Scenario.w0).
Proof. split; [|split]; vm_compute; reflexivity. Qed.

(** ** Expected values that are absent *)

Lemma field_mismatches_no_expectations self operation d ph t :
  field_mismatches self no_expectations operation d ph t
  = if in_ret_import operation
    then mismatch (ActivationDate d) (Some (from_date self)) "Activation Date"
    else [].
Proof.
  unfold field_mismatches, no_expectations, name_mismatch. simpl.
  destruct (DepartmentName d); by rewrite app_nil_r.
Qed.

(** C9 (amended). Every comparison against a value of the payload (name,
    unit code, uuid, level, phone, production number, postal address,
    parent) is skipped when that value is None. The activation date is not
    among them: for edit and create it is compared with the engine's own
    from-date, which is never None. So a verification that expects nothing
    succeeds as soon as the unit is found when the operation is a move or
    the observed activation date is the engine's from-date, and otherwise
    reports the activation date at the attempt that finds the unit. *)
Theorem check_skips_absent_expectations (self : Env) (operation : Operation)
    (a : CheckArgs) (w : World) :
  (forall found errs w',
     _check_department self a operation w = (Ok (Some found, errs), w') ->
     (unit_name a = None -> "Name" ∉ errs)
     /\ (unit_code a = None -> "Unit code" ∉ errs)
     /\ (unit_uuid a = None -> "UUID" ∉ errs)
     /\ (unit_level a = None -> "Level" ∉ errs)
     /\ (phone a = None -> "Phone" ∉ errs)
     /\ (pnummer a = None -> "Pnummer" ∉ errs)
     /\ (adresse a = None ->
         ("Address" ∉ errs) /\ ("Zip code" ∉ errs) /\ ("Postal Area" ∉ errs))
     /\ (parent a = None -> "Parent" ∉ errs)
     /\ ("Activation Date" ∈ errs
         <-> in_ret_import operation = true
             /\ ActivationDate found <> Some (from_date self)))
  /\ (forall k d ph,
        1 <= k <= amqp_check_retries self ->
        (forall j, 1 <= j < k ->
           registry_answer self no_expectations (waited j w) = NoDepartment) ->
        registry_answer self no_expectations (waited k w) = OneDepartment d ->
        observed_phone d = Ok ph ->
        _check_unit self operation no_expectations w
        = (if in_ret_import operation
              && negb (bool_decide (ActivationDate d = Some (from_date self)))
           then Raise (SDMoxError
                         "Følgende felter kunne ikke opdateres i SD: Activation Date")
           else Ok d,
           waited k w)).
Proof.
  split.
  - intros found errs w' Hrun.
    apply check_department_found_inv in Hrun as (_ & _ & ph & _ & ->).
    assert (forall x, x ∈ field_mismatches self a operation found ph (clock w) ->
              x <> "Activation Date" ->
              (x = "Name" /\ is_Some (unit_name a))
              \/ (x = "Unit code" /\ is_Some (unit_code a))
              \/ (x = "UUID" /\ is_Some (unit_uuid a))
              \/ (x = "Level" /\ is_Some (unit_level a))
              \/ (x = "Phone" /\ is_Some (phone a))
              \/ (x = "Pnummer" /\ is_Some (pnummer a))
              \/ ((x = "Address" \/ x = "Zip code" \/ x = "Postal Area")
                  /\ is_Some (adresse a))
              \/ (x = "Parent" /\ is_Some (parent a))) as Hlabel.
    { intros x Hin Hx. apply elem_of_field_mismatches in Hin.
      destruct Hin as [[? _]|[(-> & e & _ & -> & _)|Hin]]; [done| |tauto].
      left. split; [done|by eexists]. }
    repeat apply conj.
    1-6, 8: intros Hnone Hin; apply Hlabel in Hin; [|discriminate];
      decompose [and or] Hin; try discriminate;
      match goal with H : is_Some _ |- _ => rewrite Hnone in H; by destruct H end.
    + intros Hnone.
      repeat apply conj; intros Hin; apply Hlabel in Hin; try discriminate;
        decompose [and or] Hin; try discriminate;
        match goal with H : is_Some _ |- _ => rewrite Hnone in H; by destruct H end.
    + intros Hin. by apply activation_in_field_mismatches in Hin.
    + intros Hne. by apply activation_in_field_mismatches.
  - intros k d ph Hk Hnone Hfound Hphone.
    unfold _check_unit.
    rewrite (bind_ok _ _ _
               (Some d, Some (field_mismatches self no_expectations operation d ph
                                (clock (waited k w))))
               (waited k w)).
    + rewrite field_mismatches_no_expectations. cbn [fst snd].
      destruct (in_ret_import operation); [|done].
      unfold mismatch. by case_bool_decide.
    + apply check_unit_loop_found; [done|done|].
      apply check_department_found; [done| |done]. by intros [? [=]].
Qed.

(** C9 (the claim as stated fails). A verification of an edit that expects
    nothing, against a unit found at the first poll with an earlier
    activation date, does not succeed: the activation date is reported. *)
Lemma check_unit_nothing_expected_fails :
  _check_unit Scenario.engine_earlier_activation ret no_expectations Scenario.w0
  = (Raise (SDMoxError "Følgende felter kunne ikke opdateres i SD: Activation Date"),
     waited 1 Scenario.w0)
  /\ registry_answer Scenario.engine_earlier_activation no_expectations
       (waited 1 Scenario.w0)
     = OneDepartment (Scenario.department_sdm2 "A-sdm2" "2019-01-01").
Proof. split; vm_compute; reflexivity. Qed.

(** ** The level hierarchy *)

Lemma has_keys_level pd pl : DepartmentLevelIdentifier pd = Some pl -> has_keys pd = true.
Proof.
  intros H. unfold has_keys. rewrite H.
  rewrite (bool_decide_eq_true_2 (is_Some (Some pl))) by (by eexists).
  by rewrite !orb_true_r.
Qed.

Lemma check_parent_level_eval self p w pd pl ui pi :
  getDepartment self (clock w) (parent_unit_code (cp_parent p))
    (Some (parent_level (cp_parent p))) = OneDepartment pd ->
  DepartmentLevelIdentifier pd = Some pl ->
  level_index self (cp_unit_level p) = Ok ui ->
  level_index self pl = Ok pi ->
  check_parent_level self p w
  = if (pi <? ui)%nat then (Ok tt, w)
    else (Raise (SDMoxError "Enhedstypen passer ikke til forældreenheden"), w).
Proof.
  intros Hreg Hpl Hui Hpi. unfold check_parent_level.
  rewrite (bind_ok _ _ _ (Some pd) w).
  2: { rewrite read_department_eval. simpl. by rewrite Hreg. }
  rewrite (has_keys_level pd pl Hpl). cbn [negb].
  rewrite Hui, bind_lift_ok, Hpl. cbn [getitem]. rewrite bind_lift_ok, Hpi, bind_lift_ok.
  by destruct (pi <? ui)%nat.
Qed.

(** C7. For a create or move submission whose unit code passed its
    validation, whose parent the registry shows, and whose own level and
    observed parent level both have a rank in the configured hierarchy: the
    submission goes on (to the document, and to its publication unless it
    is a test run) exactly when the unit's rank is strictly greater than the
    parent's; otherwise it raises the level error and nothing is
    published. *)
Theorem level_rank_decides_submission (self : Env) (p : CreatePayload) (test_run : bool)
    (w : World) (pd : Department) (pl : string) (ui pi : nat) :
  getDepartment self (clock w) (parent_unit_code (cp_parent p))
    (Some (parent_level (cp_parent p))) = OneDepartment pd ->
  DepartmentLevelIdentifier pd = Some pl ->
  level_index self (cp_unit_level p) = Ok ui ->
  level_index self pl = Ok pi ->
  (_validate_unit_code self (cp_unit_code p) false w = (Ok [], w) ->
   _create_unit self p test_run w
   = if (pi <? ui)%nat
     then (Ok (cp_unit_uuid p),
           if test_run then w else sent [_create_xml_import self p] w)
     else (Raise (SDMoxError "Enhedstypen passer ikke til forældreenheden"), w))
  /\ (_validate_unit_code self (cp_unit_code p) true w = (Ok [], w) ->
      _move_unit self p test_run w
      = if (pi <? ui)%nat
        then (Ok (cp_unit_uuid p),
              if test_run then w else sent [_create_xml_flyt self p] w)
        else (Raise (SDMoxError "Enhedstypen passer ikke til forældreenheden"), w)).
Proof.
  intros Hreg Hpl Hui Hpi.
  pose proof (check_parent_level_eval self p w pd pl ui pi Hreg Hpl Hui Hpi) as Hlevel.
  split; intros Hcode.
  - unfold _create_unit. rewrite (bind_ok _ _ _ _ _ Hcode). cbn [bool_decide negb].
    rewrite bool_decide_eq_true_2 by done. cbn [negb].
    destruct (pi <? ui)%nat.
    + rewrite (bind_ok _ _ _ _ _ Hlevel). by destruct test_run.
    + by rewrite (bind_raise _ _ _ _ _ Hlevel).
  - unfold _move_unit. rewrite (bind_ok _ _ _ _ _ Hcode).
    rewrite bool_decide_eq_true_2 by done. cbn [negb].
    destruct (pi <? ui)%nat.
    + rewrite (bind_ok _ _ _ _ _ Hlevel). by destruct test_run.
    + by rewrite (bind_raise _ _ _ _ _ Hlevel).
Qed.

(** C7, at the creation of a unit of the second level under a parent of
    the first level: the document is published. *)
Lemma level_rank_decides_submission_witness :
  _create_unit Scenario.engine_parent_only Scenario.payload_sdm2 false Scenario.w0
  = (Ok "12345-22-22-22-12345", sent ["<import/>"] Scenario.w0).
Proof.
  refine (proj1 (level_rank_decides_submission Scenario.engine_parent_only
                   Scenario.payload_sdm2 false Scenario.w0 Scenario.department_sdm1
                   "NY1-niveau" 1 0 _ _ _ _) _); reflexivity.
Defined.

(** ** Computations that publish nothing *)

Lemma quiet_ret {A} (a : A) : quiet (ret_ a).
Proof. by intros w r w' [= <- <-]. Qed.

Lemma quiet_raise {A} e : quiet (@raise A e).
Proof. by intros w r w' [= <- <-]. Qed.

Lemma quiet_lift {A} (r : result A) : quiet (lift r).
Proof. by intros w r' w' [= <- <-]. Qed.

Lemma quiet_now : quiet now.
Proof. by intros w r w' [= <- <-]. Qed.

Lemma quiet_sleep : quiet sleep.
Proof. by intros w r w' [= <- <-]. Qed.

Lemma quiet_get self addrtype addrid : quiet (get self addrtype addrid).
Proof. by intros w r w' [= <- <-]. Qed.

Lemma quiet_bind {A B} (m : M A) (k : A -> M B) :
  quiet m -> (forall a, quiet (k a)) -> quiet (bind m k).
Proof.
  intros Hm Hk w r w' Hrun.
  apply bind_inv in Hrun as [(a & w1 & Hm1 & Hk1) | (e & Hm1 & _)].
  - rewrite (Hk _ _ _ _ Hk1). by apply (Hm _ _ _ Hm1).
  - by apply (Hm _ _ _ Hm1).
Qed.

Ltac quiet_step :=
  first
    [ apply quiet_ret | apply quiet_raise | apply quiet_lift | apply quiet_now
    | apply quiet_sleep | apply quiet_get
    | match goal with H : _ |- _ => apply H end
    | apply quiet_bind; [|intros ?]
    | match goal with
      | |- quiet (match ?x with _ => _ end) => destruct x
      | |- quiet (let _ := _ in _) => cbv zeta
      end ].

Ltac quiet_auto := repeat quiet_step.

Lemma quiet_read_department self unit_code unit_uuid unit_level :
  quiet (_read_department self unit_code unit_uuid unit_level).
Proof. unfold _read_department. quiet_auto. Qed.

Lemma quiet_read_parent self unit_uuid : quiet (_read_parent self unit_uuid).
Proof. unfold _read_parent. quiet_auto. Qed.

Lemma quiet_check_department self a operation : quiet (_check_department self a operation).
Proof. intros w r w' Hrun. by rewrite (check_department_world _ _ _ _ _ _ Hrun). Qed.

Lemma quiet_validate_unit_code self unit_code can_exist :
  quiet (_validate_unit_code self unit_code can_exist).
Proof.
  unfold _validate_unit_code. pose proof quiet_read_department. quiet_auto.
Qed.

Lemma quiet_check_parent_level self p : quiet (check_parent_level self p).
Proof. unfold check_parent_level. pose proof quiet_read_department. quiet_auto. Qed.

Lemma quiet_payload_create self unit_uuid unit parent :
  quiet (_payload_create self unit_uuid unit parent).
Proof. unfold _payload_create. quiet_auto. Qed.

Lemma quiet_dar_loop self addrid types : quiet (dar_loop self addrid types).
Proof. induction types as [|t types IH]; simpl; quiet_auto. Qed.

Lemma quiet_get_dar_address self addrid : quiet (_get_dar_address self addrid).
Proof. unfold _get_dar_address. pose proof quiet_dar_loop. quiet_auto. Qed.

Lemma quiet_grouped_loop self details :
  forall scoped keyed, quiet (grouped_loop self details scoped keyed).
Proof.
  induction details as [|d details IH]; intros scoped keyed; simpl.
  - quiet_auto.
  - pose proof quiet_get_dar_address. quiet_auto.
Qed.

Lemma quiet_payload_edit self unit_uuid unit addresses :
  quiet (_payload_edit self unit_uuid unit addresses).
Proof.
  unfold _payload_edit, _grouped_addresses. pose proof quiet_grouped_loop. quiet_auto.
Qed.

Lemma quiet_check_unit_loop self a operation n :
  forall unit errors, quiet (check_unit_loop self n a operation unit errors).
Proof.
  induction n as [|n IH]; intros unit errors; simpl.
  - quiet_auto.
  - pose proof quiet_check_department. quiet_auto.
Qed.

Lemma quiet_check_unit self operation a : quiet (_check_unit self operation a).
Proof. unfold _check_unit. pose proof quiet_check_unit_loop. quiet_auto. Qed.

(** ** Grouping the addresses *)

Lemma setdefault_append_is_Some k v (m : gmap string (list string)) key :
  is_Some (setdefault_append k v m !! key) <-> key = k \/ is_Some (m !! key).
Proof.
  unfold setdefault_append. destruct (decide (k = key)) as [<-|Hne].
  - rewrite lookup_insert_eq. split; [by left|]. by eexists.
  - rewrite lookup_insert_ne by done. split; [by right|]. by intros [->|?].
Qed.

(** The scopes of the grouping are the scopes of the records. *)
Lemma grouped_loop_scopes self details :
  forall scoped keyed w s' k' w',
    grouped_loop self details scoped keyed w = (Ok (s', k'), w') ->
    forall key,
      is_Some (s' !! key)
      <-> is_Some (scoped !! key) \/ exists d, d ∈ details /\ addr_scope d = key.
Proof.
  induction details as [|d details IH]; intros scoped keyed w s' k' w' Hrun key.
  - injection Hrun as <- <- <-. split; [by left|].
    intros [?|(d & Hd & _)]; [done|]. by apply elem_of_nil in Hd.
  - simpl in Hrun. apply bind_inv in Hrun as [(v & w1 & _ & Hrun)|(e & _ & [=])].
    rewrite (IH _ _ _ _ _ _ Hrun key), setdefault_append_is_Some.
    split.
    + intros [[->|?]|(d' & Hd' & <-)].
      * right. exists d. split; [by left|done].
      * by left.
      * right. exists d'. split; [by right|done].
    + intros [?|(d' & Hd' & <-)]; [left; by right|].
      apply elem_of_cons in Hd' as [->|Hd'].
      * left. by left.
      * right. by exists d'.
Qed.


Lemma dar_loop_errors self addrid types w e w' :
  dar_loop self addrid types w = (Raise e, w') -> lookup_failure e.
Proof.
  revert w. induction types as [|t types IH]; intros w; simpl.
  - intros [= <- _]. left. exists addrid. by right.
  - intros Hrun. apply bind_inv in Hrun as [(r & w1 & _ & Hrun)|(e' & [=] & _)].
    assert (lookup_failure (SDMoxError ("Fejlende opslag i DAR for " +:+ addrid))) as Hf
      by (left; exists addrid; by left).
    destruct r as [|[[|obj objs]|] [|]]; unfold raise, ret_ in Hrun;
      try (injection Hrun as <- _; exact Hf); try discriminate Hrun.
    by apply IH in Hrun.
Qed.

Lemma get_dar_address_errors self addrid w e w' :
  _get_dar_address self addrid w = (Raise e, w') -> lookup_failure e.
Proof.
  unfold _get_dar_address. intros Hrun.
  apply bind_inv in Hrun as [(objs & w1 & _ & Hrun)|(e' & Hrun & [= ->])].
  - destruct (last objs) as [obj|].
    + destruct (obj !! "betegnelse"); [done|]. injection Hrun as <- _.
      right. by right.
    + injection Hrun as <- _. right. by left.
  - by apply dar_loop_errors in Hrun.
Qed.

Lemma grouped_loop_errors self details :
  forall scoped keyed w e w',
    grouped_loop self details scoped keyed w = (Raise e, w') -> lookup_failure e.
Proof.
  induction details as [|d details IH]; intros scoped keyed w e w'; simpl; [done|].
  intros Hrun. apply bind_inv in Hrun as [(v & w1 & _ & Hrun)|(e' & Hrun & [= ->])].
  - by apply IH in Hrun.
  - case_bool_decide; [|done]. by apply get_dar_address_errors in Hrun.
Qed.

Lemma first_of_errors m k e : first_of m k = Raise e -> e = IndexError.
Proof. unfold first_of. destruct (m !! k) as [[|??]|]; congruence. Qed.

Lemma mo_to_sd_address_errors address e :
  _mo_to_sd_address address = Raise e -> e = ValueError.
Proof.
  unfold _mo_to_sd_address. destruct address as [a|]; [|done].
  destruct (Py.rsplit a 2) as [|?[|?[|?[|??]]]]; congruence.
Qed.

Lemma bind_lift_inv {A B} (r : result A) (k : A -> M B) w x w' :
  bind (lift r) k w = (x, w') ->
  (exists a, r = Ok a /\ k a w = (x, w')) \/ (exists e, r = Raise e /\ x = Raise e).
Proof.
  destruct r as [a|e]; intros H.
  - left. by exists a.
  - right. exists e. by injection H as <- _.
Qed.


(** How building the edit payload can fail: in the address lookup, at the
    ordering check, or in taking the payload's values apart. *)
Lemma payload_edit_errors self unit_uuid unit addresses w e w' :
  _payload_edit self unit_uuid unit addresses w = (Raise e, w') ->
  lookup_failure e
  \/ (e = SDMoxError "Opret postaddresse før pnummer"
      /\ (exists d, d ∈ addresses /\ addr_scope d = "PNUMBER")
      /\ forall d, d ∈ addresses -> addr_scope d <> "DAR")
  \/ e = IndexError \/ e = ValueError.
Proof.
  unfold _payload_edit, _grouped_addresses. intros Hrun.
  apply bind_inv in Hrun as [([s' k'] & w1 & Hg & Hrun)|(e' & Hrun & [= ->])].
  2: { left. by apply grouped_loop_errors in Hrun. }
  pose proof (grouped_loop_scopes _ _ _ _ _ _ _ _ Hg) as Hscopes.
  cbn [fst snd] in Hrun.
  destruct (bool_decide (is_Some (s' !! "PNUMBER"))
            && negb (bool_decide (is_Some (s' !! "DAR")))) eqn:Hcheck.
  - injection Hrun as <- _. right; left. split; [done|].
    apply andb_true_iff in Hcheck as [Hp Hd].
    apply bool_decide_eq_true in Hp. apply negb_true_iff, bool_decide_eq_false in Hd.
    split.
    + apply Hscopes in Hp as [Hp|?]; [|done]. rewrite lookup_empty in Hp. by destruct Hp.
    + intros d Hin Hs. apply Hd, Hscopes. right. by exists d.
  - right; right.
    repeat (apply bind_lift_inv in Hrun as [(? & _ & Hrun)|(e' & Hr & [= ->])];
            [|first [apply first_of_errors in Hr | apply mo_to_sd_address_errors in Hr];
              tauto]).
    done.
Qed.



(** ** Validation before publication *)

Lemma guarded_quiet {A} V (m : M A) : quiet m -> guarded V m.
Proof. intros Hq w e w' Hrun _. by apply (Hq _ _ _ Hrun). Qed.

Lemma guarded_never {A} V (m : M A) : never V m -> guarded V m.
Proof. intros Hn w e w' Hrun HV. by destruct (Hn _ _ _ Hrun). Qed.

Lemma guarded_weaken {A} (V V' : exn -> Prop) (m : M A) :
  (forall e, V' e -> V e) -> guarded V m -> guarded V' m.
Proof. intros Hsub Hg w e w' Hrun HV. apply (Hg _ _ _ Hrun). by apply Hsub. Qed.

Lemma guarded_bind_quiet {A B} V (m : M A) (k : A -> M B) :
  quiet m -> (forall a, guarded V (k a)) -> guarded V (bind m k).
Proof.
  intros Hm Hk w e w' Hrun HV.
  apply bind_inv in Hrun as [(a & w1 & Hm1 & Hk1) | (e' & Hm1 & _)].
  - rewrite (Hk _ _ _ _ Hk1 HV). by apply (Hm _ _ _ Hm1).
  - by apply (Hm _ _ _ Hm1).
Qed.

Lemma guarded_bind_never {A B} V (m : M A) (k : A -> M B) :
  guarded V m -> (forall a, never V (k a)) -> guarded V (bind m k).
Proof.
  intros Hm Hk w e w' Hrun HV.
  apply bind_inv in Hrun as [(a & w1 & Hm1 & Hk1) | (e' & Hm1 & [= ->])].
  - by destruct (Hk _ _ _ _ Hk1).
  - by apply (Hm _ _ _ Hm1).
Qed.

Lemma never_bind {A B} V (m : M A) (k : A -> M B) :
  never V m -> (forall a, never V (k a)) -> never V (bind m k).
Proof.
  intros Hm Hk w e w' Hrun.
  apply bind_inv in Hrun as [(a & w1 & Hm1 & Hk1) | (e' & Hm1 & [= ->])].
  - by apply (Hk _ _ _ _ Hk1).
  - by apply (Hm _ _ _ Hm1).
Qed.

Lemma never_ret {A} V (a : A) : never V (ret_ a).
Proof. by intros w e w' [=]. Qed.

Lemma never_call V xml : never V (_call xml).
Proof. by intros w e w' [=]. Qed.

Lemma never_publish_step V (test_run : bool) xml :
  never V (if negb test_run then _call xml else ret_ tt).
Proof. destruct test_run; [apply never_ret | apply never_call]. Qed.

Lemma head2_append (x y : string) :
  2 <= String.length x -> head2 (x +:+ y) = head2 x.
Proof.
  destruct x as [|a [|b x]]; intros Hx; simpl in Hx; try lia.
  reflexivity.
Qed.

Lemma head2_join x t :
  2 <= String.length x -> head2 (Py.join ", " (x :: t)) = head2 x.
Proof. intros Hx. destruct t; simpl; [done|]. by apply head2_append. Qed.

Lemma validation_failure_head e :
  validation_failure e ->
  exists m, e = SDMoxError m
            /\ (head2 m = "En" \/ head2 m = "Ug" \/ head2 m = "Op" \/ head2 m = "Fo").
Proof.
  intros [[|x t] Hne Hsub| | | |]; try (eexists; split; [done|]; vm_compute; tauto).
  eexists; split; [done|].
  assert (x ∈ unit_code_messages) as Hx by (apply Hsub; by left).
  unfold unit_code_messages in Hx.
  repeat (apply elem_of_cons in Hx as [->|Hx];
          [rewrite head2_join by (simpl; lia); vm_compute; tauto|]).
  by apply elem_of_nil in Hx.
Qed.

Lemma verification_failure_not_validation e :
  verification_failure e -> ~ validation_failure e.
Proof.
  intros Hv Hval. apply validation_failure_head in Hval as (m & -> & Hm).
  destruct Hv as [(s & [[= ->]|[[= ->]|[= ->]]])|[?|?]]; try discriminate.
  all: rewrite head2_append in Hm by (simpl; lia); cbv [head2] in Hm.
  all: destruct Hm as [Hm|[Hm|[Hm|Hm]]]; discriminate Hm.
Qed.

Lemma lookup_failure_not_validation e :
  lookup_failure e -> ~ validation_failure e.
Proof.
  intros Hl Hval. apply validation_failure_head in Hval as (m & -> & Hm).
  destruct Hl as [(s & [[= ->]|[= ->]])|[?|?]]; try discriminate.
  all: rewrite head2_append in Hm by (simpl; lia); cbv [head2] in Hm.
  all: destruct Hm as [Hm|[Hm|[Hm|Hm]]]; discriminate Hm.
Qed.

Lemma observed_phone_errors d e : observed_phone d = Raise e -> e = IndexError.
Proof.
  unfold observed_phone. destruct (ContactInformation_ d) as [ci|]; [|done].
  destruct (TelephoneNumberIdentifier ci) as [[|??]|]; congruence.
Qed.

Lemma check_department_errors self a operation w e w' :
  _check_department self a operation w = (Raise e, w') -> verification_failure e.
Proof.
  rewrite check_department_eval.
  destruct (registry_answer self a w) as [|d|l]; [done| |].
  - assert ((Raise TypeError : result (option Department * list string), w)
            = (Raise e, w') -> verification_failure e) as Htype.
    { intros [= <- _]. right. by left. }
    assert (match observed_phone d with
            | Ok ph => (Ok (Some d, field_mismatches self a operation d ph (clock w)), w)
            | Raise e0 => (Raise e0, w)
            end = (Raise e, w') -> verification_failure e) as Hphone.
    { destruct (observed_phone d) as [ph|e'] eqn:E; [done|].
      intros [= <- _]. apply observed_phone_errors in E as ->. right. by right. }
    destruct (unit_name a), (DepartmentName d); assumption.
  - intros [= <- _]. left.
    exists (Py.str (unit_code a) +:+ ", uuid " +:+ Py.str (unit_uuid a)
            +:+ ", level " +:+ Py.str (unit_level a)).
    left. reflexivity.
Qed.

Lemma check_unit_loop_errors self a operation n :
  forall unit errors w e w',
    check_unit_loop self n a operation unit errors w = (Raise e, w') ->
    verification_failure e.
Proof.
  induction n as [|n IH]; intros unit errors w e w'; simpl; [done|].
  rewrite bind_sleep. intros Hrun.
  apply bind_inv in Hrun as [([found errs] & w1 & _ & Hrun)|(e' & Hrun & [= ->])].
  - destruct found; [done|]. by apply IH in Hrun.
  - by apply check_department_errors in Hrun.
Qed.

Lemma check_unit_errors self operation a w e w' :
  _check_unit self operation a w = (Raise e, w') -> verification_failure e.
Proof.
  unfold _check_unit. intros Hrun.
  apply bind_inv in Hrun as [([found errs] & w1 & _ & Hrun)|(e' & Hrun & [= ->])].
  - cbn [fst snd] in Hrun. destruct found as [d|].
    + destruct errs as [[|x errs]|]; try done.
      injection Hrun as <- _. left. eexists. right; right. reflexivity.
    + injection Hrun as <- _. left. eexists. right; left. reflexivity.
  - by apply check_unit_loop_errors in Hrun.
Qed.

Lemma never_check_unit self operation a :
  never validation_failure (_check_unit self operation a).
Proof.
  intros w e w' Hrun. by apply check_unit_errors, verification_failure_not_validation in Hrun.
Qed.

Lemma never_edit_then_check self dry_run payload :
  never validation_failure
    (bind (_edit_unit self dry_run payload)
       (fun _ => _check_unit self ret (check_args_of_edit payload))).
Proof.
  apply never_bind; [|intros _; apply never_check_unit].
  unfold _edit_unit. apply never_bind; [apply never_publish_step|].
  intros _. apply never_ret.
Qed.

Lemma guarded_update_ou self unit_uuid unit_data addresses dry_run :
  guarded validation_failure (_update_ou self unit_uuid unit_data addresses dry_run).
Proof.
  unfold _update_ou. apply guarded_bind_quiet; [apply quiet_payload_edit|].
  intros payload. apply guarded_never, never_edit_then_check.
Qed.

Lemma never_update_ou self unit_uuid unit_data addresses dry_run :
  never validation_failure_but_ordering
    (_update_ou self unit_uuid unit_data addresses dry_run).
Proof.
  unfold _update_ou. intros w e w' Hrun [Hval Hord].
  apply bind_inv in Hrun as [(payload & w1 & _ & Hrun)|(e' & Hrun & [= ->])].
  - by apply never_edit_then_check in Hrun.
  - apply payload_edit_errors in Hrun as [Hl|[[-> _]|[->| ->]]]; try done.
    + by apply lookup_failure_not_validation in Hl.
    + apply validation_failure_head in Hval as (? & [=] & _).
    + apply validation_failure_head in Hval as (? & [=] & _).
Qed.

Lemma guarded_submit V self (p : CreatePayload) (test_run can_exist : bool) xml :
  guarded V
    (let* code_errors := _validate_unit_code self (cp_unit_code p) can_exist in
     if negb (bool_decide (code_errors = []))
     then raise (SDMoxError (Py.join ", " code_errors))
     else
       check_parent_level self p ;;;
       (if negb test_run then _call xml else ret_ tt) ;;;
       ret_ (cp_unit_uuid p)).
Proof.
  apply guarded_bind_quiet; [apply quiet_validate_unit_code|].
  intros errs. destruct (negb _); [apply guarded_quiet, quiet_raise|].
  apply guarded_bind_quiet; [apply quiet_check_parent_level|].
  intros _. apply guarded_never, never_bind; [apply never_publish_step|].
  intros _. apply never_ret.
Qed.

Lemma guarded_create_address self unit_uuid address_data at_ dry_run :
  guarded validation_failure (create_address self unit_uuid address_data at_ dry_run).
Proof. unfold create_address. apply guarded_update_ou. Qed.

Lemma guarded_rename_unit self unit_uuid new_unit_name at_ dry_run :
  guarded validation_failure (rename_unit self unit_uuid new_unit_name at_ dry_run).
Proof.
  unfold rename_unit. cbv zeta.
  apply guarded_bind_quiet; [apply quiet_validate_unit_code|].
  intros errs. destruct (negb _); [apply guarded_quiet, quiet_raise|].
  apply guarded_update_ou.
Qed.

Lemma guarded_move_unit self unit_uuid new_parent_uuid at_ dry_run :
  guarded validation_failure (move_unit self unit_uuid new_parent_uuid at_ dry_run).
Proof.
  unfold move_unit. cbv zeta.
  apply guarded_bind_quiet; [apply quiet_validate_unit_code|].
  intros errs. destruct (negb _); [apply guarded_quiet, quiet_raise|].
  apply guarded_bind_quiet; [apply quiet_payload_create|].
  intros payload. apply guarded_bind_never; [|intros _; apply never_check_unit].
  apply guarded_submit.
Qed.

Lemma never_weaken {A} (V V' : exn -> Prop) (m : M A) :
  (forall e, V' e -> V e) -> never V m -> never V' m.
Proof. intros Hsub Hn w e w' Hrun HV. apply (Hn _ _ _ Hrun). by apply Hsub. Qed.

Lemma guarded_create_unit self unit_uuid unit_data parent_data dry_run :
  guarded validation_failure_but_ordering
    (create_unit self unit_uuid unit_data parent_data dry_run)
  /\ (ou_details unit_data = [] ->
      guarded validation_failure
        (create_unit self unit_uuid unit_data parent_data dry_run)).
Proof.
  unfold create_unit. split; [|intros Hnil; rewrite Hnil].
  - apply guarded_bind_quiet; [apply quiet_payload_create|].
    intros payload. apply guarded_bind_never; [apply guarded_submit|].
    intros _. apply never_bind.
    + destruct (ou_details unit_data); [apply never_ret|].
      apply never_bind; [apply never_update_ou|]. intros _. apply never_ret.
    + intros _. apply (never_weaken validation_failure); [by intros e [? _]|].
      apply never_check_unit.
  - apply guarded_bind_quiet; [apply quiet_payload_create|].
    intros payload. apply guarded_bind_never; [apply guarded_submit|].
    intros _. apply never_bind; [apply never_ret|].
    intros _. apply never_check_unit.
Qed.

(** In a dry run nothing is published. *)
Lemma quiet_update_ou_dry self unit_uuid unit_data addresses :
  quiet (_update_ou self unit_uuid unit_data addresses true).
Proof.
  unfold _update_ou, _edit_unit. cbn [negb].
  pose proof quiet_payload_edit. pose proof quiet_check_unit. quiet_auto.
Qed.

Lemma quiet_create_unit_dry self unit_uuid unit_data parent_data :
  quiet (create_unit self unit_uuid unit_data parent_data true).
Proof.
  unfold create_unit, _create_unit. cbn [negb].
  pose proof quiet_payload_create. pose proof quiet_check_unit.
  pose proof quiet_update_ou_dry. pose proof quiet_validate_unit_code.
  pose proof quiet_check_parent_level. quiet_auto.
Qed.

(** C2 (amended). In rename, move and create/edit-address, a validation
    failure (bad unit code, level mismatch, ordering violation, unknown
    level) is raised with nothing published since the operation began. In
    create the same holds for the bad unit code, the level mismatch and the
    unknown level, and for every validation failure when the unit comes
    without address details; and a dry run of create publishes nothing at
    all. The ordering violation of a create with address details is outside
    this guarantee: it is raised by the address step, after the create
    step. *)
Theorem validation_precedes_publication (self : Env) :
  (forall unit_uuid new_unit_name at_ dry_run,
     guarded validation_failure (rename_unit self unit_uuid new_unit_name at_ dry_run))
  /\ (forall unit_uuid new_parent_uuid at_ dry_run,
        guarded validation_failure (move_unit self unit_uuid new_parent_uuid at_ dry_run))
  /\ (forall unit_uuid address_data at_ dry_run,
        guarded validation_failure (create_address self unit_uuid address_data at_ dry_run))
  /\ (forall unit_uuid address_data at_ dry_run,
        guarded validation_failure (edit_address self unit_uuid address_data at_ dry_run))
  /\ (forall unit_uuid unit_data parent_data dry_run,
        guarded validation_failure_but_ordering
          (create_unit self unit_uuid unit_data parent_data dry_run))
  /\ (forall unit_uuid unit_data parent_data dry_run,
        ou_details unit_data = [] ->
        guarded validation_failure
          (create_unit self unit_uuid unit_data parent_data dry_run))
  /\ (forall unit_uuid unit_data parent_data,
        quiet (create_unit self unit_uuid unit_data parent_data true)).
Proof.
  repeat apply conj; intros.
  - apply guarded_rename_unit.
  - apply guarded_move_unit.
  - apply guarded_create_address.
  - unfold edit_address. apply guarded_create_address.
  - apply guarded_create_unit.
  - by apply guarded_create_unit.
  - apply quiet_create_unit_dry.
Qed.

(** C2 (amended), at the addition of a production unit number to a unit
    without addresses: the ordering violation leaves the channel as it
    was. *)
Lemma validation_precedes_publication_witness :
  published
    (create_address Scenario.engine_empty "12345-22-22-22-12345"
       Scenario.pnumber_address "2019-07-01" false Scenario.w0).2
  = published Scenario.w0.
Proof.
  refine (proj1 (proj2 (proj2 (validation_precedes_publication Scenario.engine_empty)))
            "12345-22-22-22-12345" Scenario.pnumber_address "2019-07-01" false
            Scenario.w0 (SDMoxError "Opret postaddresse før pnummer") _ _ _).
  - reflexivity.
  - apply ordering_violation.
Defined.

(** C2 (the claim as stated fails). Creating a unit whose address details
    hold a production unit number and no postal location ends in the
    ordering violation after the create document has been published. *)
Lemma create_publishes_before_ordering_violation :
  create_unit Scenario.engine_parent_only "12345-22-22-22-12345"
    Scenario.unit_sdm2_pnumber Scenario.unit_parent false Scenario.w0
  = (Raise (SDMoxError "Opret postaddresse før pnummer"),
     {| published := ["<import/>"]; lookups := []; clock := 0 |})
  /\ validation_failure (SDMoxError "Opret postaddresse før pnummer")
  /\ published Scenario.w0 = [].
Proof.
  split; [vm_compute; reflexivity|]. split; [apply ordering_violation|reflexivity].
Qed.

(** ** Verification after a move *)

Lemma payload_create_name self unit_uuid unit parent w p w' :
  _payload_create self unit_uuid unit parent w = (Ok p, w') ->
  cp_unit_name p = ou_name unit.
Proof.
  unfold _payload_create.
  destruct (negb (Py.truthy (level_by_uuid self !! ou_org_unit_level unit))); [done|].
  destruct (negb (Py.truthy (level_by_uuid self !! ou_org_unit_level parent))); [done|].
  by intros [= <- _].
Qed.

(** C6. The arguments move verifies with carry no expected name, so no
    attempt of a move reports a name mismatch, whatever name was requested
    and whatever name, if any, the registry shows; when the registry shows
    the unit, the attempt completes. A move that gets as far as the
    verification runs it with these arguments, whatever the name of the
    moved unit; a move that does not get that far has published nothing. *)
Theorem move_check_no_name_mismatch (self : Env) :
  (forall p w found errs w',
     _check_department self (move_check_args p) flyt w = (Ok (found, errs), w') ->
     "Name" ∉ errs)
  /\ (forall p w d ph,
        registry_answer self (move_check_args p) w = OneDepartment d ->
        observed_phone d = Ok ph ->
        exists errs,
          _check_department self (move_check_args p) flyt w = (Ok (Some d, errs), w)
          /\ "Name" ∉ errs)
  /\ (forall unit_uuid new_parent_uuid at_ dry_run w r w',
        move_unit self unit_uuid new_parent_uuid at_ dry_run w = (r, w') ->
        (exists e, r = Raise e /\ published w' = published w)
        \/ (exists p w1,
              cp_unit_name p = ou_name (read_ou self unit_uuid (Some at_))
              /\ _check_unit self flyt (move_check_args p) w1 = (r, w'))).
Proof.
  assert (forall p d ph t,
            "Name" ∉ field_mismatches self (move_check_args p) flyt d ph t) as Hno.
  { intros p d ph t. rewrite name_in_field_mismatches.
    intros (e & o & He & _). discriminate He. }
  split; [|split].
  - intros p w [found|] errs w' Hrun.
    + apply check_department_found_inv in Hrun as (_ & _ & ph & _ & ->). apply Hno.
    + apply check_department_not_found_inv in Hrun as ->.
      rewrite list_elem_of_singleton. discriminate.
  - intros p w d ph Hr Hp. eexists. split; [|apply Hno].
    apply check_department_found; [done| |done].
    intros [? [=]].
  - intros unit_uuid new_parent_uuid at_ dry_run w r w'. unfold move_unit. cbv zeta.
    intros Hrun.
    apply bind_inv in Hrun as [(errs & w1 & Hval & Hrun)|(e & Hval & ->)].
    2: { left. exists e. split; [done|]. by apply quiet_validate_unit_code in Hval. }
    apply quiet_validate_unit_code in Hval.
    destruct (negb (bool_decide (errs = []))).
    { injection Hrun as <- <-. left. eauto. }
    apply bind_inv in Hrun as [(p & w2 & Hp & Hrun)|(e & Hp & ->)].
    2: { left. exists e. split; [done|]. apply quiet_payload_create in Hp. congruence. }
    pose proof (payload_create_name _ _ _ _ _ _ _ Hp) as Hname.
    apply quiet_payload_create in Hp.
    apply bind_inv in Hrun as [(u & w3 & Hm & Hrun)|(e & Hm & ->)].
    + right. by exists p, w3.
    + left. exists e. split; [done|].
      pose proof (guarded_submit (fun _ => True) self p dry_run true
                    (_create_xml_flyt self p) _ _ _ Hm I) as Hpub.
      congruence.
Qed.

(** C6, at the move of the unit under its parent when the registry shows
    the unit under another name: the attempt completes without a name
    mismatch. *)
Lemma move_check_no_name_mismatch_witness :
  exists errs,
    _check_department Scenario.engine_truncating (move_check_args Scenario.payload_sdm2)
      flyt Scenario.w0
    = (Ok (Some (Scenario.department_sdm2 "A-sdm" "2019-07-01"), errs), Scenario.w0)
    /\ "Name" ∉ errs.
Proof.
  exact (proj1 (proj2 (move_check_no_name_mismatch Scenario.engine_truncating))
           Scenario.payload_sdm2 Scenario.w0
           (Scenario.department_sdm2 "A-sdm" "2019-07-01") None eq_refl eq_refl).
Defined.

(** ** The embedding on the cases of the unit tests *)

Example test_payload_edit_simple :
  _payload_edit Scenario.engine_test "12345-22-22-22-12345" Scenario.unit_sdm2 []
    Scenario.w0
  = (Ok {| ep_unit_name := Some "A-sdm2"; ep_unit_code := Some "SDM2";
           ep_unit_uuid := "12345-22-22-22-12345";
           ep_phone := None; ep_pnummer := None; ep_adresse := None;
           ep_formaalskode := None; ep_skolekode := None |},
     Scenario.w0).
Proof. vm_compute. reflexivity. Qed.

Example test_payload_edit_address :
  _payload_edit Scenario.engine_test "12345-22-22-22-12345" Scenario.unit_sdm2
    Scenario.test_addresses Scenario.w0
  = (Ok {| ep_unit_name := Some "A-sdm2"; ep_unit_code := Some "SDM2";
           ep_unit_uuid := "12345-22-22-22-12345";
           ep_phone := Some "12345678"; ep_pnummer := Some "0123456789";
           ep_adresse := Some {| AdresseNavn := "Toftebjerghaven 4";
                                 PostKodeIdentifikator := "2750";
                                 ByNavn := "Ballerup" |};
           ep_formaalskode := None; ep_skolekode := None |},
     requested [("adresser", "0a3f507b-7750-32b8-e044-0003ba298018")] Scenario.w0).
Proof. vm_compute. reflexivity. Qed.

Example test_payload_create :
  _payload_create Scenario.engine_test "12345-22-22-22-12345" Scenario.unit_sdm2
    Scenario.unit_parent Scenario.w0
  = (Ok Scenario.payload_sdm2, Scenario.w0).
Proof. vm_compute. reflexivity. Qed.

(** The level check on a unit of the first level under a parent of the
    second level. *)
Example create_unit_level_violation :
  _create_unit Scenario.engine_child_only Scenario.payload_reversed false Scenario.w0
  = (Raise (SDMoxError "Enhedstypen passer ikke til forældreenheden"), Scenario.w0).
Proof. vm_compute. reflexivity. Qed.

(** ** The statements at concrete inputs *)


(** C4 (amended), at a code of four upper-case alphanumeric characters. *)
Lemma validate_unit_code_violations_witness :
  _validate_unit_code Scenario.engine_empty (Some "SDM2") true Scenario.w0
  = (Ok [], Scenario.w0).
Proof.
  destruct (validate_unit_code_violations Scenario.engine_empty (Some "SDM2") Scenario.w0)
    as (errs & Hrun & _ & _ & _ & _ & _ & _ & Hvalid).
  rewrite Hrun, Hvalid; [reflexivity|].
  exists "SDM2". split; [reflexivity|].
  split; [vm_compute; lia|]. split; reflexivity.
Defined.

(** C9 (amended), at an edit that expects nothing and finds the unit with
    the engine's date as its activation date: success at the first poll. *)
Lemma check_skips_absent_expectations_witness :
  _check_unit Scenario.engine_truncating ret no_expectations Scenario.w0
  = (Ok (Scenario.department_sdm2 "A-sdm" "2019-07-01"), waited 1 Scenario.w0).
Proof.
  refine (proj2 (check_skips_absent_expectations Scenario.engine_truncating ret
                   no_expectations Scenario.w0)
            1 (Scenario.department_sdm2 "A-sdm" "2019-07-01") None _ _ eq_refl eq_refl).
  - simpl. lia.
  - intros j Hj. lia.
Defined.

(** * Further properties of the engine *)

(** ** The level hierarchy and the create/move payload *)

Lemma foldl_insert_untouched (l : list (string * string)) (u : string) :
  forall m : gmap string string,
    u ∉ l.*2 ->
    foldl (fun m kv => <[kv.2 := kv.1]> m) m l !! u = m !! u.
Proof.
  induction l as [|[k' u'] l IH]; intros m Hu; [done|].
  cbn [foldl]. rewrite IH.
  - apply lookup_insert_ne. intros <-. apply Hu. by left.
  - intros Hin. apply Hu. by right.
Qed.

Lemma foldl_insert_sound (l : list (string * string)) (u k : string) :
  forall m : gmap string string,
    foldl (fun m kv => <[kv.2 := kv.1]> m) m l !! u = Some k ->
    (k, u) ∈ l \/ m !! u = Some k.
Proof.
  induction l as [|[k' u'] l IH]; intros m H; [by right|].
  cbn [foldl] in H. apply IH in H as [H|H]; [left; by right|].
  cbn [fst snd] in H. destruct (decide (u' = u)) as [->|Hne].
  - rewrite lookup_insert_eq in H. injection H as ->. left. by left.
  - rewrite lookup_insert_ne in H by done. by right.
Qed.

Lemma level_by_uuid_sound (self : Env) u k :
  level_by_uuid self !! u = Some k -> (k, u) ∈ sd_levels self.
Proof.
  unfold level_by_uuid. intros H.
  apply foldl_insert_sound in H as [H|H]; [done|]. by rewrite lookup_empty in H.
Qed.

(** X1. The inverse lookup built at construction is sound: a uuid it maps
    to a level key is paired with that key in the hierarchy. When the uuids
    of the hierarchy are pairwise distinct it is also complete: every pair
    of the hierarchy is found back from its uuid. *)
Theorem level_by_uuid_inverse (self : Env) :
  (forall u k, level_by_uuid self !! u = Some k -> (k, u) ∈ sd_levels self)
  /\ (NoDup (sd_levels self).*2 ->
      forall k u, (k, u) ∈ sd_levels self -> level_by_uuid self !! u = Some k).
Proof.
  unfold level_by_uuid. split.
  - intros u k H. apply foldl_insert_sound in H as [H|H]; [done|].
    by rewrite lookup_empty in H.
  - generalize (∅ : gmap string string).
    induction (sd_levels self) as [|[k' u'] l IH]; intros m Hnd k u Hin.
    + by apply elem_of_nil in Hin.
    + cbn [foldl]. cbn [fmap list_fmap snd] in Hnd.
      apply NoDup_cons in Hnd as [Hu' Hnd].
      apply elem_of_cons in Hin as [[= -> ->]|Hin].
      * rewrite foldl_insert_untouched by done. apply lookup_insert_eq.
      * by apply IH.
Qed.

(** X1, at the hierarchy of the scenarios. *)
Lemma level_by_uuid_inverse_witness :
  level_by_uuid Scenario.engine_empty !! "uuid-b" = Some "Afdelings-niveau".
Proof.
  refine (proj2 (level_by_uuid_inverse Scenario.engine_empty) _
            "Afdelings-niveau" "uuid-b" _).
  - apply (bool_decide_unpack (NoDup (sd_levels Scenario.engine_empty).*2)).
    vm_compute. exact I.
  - right. by left.
Defined.

Lemma index_elem_of (x : string) (l : list string) :
  x ∈ l -> exists i, index x l = Ok i /\ l !! i = Some x.
Proof.
  induction l as [|y l IH]; intros Hin; [by apply elem_of_nil in Hin|].
  simpl. case_bool_decide as Hy.
  - exists 0. by rewrite Hy.
  - apply elem_of_cons in Hin as [->|Hin]; [done|].
    destruct (IH Hin) as (i & -> & Hi). by exists (S i).
Qed.

Lemma index_not_elem_of (x : string) (l : list string) :
  x ∉ l -> index x l = Raise ValueError.
Proof.
  induction l as [|y l IH]; intros Hin; [done|].
  simpl. case_bool_decide as Hy.
  - destruct Hin. rewrite Hy. by left.
  - rewrite IH; [done|]. intros H. apply Hin. by right.
Qed.

Lemma truthy_Some (v : option string) :
  Py.truthy v = true -> exists s, v = Some s /\ s <> "".
Proof. destruct v as [[|??]|]; try done. intros _. by eexists. Qed.

(** X2. [_payload_create] changes nothing outside the engine. When it
    returns a payload, the payload carries the name, code and uuid it was
    given and the parent's code and uuid, and both its levels are keys of
    the hierarchy paired with the uuids of the directory units, so that
    both have a rank. When it fails, the failure is the unknown level of the
    unit, or, the unit's level being known, the unknown level of the
    parent. *)
Theorem payload_create_outcome (self : Env) (unit_uuid : string) (unit parent : OrgUnit)
    (w : World) :
  (forall p w',
     _payload_create self unit_uuid unit parent w = (Ok p, w') ->
     w' = w
     /\ cp_unit_name p = ou_name unit /\ cp_unit_code p = ou_user_key unit
     /\ cp_unit_uuid p = unit_uuid
     /\ parent_unit_code (cp_parent p) = ou_user_key parent
     /\ parent_uuid (cp_parent p) = ou_uuid parent
     /\ (cp_unit_level p, ou_org_unit_level unit) ∈ sd_levels self
     /\ (parent_level (cp_parent p), ou_org_unit_level parent) ∈ sd_levels self
     /\ (exists i, level_index self (cp_unit_level p) = Ok i)
     /\ (exists j, level_index self (parent_level (cp_parent p)) = Ok j))
  /\ (forall e w',
        _payload_create self unit_uuid unit parent w = (Raise e, w') ->
        w' = w
        /\ ((e = SDMoxError "Enhedstype er ikke et kendt NY-niveau"
             /\ Py.truthy (level_by_uuid self !! ou_org_unit_level unit) = false)
            \/ (e = SDMoxError "Forældreenhedens enhedstype er ikke et kendt NY-niveau"
                /\ Py.truthy (level_by_uuid self !! ou_org_unit_level unit) = true
                /\ Py.truthy (level_by_uuid self !! ou_org_unit_level parent) = false))).
Proof.
  unfold _payload_create.
  destruct (Py.truthy (level_by_uuid self !! ou_org_unit_level unit)) eqn:Hu;
    cbn [negb].
  2: { split; [done|]. intros e w' [= <- <-]. split; [done|]. by left. }
  destruct (Py.truthy (level_by_uuid self !! ou_org_unit_level parent)) eqn:Hp;
    cbn [negb].
  2: { split; [done|]. intros e w' [= <- <-]. split; [done|]. by right. }
  split; [|done]. intros p w' [= <- <-]. cbn.
  apply truthy_Some in Hu as (lu & Hu & _). apply truthy_Some in Hp as (lp & Hp & _).
  rewrite Hu, Hp. cbn.
  pose proof (level_by_uuid_sound self _ _ Hu) as Hinu.
  pose proof (level_by_uuid_sound self _ _ Hp) as Hinp.
  repeat split; try done.
  - unfold level_index. destruct (index_elem_of lu (sd_levels self).*1) as (i & Hi & _).
    { apply list_elem_of_fmap. by exists (lu, ou_org_unit_level unit). }
    by exists i.
  - unfold level_index. destruct (index_elem_of lp (sd_levels self).*1) as (j & Hj & _).
    { apply list_elem_of_fmap. by exists (lp, ou_org_unit_level parent). }
    by exists j.
Qed.

(** X2, at the units of the unit tests. *)
Lemma payload_create_outcome_witness :
  exists i, level_index Scenario.engine_test (cp_unit_level Scenario.payload_sdm2) = Ok i.
Proof.
  destruct (proj1 (payload_create_outcome Scenario.engine_test "12345-22-22-22-12345"
                     Scenario.unit_sdm2 Scenario.unit_parent Scenario.w0)
              Scenario.payload_sdm2 Scenario.w0 eq_refl)
    as (_ & _ & _ & _ & _ & _ & _ & _ & Hi & _).
  exact Hi.
Defined.

(** ** Reading the level keys *)

Lemma fetch_class_map_sound (classes : list (string * string)) k v :
  _fetch_class_map classes !! k = Some v -> (k, v) ∈ classes.
Proof.
  unfold _fetch_class_map.
  assert (forall m : gmap string string,
            foldl (fun m kv => <[kv.1 := kv.2]> m) m classes !! k = Some v ->
            (k, v) ∈ classes \/ m !! k = Some v) as Hgen.
  { induction classes as [|[k' v'] l IH]; intros m H; [by right|].
    cbn [foldl] in H. apply IH in H as [H|H]; [left; by right|].
    cbn [fst snd] in H. destruct (decide (k' = k)) as [->|Hne].
    - rewrite lookup_insert_eq in H. injection H as ->. left. by left.
    - rewrite lookup_insert_ne in H by done. by right. }
  intros H. apply Hgen in H as [H|H]; [done|]. by rewrite lookup_empty in H.
Qed.

Lemma od_insert_new k v d : k ∉ d.*1 -> od_insert k v d = d ++ [(k, v)].
Proof.
  induction d as [|[k' v'] d IH]; intros Hk; [done|].
  cbn [od_insert]. rewrite bool_decide_eq_false_2.
  - rewrite IH; [done|]. intros H. apply Hk. by right.
  - intros ->. apply Hk. by left.
Qed.

Lemma fetch_class_map_complete (classes : list (string * string)) k :
  k ∈ classes.*1 -> is_Some (_fetch_class_map classes !! k).
Proof.
  unfold _fetch_class_map.
  assert (forall m : gmap string string,
            k ∈ classes.*1 \/ is_Some (m !! k) ->
            is_Some (foldl (fun m kv => <[kv.1 := kv.2]> m) m classes !! k)) as Hgen.
  { induction classes as [|[k' v'] l IH]; intros m H.
    - destruct H as [H|H]; [by apply elem_of_nil in H|done].
    - cbn [foldl]. apply IH. cbn [fst snd].
      destruct (decide (k' = k)) as [->|Hne].
      + right. rewrite lookup_insert_eq. by eexists.
      + rewrite lookup_insert_ne by done.
        destruct H as [[?|?]%elem_of_cons|?]; [done|by left|by right]. }
  intros H. apply Hgen. by left.
Qed.

Lemma od_insert_keys k v d :
  (od_insert k v d).*1 = if bool_decide (k ∈ d.*1) then d.*1 else d.*1 ++ [k].
Proof.
  induction d as [|[k' v'] d IH]; [done|].
  cbn [od_insert]. destruct (decide (k' = k)) as [->|Hne].
  - rewrite bool_decide_eq_true_2 by done. cbn.
    rewrite bool_decide_eq_true_2 by (by left). done.
  - rewrite bool_decide_eq_false_2 by done. cbn. rewrite IH.
    case_bool_decide as Hin.
    + rewrite bool_decide_eq_true_2 by (by right). done.
    + rewrite bool_decide_eq_false_2; [done|].
      intros [?|?]%elem_of_cons; [by subst|done].
Qed.

Lemma od_insert_elem_of k v d kv :
  kv ∈ od_insert k v d -> kv = (k, v) \/ kv ∈ d.
Proof.
  induction d as [|[k' v'] d IH]; cbn [od_insert].
  - intros ->%list_elem_of_singleton. by left.
  - destruct (bool_decide (k' = k)).
    + intros [->|?]%elem_of_cons; [by left|]. right. by right.
    + intros [->|H]%elem_of_cons; [right; by left|].
      apply IH in H as [?|?]; [by left|]. right. by right.
Qed.

Lemma od_insert_NoDup k v d : NoDup d.*1 -> NoDup (od_insert k v d).*1.
Proof.
  intros Hnd. rewrite od_insert_keys. case_bool_decide as Hin; [done|].
  apply NoDup_app. split; [done|]. split.
  - intros x Hx ->%list_elem_of_singleton. done.
  - apply NoDup_singleton.
Qed.

Lemma od_of_keys_outcome (classes : gmap string string) (keys : list string) :
  forall d,
    NoDup d.*1 ->
    (forall levels,
       od_of_keys classes keys d = Ok levels ->
       NoDup levels.*1
       /\ (forall k, k ∈ levels.*1 <-> k ∈ d.*1 \/ k ∈ keys)
       /\ (forall kv, kv ∈ levels -> kv ∈ d \/ classes !! kv.1 = Some kv.2)
       /\ (NoDup keys -> (forall k, k ∈ keys -> k ∉ d.*1) -> levels.*1 = d.*1 ++ keys))
    /\ (forall e,
          od_of_keys classes keys d = Raise e ->
          exists k, e = KeyError k /\ k ∈ keys /\ classes !! k = None)
    /\ ((forall k, k ∈ keys -> is_Some (classes !! k)) ->
        exists levels, od_of_keys classes keys d = Ok levels).
Proof.
  induction keys as [|key keys IH]; intros d Hnd.
  - split; [|split].
    + intros levels [= <-]. split; [done|]. split; [|split].
      * intros k. split; [by left|]. intros [?|H]; [done|]. by apply elem_of_nil in H.
      * intros kv ?. by left.
      * intros _ _. by rewrite app_nil_r.
    + done.
    + intros _. by exists d.
  - cbn [od_of_keys]. destruct (classes !! key) as [v|] eqn:Hkey.
    + destruct (IH (od_insert key v d) (od_insert_NoDup key v d Hnd)) as (Hok & Herr & Hall).
      assert (forall k, k ∈ (od_insert key v d).*1 <-> k ∈ d.*1 \/ k = key) as Hkeys.
      { intros k. rewrite od_insert_keys. case_bool_decide as Hin.
        - split; [by left|]. by intros [?| ->].
        - rewrite elem_of_app, list_elem_of_singleton. done. }
      split; [|split].
      * intros levels Hrun. destruct (Hok levels Hrun) as (H1 & H2 & H3 & H4).
        split; [done|]. split; [|split].
        -- intros k. rewrite H2, Hkeys, elem_of_cons. tauto.
        -- intros kv Hkv. apply H3 in Hkv as [Hkv|?]; [|by right].
           apply od_insert_elem_of in Hkv as [->|?]; [by right|by left].
        -- intros [Hk Hnd']%NoDup_cons Hfresh.
           rewrite H4; [| done |].
           ++ rewrite od_insert_new by (apply Hfresh; by left).
              rewrite fmap_app. cbn. by rewrite <- app_assoc.
           ++ intros k Hin [?| ->]%Hkeys; [|done].
              apply (Hfresh k); [by right|done].
      * intros e Hrun. destruct (Herr e Hrun) as (k & -> & Hin & Hnone).
        exists k. split; [done|]. split; [by right|done].
      * intros Hpresent. apply Hall. intros k Hin. apply Hpresent. by right.
    + split; [done|]. split.
      * intros e [= <-]. exists key. split; [done|]. split; [by left|done].
      * intros Hpresent. destruct (Hpresent key) as [? H]; [by left|]. congruence.
Qed.

(** X3. Reading the level keys gives the hierarchy when every configured
    key is the user key of a class of the facet, and otherwise raises
    [KeyError] for a configured key that is no class. The hierarchy has no
    key twice, its keys are the configured ones, each paired with a uuid
    that a class of the facet gives it, and when no key is configured twice
    its keys are the configured keys in their order, so that the rank of a
    level is its position in the setting. *)
Theorem read_ou_levelkeys_outcome (org_unit_level : list (string * string))
    (ou_levelkeys : list string) :
  (forall levels,
     _read_ou_levelkeys org_unit_level ou_levelkeys = Ok levels ->
     NoDup levels.*1
     /\ (forall k, k ∈ levels.*1 <-> k ∈ ou_levelkeys)
     /\ (forall k v, (k, v) ∈ levels -> (k, v) ∈ org_unit_level)
     /\ (NoDup ou_levelkeys -> levels.*1 = ou_levelkeys))
  /\ (forall e,
        _read_ou_levelkeys org_unit_level ou_levelkeys = Raise e ->
        exists k, e = KeyError k /\ k ∈ ou_levelkeys /\ k ∉ org_unit_level.*1)
  /\ ((forall k, k ∈ ou_levelkeys -> k ∈ org_unit_level.*1) ->
      exists levels, _read_ou_levelkeys org_unit_level ou_levelkeys = Ok levels).
Proof.
  unfold _read_ou_levelkeys.
  destruct (od_of_keys_outcome (_fetch_class_map org_unit_level) ou_levelkeys []
              (NoDup_nil_2)) as (Hok & Herr & Hall).
  split; [|split].
  - intros levels Hrun. destruct (Hok levels Hrun) as (H1 & H2 & H3 & H4).
    split; [done|]. split; [|split].
    + intros k. rewrite H2. split; [|by right].
      intros [H|?]; [by apply elem_of_nil in H|done].
    + intros k v Hkv. apply H3 in Hkv as [Hkv|Hkv]; [by apply elem_of_nil in Hkv|].
      by apply fetch_class_map_sound.
    + intros Hnd. rewrite H4; [done|done|]. intros k _ H. by apply elem_of_nil in H.
  - intros e Hrun. destruct (Herr e Hrun) as (k & -> & Hin & Hnone).
    exists k. split; [done|]. split; [done|].
    intros Hk. apply fetch_class_map_complete in Hk as [? Hk]. congruence.
  - intros Hpresent. apply Hall. intros k Hin.
    by apply fetch_class_map_complete, Hpresent.
Qed.

(** X3, at the levels of the scenarios among the classes of a facet that
    has a third level. *)
Lemma read_ou_levelkeys_outcome_witness :
  exists levels,
    _read_ou_levelkeys
      [("Afdelings-niveau", "uuid-b"); ("NY2-niveau", "uuid-c"); ("NY1-niveau", "uuid-a")]
      ["NY1-niveau"; "Afdelings-niveau"] = Ok levels.
Proof.
  refine (proj2 (proj2 (read_ou_levelkeys_outcome
            [("Afdelings-niveau", "uuid-b"); ("NY2-niveau", "uuid-c"); ("NY1-niveau", "uuid-a")]
            ["NY1-niveau"; "Afdelings-niveau"])) _).
  intros k Hk.
  repeat (apply elem_of_cons in Hk as [->|Hk];
          [cbn; rewrite !elem_of_cons; tauto|]).
  by apply elem_of_nil in Hk.
Defined.

(** ** The grouping of the addresses, in full *)

Lemma group_setdefault_append k v m k' :
  group (setdefault_append k v m) k'
  = if bool_decide (k = k') then group m k ++ [v] else group m k'.
Proof.
  unfold group, setdefault_append. case_bool_decide as Hk.
  - subst k'. by rewrite lookup_insert_eq.
  - by rewrite lookup_insert_ne.
Qed.

Lemma groups_nonempty_setdefault_append k v m :
  groups_nonempty m -> groups_nonempty (setdefault_append k v m).
Proof.
  intros Hm k' l. unfold setdefault_append.
  destruct (decide (k = k')) as [<-|Hne].
  - rewrite lookup_insert_eq. intros [= <-]. by destruct (default [] (m !! k)).
  - rewrite lookup_insert_ne by done. apply Hm.
Qed.

Lemma groups_nonempty_lookup m k :
  groups_nonempty m -> m !! k = grouped (group m k).
Proof.
  intros Hm. unfold group. destruct (m !! k) as [l|] eqn:E; [|done].
  simpl. destruct l; [|done]. by destruct (Hm k [] E).
Qed.

Lemma grouped_loop_groups self details :
  forall scoped keyed w s' k' w',
    grouped_loop self details scoped keyed w = (Ok (s', k'), w') ->
    (groups_nonempty scoped -> groups_nonempty s')
    /\ (groups_nonempty keyed -> groups_nonempty k')
    /\ (forall k, group k' k = group keyed k ++ (addr_value <$> of_user_key k details))
    /\ (forall s, s <> "DAR" ->
                  group s' s = group scoped s ++ (addr_value <$> of_scope s details))
    /\ (exists labels,
          Forall2 (resolves self) (of_scope "DAR" details) labels
          /\ group s' "DAR" = group scoped "DAR" ++ labels).
Proof.
  induction details as [|d details IH]; intros scoped keyed w s' k' w' Hrun.
  - injection Hrun as <- <- <-. repeat split; try done.
    + intros k. by rewrite app_nil_r.
    + intros s _. by rewrite app_nil_r.
    + exists []. split; [constructor|]. by rewrite app_nil_r.
  - cbn [grouped_loop] in Hrun.
    apply bind_inv in Hrun as [(v & w1 & Hv & Hrun)|(e & _ & [=])].
    destruct (IH _ _ _ _ _ _ Hrun) as (Hs & Hk & Hkey & Hscope & labels & Hres & Hdar).
    split; [|split; [|split; [|split]]].
    + intros H. by apply Hs, groups_nonempty_setdefault_append.
    + intros H. by apply Hk, groups_nonempty_setdefault_append.
    + intros k. rewrite Hkey, group_setdefault_append. unfold of_user_key.
      destruct (decide (addr_user_key d = k)) as [Hd|Hd].
      * rewrite bool_decide_eq_true_2, filter_cons_True by done.
        rewrite fmap_cons, <- app_assoc. by subst k.
      * by rewrite bool_decide_eq_false_2, filter_cons_False.
    + intros s Hne. rewrite (Hscope s Hne), group_setdefault_append. unfold of_scope.
      destruct (decide (addr_scope d = s)) as [Hd|Hd].
      * rewrite bool_decide_eq_true_2, filter_cons_True by done.
        rewrite bool_decide_eq_false_2 in Hv by congruence.
        injection Hv as <- _. rewrite fmap_cons, <- app_assoc. by subst s.
      * by rewrite bool_decide_eq_false_2, filter_cons_False.
    + rewrite Hdar, group_setdefault_append. unfold of_scope.
      destruct (decide (addr_scope d = "DAR")) as [Hd|Hd].
      * rewrite bool_decide_eq_true_2, filter_cons_True by done.
        rewrite bool_decide_eq_true_2 in Hv by done.
        exists (v :: labels). split.
        -- constructor; [|done]. by exists w, w1.
        -- rewrite <- app_assoc. by rewrite Hd.
      * rewrite bool_decide_eq_false_2, filter_cons_False by done. by exists labels.
Qed.

(** X4. When the grouping succeeds, the key view holds under each user key
    the raw values of the records of that key, in their order, and the
    scope view holds under each scope other than the postal location the
    values of the records of that scope, in their order, and under the
    postal location one resolved label for each of its records, in their
    order. A key or scope without record is absent, and no group is
    empty. *)
Theorem grouped_addresses_content (self : Env) (details : list Address) (w : World)
    (scoped keyed : gmap string (list string)) (w' : World) :
  _grouped_addresses self details w = (Ok (scoped, keyed), w') ->
  (forall k, keyed !! k = grouped (addr_value <$> of_user_key k details))
  /\ (forall s, s <> "DAR" -> scoped !! s = grouped (addr_value <$> of_scope s details))
  /\ (exists labels,
        Forall2 (resolves self) (of_scope "DAR" details) labels
        /\ scoped !! "DAR" = grouped labels)
  /\ groups_nonempty scoped /\ groups_nonempty keyed.
Proof.
  unfold _grouped_addresses. intros Hrun.
  destruct (grouped_loop_groups _ _ _ _ _ _ _ _ Hrun)
    as (Hs & Hk & Hkey & Hscope & labels & Hres & Hdar).
  assert (groups_nonempty (∅ : gmap string (list string))) as Hempty
    by (intros k l H; by rewrite lookup_empty in H).
  specialize (Hs Hempty). specialize (Hk Hempty).
  split; [|split; [|split; [|done]]].
  - intros k. by rewrite (groups_nonempty_lookup _ _ Hk), Hkey.
  - intros s Hne. by rewrite (groups_nonempty_lookup _ _ Hs), (Hscope s Hne).
  - exists labels. split; [done|]. by rewrite (groups_nonempty_lookup _ _ Hs), Hdar.
Qed.

(** X4, at the addresses of the unit tests. *)
Lemma grouped_addresses_content_witness :
  ({[ "DAR" := ["Toftebjerghaven 4, 2750 Ballerup"]; "PHONE" := ["12345678"];
      "PNUMBER" := ["0123456789"] ]} : gmap string (list string)) !! "PHONE"
  = grouped (addr_value <$> of_scope "PHONE" Scenario.test_addresses).
Proof.
  refine (proj1 (proj2 (grouped_addresses_content Scenario.engine_test
                          Scenario.test_addresses Scenario.w0 _
                          {[ "dar-userkey-not-used" := ["0a3f507b-7750-32b8-e044-0003ba298018"];
                             "phone-user-key-not-used" := ["12345678"];
                             "pnummer-user-key-not-used" := ["0123456789"] ]}
                          (requested [("adresser", "0a3f507b-7750-32b8-e044-0003ba298018")]
                             Scenario.w0) _)) "PHONE" _).
  - vm_compute. reflexivity.
  - discriminate.
Defined.

(** ** The edit payload, in full *)

Lemma dar_loop_nonempty self addrid types :
  forall w objs w', dar_loop self addrid types w = (Ok objs, w') -> objs <> [].
Proof.
  induction types as [|t types IH]; intros w objs w'; simpl; [done|].
  intros Hrun. apply bind_inv in Hrun as [(r & w1 & _ & Hrun)|(e' & _ & [=])].
  destruct r as [|[[|obj objs']|] [|]]; unfold raise, ret_ in Hrun; try discriminate Hrun.
  - by apply IH in Hrun.
  - by injection Hrun as <- _.
Qed.

Lemma dar_loop_failures self addrid types :
  forall w e w',
    dar_loop self addrid types w = (Raise e, w') ->
    e = SDMoxError ("Fejlende opslag i DAR for " +:+ addrid)
    \/ e = SDMoxError ("Addresse ikke fundet i DAR: " +:+ Py.repr addrid).
Proof.
  induction types as [|t types IH]; intros w e w'; simpl.
  - intros [= <- _]. by right.
  - intros Hrun. apply bind_inv in Hrun as [(r & w1 & _ & Hrun)|(e' & [=] & _)].
    destruct r as [|[[|obj objs]|] [|]]; unfold raise, ret_ in Hrun;
      try (injection Hrun as <- _; by left); try discriminate Hrun.
    by apply IH in Hrun.
Qed.

Lemma get_dar_address_failures self addrid w e w' :
  _get_dar_address self addrid w = (Raise e, w') ->
  e = SDMoxError ("Fejlende opslag i DAR for " +:+ addrid)
  \/ e = SDMoxError ("Addresse ikke fundet i DAR: " +:+ Py.repr addrid)
  \/ e = KeyError "betegnelse".
Proof.
  unfold _get_dar_address. intros Hrun.
  apply bind_inv in Hrun as [(objs & w1 & Hobjs & Hrun)|(e' & Hrun & [= ->])].
  - apply dar_loop_nonempty in Hobjs.
    destruct (last objs) as [obj|] eqn:Hlast.
    + destruct (obj !! "betegnelse"); [done|]. injection Hrun as <- _. by right; right.
    + by apply last_None in Hlast.
  - apply dar_loop_failures in Hrun. tauto.
Qed.

Lemma grouped_loop_failures self details :
  forall scoped keyed w e w',
    grouped_loop self details scoped keyed w = (Raise e, w') ->
    exists d, d ∈ details /\ addr_scope d = "DAR"
              /\ (e = SDMoxError ("Fejlende opslag i DAR for " +:+ addr_value d)
                  \/ e = SDMoxError ("Addresse ikke fundet i DAR: "
                                     +:+ Py.repr (addr_value d))
                  \/ e = KeyError "betegnelse").
Proof.
  induction details as [|d details IH]; intros scoped keyed w e w'; simpl; [done|].
  intros Hrun. apply bind_inv in Hrun as [(v & w1 & _ & Hrun)|(e' & Hrun & [= ->])].
  - apply IH in Hrun as (d' & Hin & H). exists d'. split; [by right|done].
  - destruct (decide (addr_scope d = "DAR")) as [Hd|Hd].
    + rewrite bool_decide_eq_true_2 in Hrun by done.
      apply get_dar_address_failures in Hrun. exists d. split; [by left|done].
    + by rewrite bool_decide_eq_false_2 in Hrun.
Qed.

Lemma first_of_group m k :
  groups_nonempty m -> first_of m k = Ok (head (group m k)).
Proof.
  intros Hm. unfold first_of, group. destruct (m !! k) as [[|x l]|] eqn:E; try done.
  by destruct (Hm k [] E).
Qed.

Lemma head_grouped (l : list string) :
  head (default [] (grouped l)) = head l.
Proof. by destruct l. Qed.

Lemma mo_to_sd_address_two_blanks label :
  2 <= blanks label -> exists adr, _mo_to_sd_address (Some label) = Ok (Some adr).
Proof.
  intros Hb. unfold _mo_to_sd_address. cbn [Py.rsplit].
  destruct (Py.rpartition label) as [[l city]|] eqn:E1.
  2: { apply rpartition_none_blanks in E1. lia. }
  destruct (rpartition_blanks _ _ _ E1) as [Hl _].
  destruct (Py.rpartition l) as [[street zip_code]|] eqn:E2.
  2: { apply rpartition_none_blanks in E2. lia. }
  by eexists.
Qed.

Lemma grouped_addresses_content_aux self details w scoped keyed w' :
  _grouped_addresses self details w = (Ok (scoped, keyed), w') ->
  (forall k, keyed !! k = grouped (addr_value <$> of_user_key k details))
  /\ (forall s, s <> "DAR" -> scoped !! s = grouped (addr_value <$> of_scope s details))
  /\ (exists labels,
        Forall2 (resolves self) (of_scope "DAR" details) labels
        /\ scoped !! "DAR" = grouped labels)
  /\ groups_nonempty scoped /\ groups_nonempty keyed.
Proof.
  unfold _grouped_addresses. intros Hrun.
  destruct (grouped_loop_groups _ _ _ _ _ _ _ _ Hrun)
    as (Hs & Hk & Hkey & Hscope & labels & Hres & Hdar).
  assert (groups_nonempty (∅ : gmap string (list string))) as Hempty
    by (intros k l H; by rewrite lookup_empty in H).
  specialize (Hs Hempty). specialize (Hk Hempty).
  split; [|split; [|split; [|done]]].
  - intros k. by rewrite (groups_nonempty_lookup _ _ Hk), Hkey.
  - intros s Hne. by rewrite (groups_nonempty_lookup _ _ Hs), (Hscope s Hne).
  - exists labels. split; [done|]. by rewrite (groups_nonempty_lookup _ _ Hs), Hdar.
Qed.

(** What a successful [_payload_edit] went through. *)
Lemma payload_edit_ok_inv self unit_uuid unit addresses w p w' :
  _payload_edit self unit_uuid unit addresses w = (Ok p, w') ->
  exists scoped keyed dar,
    _grouped_addresses self addresses w = (Ok (scoped, keyed), w')
    /\ (is_Some (scoped !! "PNUMBER") -> is_Some (scoped !! "DAR"))
    /\ first_of scoped "PHONE" = Ok (ep_phone p)
    /\ first_of scoped "PNUMBER" = Ok (ep_pnummer p)
    /\ first_of scoped "DAR" = Ok dar
    /\ _mo_to_sd_address dar = Ok (ep_adresse p)
    /\ first_of keyed "Formålskode" = Ok (ep_formaalskode p)
    /\ first_of keyed "Skolekode" = Ok (ep_skolekode p)
    /\ ep_unit_name p = ou_name unit /\ ep_unit_code p = ou_user_key unit
    /\ ep_unit_uuid p = unit_uuid.
Proof.
  unfold _payload_edit. intros Hrun.
  apply bind_inv in Hrun as [([scoped keyed] & w1 & Hg & Hrun)|(e' & _ & [=])].
  cbn [fst snd] in Hrun.
  destruct (bool_decide (is_Some (scoped !! "PNUMBER"))
            && negb (bool_decide (is_Some (scoped !! "DAR")))) eqn:Hcheck; [done|].
  apply bind_lift_inv in Hrun as [(phone & Hphone & Hrun)|(? & _ & [=])].
  apply bind_lift_inv in Hrun as [(pnummer & Hpnummer & Hrun)|(? & _ & [=])].
  apply bind_lift_inv in Hrun as [(dar & Hdar & Hrun)|(? & _ & [=])].
  apply bind_lift_inv in Hrun as [(adresse & Hadresse & Hrun)|(? & _ & [=])].
  apply bind_lift_inv in Hrun as [(fk & Hfk & Hrun)|(? & _ & [=])].
  apply bind_lift_inv in Hrun as [(sk & Hsk & Hrun)|(? & _ & [=])].
  injection Hrun as <- <-. exists scoped, keyed, dar. cbn.
  repeat split; try done.
  intros Hpn. apply andb_false_iff in Hcheck as [H|H].
  - by apply bool_decide_eq_false in H.
  - by apply negb_false_iff, bool_decide_eq_true in H.
Qed.

(** X5. Building the edit payload fails only in these ways: the lookup of
    a postal-location record fails (no endpoint knows the address, an
    endpoint's request raises, or the object found has no label); a
    production unit number comes without postal location; or the label of
    the first postal-location record has fewer than two blanks. It never
    raises [IndexError] or [TypeError]: no group of the grouping is empty. *)
Theorem payload_edit_failures (self : Env) (unit_uuid : string) (unit : OrgUnit)
    (addresses : list Address) (w : World) (e : exn) (w' : World) :
  _payload_edit self unit_uuid unit addresses w = (Raise e, w') ->
  (exists d, d ∈ addresses /\ addr_scope d = "DAR"
             /\ (e = SDMoxError ("Fejlende opslag i DAR for " +:+ addr_value d)
                 \/ e = SDMoxError ("Addresse ikke fundet i DAR: "
                                    +:+ Py.repr (addr_value d))
                 \/ e = KeyError "betegnelse"))
  \/ (e = SDMoxError "Opret postaddresse før pnummer"
      /\ of_scope "PNUMBER" addresses <> [] /\ of_scope "DAR" addresses = [])
  \/ (e = ValueError
      /\ exists d label, head (of_scope "DAR" addresses) = Some d
                         /\ resolves self d label /\ blanks label < 2).
Proof.
  unfold _payload_edit. intros Hrun.
  apply bind_inv in Hrun as [([scoped keyed] & w1 & Hg & Hrun)|(e' & Hrun & [= ->])].
  2: { left. by apply grouped_loop_failures in Hrun. }
  right.
  destruct (grouped_addresses_content_aux _ _ _ _ _ _ Hg)
    as (Hkey & Hscope & (labels & Hres & Hdar) & Hs & Hk).
  cbn [fst snd] in Hrun.
  destruct (bool_decide (is_Some (scoped !! "PNUMBER"))
            && negb (bool_decide (is_Some (scoped !! "DAR")))) eqn:Hcheck.
  - injection Hrun as <- _. left. split; [done|].
    apply andb_true_iff in Hcheck as [Hp Hd].
    apply bool_decide_eq_true in Hp. apply negb_true_iff, bool_decide_eq_false in Hd.
    rewrite Hscope in Hp by discriminate. rewrite Hdar in Hd.
    split.
    + intros Hnil. rewrite Hnil in Hp. by destruct Hp.
    + destruct labels; [|by destruct Hd].
      by apply Forall2_nil_inv_r in Hres.
  - right. rewrite !first_of_group in Hrun by done. rewrite !bind_lift_ok in Hrun.
    apply bind_lift_inv in Hrun as [(adresse & _ & Hrun)|(e' & Hr & [= ->])].
    { by rewrite !bind_lift_ok in Hrun. }
    pose proof (mo_to_sd_address_errors _ _ Hr) as ->. split; [done|].
    unfold group in Hr. rewrite Hdar in Hr.
    destruct labels as [|label labels]; [done|].
    change (_mo_to_sd_address (Some label) = Raise ValueError) in Hr.
    apply Forall2_cons_inv_r in Hres as (d & ds & Hd & _ & Hds).
    exists d, label. rewrite Hds. split; [done|]. split; [done|].
    destruct (decide (blanks label < 2)) as [?|Hge]; [done|].
    destruct (mo_to_sd_address_two_blanks label) as [adr Hadr]; [lia|]. congruence.
Qed.

(** X5, at an address whose label is a single word. *)
Lemma payload_edit_failures_witness :
  exists d label,
    head (of_scope "DAR" [Scenario.dar_address]) = Some d
    /\ resolves Scenario.engine_short_label d label /\ blanks label < 2.
Proof.
  destruct (payload_edit_failures Scenario.engine_short_label "12345-22-22-22-12345"
              Scenario.unit_sdm2 [Scenario.dar_address] Scenario.w0 ValueError
              (requested [("adresser", "0a3f507b-6331-32b8-e044-0003ba298018")]
                 Scenario.w0))
    as [(d & _ & _ & [H|[H|H]])|[(H & _)|(_ & H)]];
    [vm_compute; reflexivity|discriminate H..|exact H].
Defined.

Lemma head_fmap_value (l : list Address) :
  head (addr_value <$> l) = addr_value <$> head l.
Proof. by destruct l. Qed.

(** X6. A payload that [_payload_edit] returns takes name, code and uuid
    from the unit and, for the phone, the production unit number and the
    two free-text codes, the value of the first record of that scope or
    user key, None when there is none; its postal address is the split of
    the label of the first postal-location record, None when there is
    none. So a record put in front of the others decides its field, and a
    payload with a production unit number has a postal address. *)
Theorem payload_edit_first_record (self : Env) (unit_uuid : string) (unit : OrgUnit)
    (addresses : list Address) (w : World) (p : EditPayload) (w' : World) :
  _payload_edit self unit_uuid unit addresses w = (Ok p, w') ->
  ep_unit_name p = ou_name unit /\ ep_unit_code p = ou_user_key unit
  /\ ep_unit_uuid p = unit_uuid
  /\ ep_phone p = addr_value <$> head (of_scope "PHONE" addresses)
  /\ ep_pnummer p = addr_value <$> head (of_scope "PNUMBER" addresses)
  /\ ep_formaalskode p = addr_value <$> head (of_user_key "Formålskode" addresses)
  /\ ep_skolekode p = addr_value <$> head (of_user_key "Skolekode" addresses)
  /\ match head (of_scope "DAR" addresses) with
     | None => ep_adresse p = None
     | Some d =>
         exists label adr,
           resolves self d label
           /\ _mo_to_sd_address (Some label) = Ok (Some adr)
           /\ ep_adresse p = Some adr
     end
  /\ (forall d rest,
        addresses = d :: rest ->
        (addr_scope d = "PHONE" -> ep_phone p = Some (addr_value d))
        /\ (addr_scope d = "PNUMBER" -> ep_pnummer p = Some (addr_value d)))
  /\ (is_Some (ep_pnummer p) -> is_Some (ep_adresse p)).
Proof.
  intros Hrun.
  apply payload_edit_ok_inv in Hrun
    as (scoped & keyed & dar & Hg & Hord & Hphone & Hpn & Hdar & Hadr & Hfk & Hsk
        & Hname & Hcode & Huuid).
  destruct (grouped_addresses_content_aux _ _ _ _ _ _ Hg)
    as (Hkey & Hscope & (labels & Hres & Hdarg) & Hs & Hk).
  rewrite first_of_group in Hphone, Hpn, Hdar, Hfk, Hsk by done.
  unfold group in Hphone, Hpn, Hdar, Hfk, Hsk.
  rewrite Hscope in Hphone, Hpn by discriminate. rewrite Hkey in Hfk, Hsk.
  rewrite Hdarg in Hdar.
  rewrite head_grouped in Hphone, Hpn, Hdar, Hfk, Hsk.
  rewrite head_fmap_value in Hphone, Hpn, Hfk, Hsk.
  injection Hphone as Hphone. injection Hpn as Hpn. injection Hdar as Hdar.
  injection Hfk as Hfk. injection Hsk as Hsk.
  assert (match head (of_scope "DAR" addresses) with
          | None => ep_adresse p = None
          | Some d =>
              exists label adr,
                resolves self d label
                /\ _mo_to_sd_address (Some label) = Ok (Some adr)
                /\ ep_adresse p = Some adr
          end) as Hpostal.
  { destruct Hres as [|d label ds labels Hd Hres]; cbn in Hdar; subst dar.
    - by injection Hadr as <-.
    - cbn. exists label.
      destruct (ep_adresse p) as [adr|] eqn:Ha; [by exists adr|].
      unfold _mo_to_sd_address in Hadr.
      by destruct (Py.rsplit label 2) as [|?[|?[|?[|??]]]]. }
  repeat split; try done.
  - intros Hd. rewrite <- Hphone. unfold of_scope. subst addresses.
    by rewrite filter_cons_True.
  - intros Hd. rewrite <- Hpn. unfold of_scope. subst addresses.
    by rewrite filter_cons_True.
  - intros Hp. rewrite <- Hpn in Hp.
    assert (is_Some (scoped !! "DAR")) as Hd.
    { apply Hord. rewrite Hscope by discriminate.
      destruct (of_scope "PNUMBER" addresses); [by destruct Hp|]. by eexists. }
    rewrite Hdarg in Hd.
    destruct Hres as [|d label ds labels Hd' Hres]; [by destruct Hd|].
    cbn in Hpostal. destruct Hpostal as (? & adr & _ & _ & ->). by eexists.
Qed.

(** X6, at the addresses of the unit tests: the phone is that of the
    phone record. *)
Lemma payload_edit_first_record_witness :
  exists p w',
    _payload_edit Scenario.engine_test "12345-22-22-22-12345" Scenario.unit_sdm2
      Scenario.test_addresses Scenario.w0 = (Ok p, w')
    /\ ep_phone p = Some "12345678".
Proof.
  eexists _, _. split; [vm_compute; reflexivity|].
  refine (proj1 (proj2 (proj2 (proj2
            (payload_edit_first_record Scenario.engine_test "12345-22-22-22-12345"
               Scenario.unit_sdm2 Scenario.test_addresses Scenario.w0 _ _ _)))));
    vm_compute; reflexivity.
Defined.

(** ** Bounds on requests and waits *)

Lemma requested_nil w : requested [] w = w.
Proof. destruct w. unfold requested. simpl. by rewrite app_nil_r. Qed.

Lemma requested_requested l1 l2 w :
  requested l2 (requested l1 w) = requested (l1 ++ l2) w.
Proof. unfold requested. simpl. by rewrite app_assoc. Qed.

Lemma dar_loop_requests self addrid types :
  forall w r w',
    dar_loop self addrid types w = (r, w') ->
    exists n, n <= length types /\ (types <> [] -> 1 <= n)
              /\ w' = requested ((fun t => (t, addrid)) <$> take n types) w.
Proof.
  induction types as [|t types IH]; intros w r w'; simpl.
  - intros [= _ <-]. exists 0. split; [done|]. split; [done|]. by rewrite requested_nil.
  - intros Hrun. apply bind_inv in Hrun as [(o & w1 & Ho & Hrun)|(e' & [=] & _)].
    injection Ho as _ <-.
    assert (exists n, n <= S (length types) /\ (t :: types <> [] -> 1 <= n)
                      /\ requested [(t, addrid)] w
                         = requested ((fun t0 => (t0, addrid)) <$> take n (t :: types)) w)
      as Hone by (exists 1; split; [lia|]; split; [lia|]; reflexivity).
    destruct o as [|[[|obj objs]|] [|]]; unfold raise, ret_ in Hrun;
      try (injection Hrun as _ <-; exact Hone).
    apply IH in Hrun as (n & Hn & _ & ->).
    exists (S n). split; [lia|]. split; [lia|].
    by rewrite requested_requested.
Qed.

(** X7. Whatever the outcome of a lookup, it made at least one and at most
    four requests, to the endpoints in their fixed order from the first
    one on, each for the id given, and changed nothing else: nothing is
    published and no time passes. *)
Theorem get_dar_address_requests (self : Env) (addrid : string) (w : World)
    (r : result string) (w' : World) :
  _get_dar_address self addrid w = (r, w') ->
  exists n, 1 <= n <= 4
            /\ w' = requested ((fun t => (t, addrid)) <$> take n addrtypes) w.
Proof.
  unfold _get_dar_address. intros Hrun.
  assert (forall r0 w0, dar_loop self addrid addrtypes w = (r0, w0) ->
            exists n, 1 <= n <= 4
              /\ w0 = requested ((fun t => (t, addrid)) <$> take n addrtypes) w) as Hloop.
  { intros r0 w0 H. apply dar_loop_requests in H as (n & Hn & Hpos & ->).
    exists n. split; [|done]. split; [by apply Hpos|exact Hn]. }
  apply bind_inv in Hrun as [(objs & w1 & Hobjs & Hrun)|(e & Hrun & _)].
  - destruct (Hloop _ _ Hobjs) as (n & Hn & ->). exists n. split; [done|].
    destruct (last objs) as [obj|]; [|by injection Hrun as _ <-].
    by destruct (obj !! "betegnelse"); injection Hrun as _ <-.
  - by apply Hloop in Hrun.
Qed.

(** X7, at the lookup whose second endpoint fails: two requests. *)
Lemma get_dar_address_requests_witness :
  exists n, 1 <= n <= 4
    /\ requested [("adresser", "0a3f507b"); ("adgangsadresser", "0a3f507b")] Scenario.w0
       = requested ((fun t => (t, "0a3f507b")) <$> take n addrtypes) Scenario.w0.
Proof.
  exact (get_dar_address_requests Scenario.engine_second_fails "0a3f507b" Scenario.w0
           (Raise (SDMoxError "Fejlende opslag i DAR for 0a3f507b"))
           (requested [("adresser", "0a3f507b"); ("adgangsadresser", "0a3f507b")]
              Scenario.w0) eq_refl).
Defined.

Lemma check_department_nothing_inv self a operation w errs w' :
  _check_department self a operation w = (Ok (None, errs), w') ->
  registry_answer self a w = NoDepartment.
Proof.
  rewrite check_department_eval.
  destruct (registry_answer self a w) as [|d|l]; [done| |done].
  destruct (unit_name a), (DepartmentName d); try done.
  all: by destruct (observed_phone d).
Qed.

(** Where the loop stands when it ends: after [k] waits, the attempts
    before the last having found nothing. *)
Lemma check_unit_loop_inv self a operation n :
  forall errors w r w',
    check_unit_loop self n a operation None errors w = (r, w') ->
    exists k, k <= n /\ (1 <= n -> 1 <= k) /\ w' = waited k w
      /\ (forall j, 1 <= j < k -> registry_answer self a (waited j w) = NoDepartment)
      /\ match r with
         | Ok (Some d, errs) =>
             1 <= k
             /\ exists errs', errs = Some errs'
                  /\ _check_department self a operation (waited k w)
                     = (Ok (Some d, errs'), waited k w)
         | Ok (None, errs) =>
             k = n /\ (n = 0 -> errs = errors)
             /\ forall j, 1 <= j <= n ->
                          registry_answer self a (waited j w) = NoDepartment
         | Raise e =>
             _check_department self a operation (waited k w) = (Raise e, waited k w)
         end.
Proof.
  induction n as [|n IH]; intros errors w r w'.
  - cbn [check_unit_loop]. intros [= <- <-]. exists 0.
    split; [done|]. split; [lia|]. split; [by rewrite waited_0|].
    split; [intros; lia|]. split; [done|]. split; [done|]. intros; lia.
  - cbn [check_unit_loop]. rewrite bind_sleep. intros Hrun.
    apply bind_inv in Hrun as [([found errs1] & w1 & Hc & Hrun)|(e & Hc & ->)].
    + pose proof (check_department_world _ _ _ _ _ _ Hc) as ->.
      cbn [fst snd] in Hrun. destruct found as [d|].
      * injection Hrun as <- <-. exists 1.
        split; [lia|]. split; [lia|]. split; [done|]. split; [intros; lia|].
        split; [lia|]. by exists errs1.
      * apply check_department_nothing_inv in Hc.
        apply IH in Hrun as (k & Hk & Hpos & -> & Hnone & Hr).
        exists (S k). split; [lia|]. split; [lia|].
        split; [by rewrite waited_waited|].
        assert (forall j, 1 <= j < S k ->
                  registry_answer self a (waited j w) = NoDepartment) as Hnone'.
        { intros j Hj. destruct (decide (j = 1)) as [->|Hne]; [done|].
          replace j with (1 + (j - 1)) by lia. rewrite <- waited_waited.
          apply Hnone. lia. }
        split; [done|].
        destruct r as [[[d|] errs]|e]; rewrite ?waited_waited in Hr; try done.
        { destruct Hr as [_ Hr]. split; [lia|done]. }
        destruct Hr as (-> & _ & Hall). split; [done|]. split; [lia|].
        intros j Hj. destruct (decide (j = 1)) as [->|Hne]; [done|].
        replace j with (1 + (j - 1)) by lia. rewrite <- waited_waited.
        apply Hall. lia.
    + pose proof (check_department_world _ _ _ _ _ _ Hc) as ->.
      exists 1. split; [lia|]. split; [lia|]. split; [done|]. split; [intros; lia|done].
Qed.

(** X8. Whatever the outcome of a verification, it waited at most the
    configured number of times, and at least once unless that number is
    zero; it published nothing and asked no address service. With zero
    attempts configured it reports the unit as not found without asking the
    registry. *)
Theorem check_unit_waits (self : Env) (operation : Operation) (a : CheckArgs) (w : World)
    (r : result Department) (w' : World) :
  _check_unit self operation a w = (r, w') ->
  (exists k, k <= amqp_check_retries self
             /\ (1 <= amqp_check_retries self -> 1 <= k)
             /\ w' = waited k w)
  /\ (amqp_check_retries self = 0 ->
      r = Raise (SDMoxError ("Afdeling ikke fundet: " +:+ Py.str (unit_uuid a)))
      /\ w' = w).
Proof.
  intros Hrun. split.
  - unfold _check_unit in Hrun.
    apply bind_inv in Hrun as [([found errs] & w1 & Hloop & Hrun)|(e & Hloop & ->)].
    + apply check_unit_loop_inv in Hloop as (k & Hk & Hpos & -> & _ & Hr).
      exists k. split; [done|]. split; [done|].
      cbn [fst snd] in Hrun. destruct found; [|by injection Hrun as _ <-].
      by destruct errs as [[|??]|]; injection Hrun as _ <-.
    + apply check_unit_loop_inv in Hloop as (k & Hk & Hpos & -> & _ & Hr).
      by exists k.
  - intros Hzero. unfold _check_unit in Hrun. rewrite Hzero in Hrun.
    by injection Hrun as <- <-.
Qed.

(** X8, at a verification in the scenario of the slow registry. *)
Lemma check_unit_waits_witness :
  exists k, k <= 3 /\ (1 <= 3 -> 1 <= k) /\ waited 1 Scenario.w0 = waited k Scenario.w0.
Proof.
  exact (proj1 (check_unit_waits Scenario.engine_slow_registry ret Scenario.rename_args
                  Scenario.w0
                  (Raise (SDMoxError "Følgende felter kunne ikke opdateres i SD: Name"))
                  (waited 1 Scenario.w0) eq_refl)).
Defined.

(** ** What a successful verification has observed *)

Lemma mismatch_nil actual e error : mismatch actual (Some e) error = [] -> actual = Some e.
Proof. unfold mismatch. by case_bool_decide. Qed.

Lemma field_mismatches_nil self a operation d ph t :
  field_mismatches self a operation d ph t = [] ->
  (in_ret_import operation = true -> ActivationDate d = Some (from_date self))
  /\ name_mismatch (DepartmentName d) (unit_name a) = []
  /\ (forall c, unit_code a = Some c -> DepartmentIdentifier d = Some c)
  /\ (forall u, unit_uuid a = Some u -> DepartmentUUIDIdentifier d = Some u)
  /\ (forall l, unit_level a = Some l -> DepartmentLevelIdentifier d = Some l)
  /\ (forall x, phone a = Some x -> ph = Some x)
  /\ (forall x, pnummer a = Some x -> ProductionUnitIdentifier d = Some x)
  /\ address_mismatch (PostalAddress_ d) (adresse a) = []
  /\ parent_mismatch (getDepartmentParent self t (unit_uuid a)) (parent a) = [].
Proof.
  unfold field_mismatches. intros H.
  repeat (apply app_eq_nil in H as [? H]).
  repeat split; try done.
  - intros Hop. rewrite Hop in *. by apply mismatch_nil with "Activation Date".
  - intros c Hc. rewrite Hc in *. by apply mismatch_nil with "Unit code".
  - intros u Hu. rewrite Hu in *. by apply mismatch_nil with "UUID".
  - intros l Hl. rewrite Hl in *. by apply mismatch_nil with "Level".
  - intros x Hx. rewrite Hx in *. by apply mismatch_nil with "Phone".
  - intros x Hx. rewrite Hx in *. by apply mismatch_nil with "Pnummer".
Qed.

(** X9. A verification that returns a unit has found it at its last poll,
    after polls that found nothing, and has observed every value it
    expected: the activation date of the engine for an edit or a create, a
    name that the expected name starts with, and the expected unit code,
    uuid, level, first telephone number, production unit number, postal
    address and parent uuid, wherever one is expected. *)
Theorem check_unit_success (self : Env) (operation : Operation) (a : CheckArgs) (w : World)
    (d : Department) (w' : World) :
  _check_unit self operation a w = (Ok d, w') ->
  exists k,
    1 <= k <= amqp_check_retries self /\ w' = waited k w
    /\ registry_answer self a w' = OneDepartment d
    /\ (forall j, 1 <= j < k -> registry_answer self a (waited j w) = NoDepartment)
    /\ (in_ret_import operation = true -> ActivationDate d = Some (from_date self))
    /\ (forall e, unit_name a = Some e ->
                  exists o, DepartmentName d = Some o /\ Py.startswith e o = true)
    /\ (forall c, unit_code a = Some c -> DepartmentIdentifier d = Some c)
    /\ (forall u, unit_uuid a = Some u -> DepartmentUUIDIdentifier d = Some u)
    /\ (forall l, unit_level a = Some l -> DepartmentLevelIdentifier d = Some l)
    /\ (forall x, phone a = Some x -> observed_phone d = Ok (Some x))
    /\ (forall x, pnummer a = Some x -> ProductionUnitIdentifier d = Some x)
    /\ (forall adr, adresse a = Some adr ->
          PostalAddress_ d ≫= StandardAddressIdentifier = Some (AdresseNavn adr)
          /\ PostalAddress_ d ≫= PostalCode = Some (PostKodeIdentifikator adr)
          /\ PostalAddress_ d ≫= DistrictName = Some (ByNavn adr))
    /\ (forall par, parent a = Some par ->
          exists pp, getDepartmentParent self (clock w') (unit_uuid a) = Some pp
                     /\ ParentUUIDIdentifier pp = Some (parent_uuid par)).
Proof.
  unfold _check_unit. intros Hrun.
  apply bind_inv in Hrun as [([found errs] & w1 & Hloop & Hrun)|(e & _ & [=])].
  apply check_unit_loop_inv in Hloop as (k & Hk & Hpos & -> & Hnone & Hr).
  cbn [fst snd] in Hrun. destruct found as [d'|]; [|done].
  destruct Hr as (Hk1 & errs' & -> & Hc).
  destruct errs' as [|x errs']; [|done]. injection Hrun as -> <-.
  pose proof Hc as Hc0.
  apply check_department_found_inv in Hc as (_ & Hreg & ph & Hph & Hnil).
  symmetry in Hnil. apply field_mismatches_nil in Hnil
    as (Hact & Hname & Hcode & Huuid & Hlevel & Hphone & Hpn & Hadr & Hpar).
  exists k. split; [lia|]. split; [done|]. split; [done|]. split; [done|].
  split; [done|]. split; [|split; [done|split; [done|split; [done|split; [|split;
    [done|split]]]]]].
  - intros e He.
    destruct (check_department_found_name _ _ _ _ _ _ _ _ Hc0 He) as [o Ho].
    exists o. split; [done|]. rewrite He, Ho in Hname. unfold name_mismatch in Hname.
    by destruct (Py.startswith e o).
  - intros x Hx. rewrite Hph. f_equal. by apply Hphone.
  - intros adr Ha. rewrite Ha in Hadr. unfold address_mismatch in Hadr.
    apply app_eq_nil in Hadr as [H1 Hadr]. apply app_eq_nil in Hadr as [H2 H3].
    apply mismatch_nil in H1, H2, H3. done.
  - intros par Hp. rewrite Hp in Hpar. unfold parent_mismatch in Hpar.
    destruct (getDepartmentParent self (clock (waited k w)) (unit_uuid a)) as [pp|];
      [|done].
    exists pp. split; [done|]. by apply mismatch_nil in Hpar.
Qed.

(** X9, at the rename whose registry shows the truncated name. *)
Lemma check_unit_success_witness :
  exists o, DepartmentName (Scenario.department_sdm2 "A-sdm" "2019-07-01") = Some o
            /\ Py.startswith "A-sdm1" o = true.
Proof.
  destruct (check_unit_success Scenario.engine_truncating ret Scenario.rename_args
              Scenario.w0 (Scenario.department_sdm2 "A-sdm" "2019-07-01")
              (waited 1 Scenario.w0) eq_refl)
    as (k & _ & _ & _ & _ & _ & Hname & _).
  exact (Hname "A-sdm1" eq_refl).
Defined.

(** ** The order of the mismatches *)

Lemma sublist_mismatch actual expected error :
  mismatch actual expected error `sublist_of` [error].
Proof.
  unfold mismatch. destruct expected; [|apply sublist_nil_l].
  case_bool_decide; [apply sublist_nil_l|done].
Qed.

Lemma sublist_name_mismatch actual expected :
  name_mismatch actual expected `sublist_of` ["Name"].
Proof.
  unfold name_mismatch. destruct expected, actual; try apply sublist_nil_l.
  destruct (Py.startswith _ _); [apply sublist_nil_l|done].
Qed.

Lemma sublist_field_mismatches self a operation d ph t :
  field_mismatches self a operation d ph t `sublist_of` mismatch_labels.
Proof.
  unfold field_mismatches, mismatch_labels.
  change ["Activation Date"; "Name"; "Unit code"; "UUID"; "Level"; "Phone"; "Pnummer";
          "Address"; "Zip code"; "Postal Area"; "Parent"]
    with (["Activation Date"] ++ ["Name"] ++ ["Unit code"] ++ ["UUID"] ++ ["Level"]
          ++ ["Phone"] ++ ["Pnummer"] ++ (["Address"] ++ ["Zip code"] ++ ["Postal Area"])
          ++ ["Parent"]).
  repeat apply sublist_app; try apply sublist_mismatch.
  - destruct (in_ret_import operation); [apply sublist_mismatch|apply sublist_nil_l].
  - apply sublist_name_mismatch.
  - unfold address_mismatch. destruct (adresse a); [|apply sublist_nil_l].
    repeat apply sublist_app; apply sublist_mismatch.
  - unfold parent_mismatch. destruct (parent a); [|apply sublist_nil_l].
    destruct (getDepartmentParent _ _ _); [apply sublist_mismatch|done].
Qed.

(** X10. The errors of an attempt are either the single label of a unit
    that was not found, or, for a unit that was found, labels of the
    comparisons in the fixed order in which the attempt makes them, each at
    most once: every comparison is made and none ends the attempt. *)
Theorem check_department_error_order (self : Env) (a : CheckArgs) (operation : Operation)
    (w : World) (found : option Department) (errs : list string) (w' : World) :
  _check_department self a operation w = (Ok (found, errs), w') ->
  match found with
  | None => errs = ["Unit"]
  | Some _ => errs `sublist_of` mismatch_labels /\ NoDup errs
  end.
Proof.
  intros Hrun. destruct found as [d|].
  - apply check_department_found_inv in Hrun as (_ & _ & ph & _ & ->).
    pose proof (sublist_field_mismatches self a operation d ph (clock w)) as Hsub.
    split; [done|]. eapply sublist_NoDup; [|exact Hsub].
    apply (bool_decide_unpack (NoDup mismatch_labels)). vm_compute. exact I.
  - by apply check_department_not_found_inv in Hrun.
Qed.

(** X10, at the first poll of the slow registry. *)
Lemma check_department_error_order_witness :
  ["Name"] `sublist_of` mismatch_labels /\ NoDup ["Name"].
Proof.
  exact (check_department_error_order Scenario.engine_slow_registry Scenario.rename_args
           ret (waited 1 Scenario.w0) (Some (Scenario.department_sdm2 "A-old" "2019-07-01"))
           ["Name"] (waited 1 Scenario.w0) eq_refl).
Defined.

(** ** The duplicate check of the unit code *)

(** X11. For a unit code without syntax violation, the validation of a
    code that may not exist yet asks the registry for the code alone,
    without level: no department gives no violation, one department gives
    the violation of a code in use, and a non-unique answer raises the
    error of the registry read instead of a violation. The validation of a
    code that may exist does not depend on the registry. *)
Theorem validate_unit_code_in_use (self : Env) (c : string) (w : World) :
  unit_code_syntax_errors (Some c) = [] ->
  _validate_unit_code self (Some c) false w
  = match getDepartment self (clock w) (Some c) None with
    | NoDepartment => (Ok [], w)
    | OneDepartment _ => (Ok ["Enhedsnummer er i brug"], w)
    | DepartmentList _ =>
        (Raise (SDMoxError ("Afdeling ikke unik. Code " +:+ c
                            +:+ ", uuid None, level None")), w)
    end
  /\ _validate_unit_code self (Some c) true w = (Ok [], w).
Proof.
  intros Hsyn. unfold _validate_unit_code. rewrite Hsyn.
  rewrite bool_decide_eq_true_2 by done. cbn [andb negb]. split; [|done].
  unfold bind. rewrite read_department_eval. cbn [Py.or_ Py.str].
  by destruct (getDepartment self (clock w) (Some c) None).
Qed.

(** X11, at the code of the scenarios in a registry that holds it. *)
Lemma validate_unit_code_in_use_witness :
  _validate_unit_code Scenario.engine_truncating (Some "SDM2") false Scenario.w0
  = (Ok ["Enhedsnummer er i brug"], Scenario.w0).
Proof.
  exact (proj1 (validate_unit_code_in_use Scenario.engine_truncating "SDM2" Scenario.w0
                  eq_refl)).
Defined.

(** ** Submission: dry runs and the failures around the parent *)

Lemma reads_only_bind {A B} (m : M A) (k : A -> M B) :
  reads_only m -> (forall a, reads_only (k a)) -> reads_only (bind m k).
Proof.
  intros Hm Hk w r w' Hrun.
  apply bind_inv in Hrun as [(a & w1 & Hm1 & Hk1) | (e & Hm1 & _)].
  - rewrite (Hk _ _ _ _ Hk1). by apply (Hm _ _ _ Hm1).
  - by apply (Hm _ _ _ Hm1).
Qed.

Lemma reads_only_read_department self unit_code unit_uuid unit_level :
  reads_only (_read_department self unit_code unit_uuid unit_level).
Proof.
  intros w r w'. rewrite read_department_eval.
  by destruct (getDepartment _ _ _ _); intros [= _ <-].
Qed.

Lemma reads_only_validate_unit_code self unit_code can_exist :
  reads_only (_validate_unit_code self unit_code can_exist).
Proof.
  unfold _validate_unit_code. destruct (_ && _); [|by intros w r w' [= _ <-]].
  apply reads_only_bind; [apply reads_only_read_department|].
  by intros [?|] w r w' [= _ <-].
Qed.

Lemma reads_only_check_parent_level self p : reads_only (check_parent_level self p).
Proof.
  unfold check_parent_level.
  apply reads_only_bind; [apply reads_only_read_department|].
  intros [pd|]; [|by intros w r w' [= _ <-]].
  destruct (negb (has_keys pd)); [by intros w r w' [= _ <-]|].
  intros w r w'.
  destruct (level_index self (cp_unit_level p)) as [ui|?]; [|by intros [= _ <-]].
  rewrite bind_lift_ok.
  destruct (getitem "DepartmentLevelIdentifier" (DepartmentLevelIdentifier pd))
    as [pl|?]; [|by intros [= _ <-]].
  rewrite bind_lift_ok.
  destruct (level_index self pl) as [pi|?]; [|by intros [= _ <-]].
  rewrite bind_lift_ok. by destruct (negb _); intros [= _ <-].
Qed.

(** The validations of a create or move submission come before the
    document and do not depend on the run being a test run. *)
Lemma submit_eval self (p : CreatePayload) (can_exist : bool) w :
  exists r : result unit,
    forall (test_run : bool) xml,
      (let* code_errors := _validate_unit_code self (cp_unit_code p) can_exist in
       if negb (bool_decide (code_errors = []))
       then raise (SDMoxError (Py.join ", " code_errors))
       else
         check_parent_level self p ;;;
         (if negb test_run then _call xml else ret_ tt) ;;;
         ret_ (cp_unit_uuid p)) w
      = match r with
        | Ok _ => (Ok (cp_unit_uuid p), if test_run then w else sent [xml] w)
        | Raise e => (Raise e, w)
        end.
Proof.
  destruct (_validate_unit_code self (cp_unit_code p) can_exist w) as [[errs|e] w1] eqn:Hv.
  2: { exists (Raise e). intros test_run xml.
       pose proof (reads_only_validate_unit_code _ _ _ _ _ _ Hv) as ->.
       by rewrite (bind_raise _ _ _ _ _ Hv). }
  pose proof (reads_only_validate_unit_code _ _ _ _ _ _ Hv) as ->.
  destruct (negb (bool_decide (errs = []))) eqn:Herrs.
  { exists (Raise (SDMoxError (Py.join ", " errs))). intros test_run xml.
    by rewrite (bind_ok _ _ _ _ _ Hv), Herrs. }
  destruct (check_parent_level self p w) as [[[]|e] w1] eqn:Hl.
  - pose proof (reads_only_check_parent_level _ _ _ _ _ Hl) as ->.
    exists (Ok tt). intros test_run xml.
    rewrite (bind_ok _ _ _ _ _ Hv), Herrs, (bind_ok _ _ _ _ _ Hl). by destruct test_run.
  - pose proof (reads_only_check_parent_level _ _ _ _ _ Hl) as ->.
    exists (Raise e). intros test_run xml.
    by rewrite (bind_ok _ _ _ _ _ Hv), Herrs, (bind_raise _ _ _ _ _ Hl).
Qed.

(** X12. A test run of a create or move submission makes the same
    validations and gives the same result as the real run, and leaves the
    world as it was. The real run differs in one thing: when it succeeds,
    the document has been published, once; when it fails, nothing has. *)
Theorem submission_test_run (self : Env) (p : CreatePayload) (w : World) :
  ((_create_unit self p true w).1 = (_create_unit self p false w).1
   /\ (_create_unit self p true w).2 = w
   /\ (_create_unit self p false w).2
      = match (_create_unit self p false w).1 with
        | Ok _ => sent [_create_xml_import self p] w
        | Raise _ => w
        end)
  /\ ((_move_unit self p true w).1 = (_move_unit self p false w).1
      /\ (_move_unit self p true w).2 = w
      /\ (_move_unit self p false w).2
         = match (_move_unit self p false w).1 with
           | Ok _ => sent [_create_xml_flyt self p] w
           | Raise _ => w
           end).
Proof.
  split.
  - unfold _create_unit. cbv zeta.
    destruct (submit_eval self p false w) as (r & Hr). rewrite !Hr.
    by destruct r.
  - unfold _move_unit. cbv zeta.
    destruct (submit_eval self p true w) as (r & Hr). rewrite !Hr.
    by destruct r.
Qed.

Lemma check_parent_level_failures self p w :
  match getDepartment self (clock w) (parent_unit_code (cp_parent p))
          (Some (parent_level (cp_parent p))) with
  | NoDepartment =>
      check_parent_level self p w = (Raise (SDMoxError "Forældrenheden findes ikke"), w)
  | DepartmentList _ =>
      exists s, check_parent_level self p w
                = (Raise (SDMoxError ("Afdeling ikke unik. Code " +:+ s)), w)
  | OneDepartment pd =>
      has_keys pd = true ->
      match level_index self (cp_unit_level p), DepartmentLevelIdentifier pd with
      | Raise _, _ => check_parent_level self p w = (Raise ValueError, w)
      | Ok _, None =>
          check_parent_level self p w = (Raise (KeyError "DepartmentLevelIdentifier"), w)
      | Ok _, Some pl =>
          level_index self pl = Raise ValueError ->
          check_parent_level self p w = (Raise ValueError, w)
      end
  end.
Proof.
  destruct (getDepartment self (clock w) (parent_unit_code (cp_parent p))
              (Some (parent_level (cp_parent p)))) as [|pd|l] eqn:Hreg.
  - unfold check_parent_level.
    rewrite (bind_ok _ _ _ None w); [done|].
    rewrite read_department_eval. cbn [Py.or_]. by rewrite Hreg.
  - cbv beta iota. intros Hkeys. unfold check_parent_level.
    rewrite (bind_ok _ _ _ (Some pd) w).
    2: { rewrite read_department_eval. cbn [Py.or_]. by rewrite Hreg. }
    rewrite Hkeys. cbn [negb].
    destruct (level_index self (cp_unit_level p)) as [ui|e] eqn:Hui.
    + rewrite bind_lift_ok. destruct (DepartmentLevelIdentifier pd) as [pl|]; [|done].
      cbn [getitem]. rewrite bind_lift_ok. by intros ->.
    + rewrite bind_lift_raise. f_equal. f_equal. unfold level_index in Hui.
      clear -Hui. induction ((sd_levels self).*1) as [|y l IH]; simpl in Hui.
      * by injection Hui as <-.
      * destruct (bool_decide (y = cp_unit_level p)); [done|].
        destruct (index (cp_unit_level p) l); [done|]. injection Hui as <-. by apply IH.
  - cbv beta iota. eexists. unfold check_parent_level. apply bind_raise.
    rewrite read_department_eval. cbn [Py.or_]. rewrite Hreg. reflexivity.
Qed.

(** X13. A move submission whose unit code has no syntax violation fails,
    with nothing published and the world as it was, in these cases around
    the parent: the registry does not show the parent, which is the error
    of a parent not found; and, the parent being shown, the level of the
    unit is no key of the hierarchy, or the level the registry reports for
    the parent is no key of the hierarchy, which is an unhandled
    [ValueError], or the parent is shown without level, which is an
    unhandled [KeyError]. *)
Theorem move_unit_parent_failures (self : Env) (p : CreatePayload) (test_run : bool)
    (w : World) :
  unit_code_syntax_errors (cp_unit_code p) = [] ->
  match getDepartment self (clock w) (parent_unit_code (cp_parent p))
          (Some (parent_level (cp_parent p))) with
  | NoDepartment =>
      _move_unit self p test_run w = (Raise (SDMoxError "Forældrenheden findes ikke"), w)
  | DepartmentList _ =>
      exists s, _move_unit self p test_run w
                = (Raise (SDMoxError ("Afdeling ikke unik. Code " +:+ s)), w)
  | OneDepartment pd =>
      has_keys pd = true ->
      match level_index self (cp_unit_level p), DepartmentLevelIdentifier pd with
      | Raise _, _ => _move_unit self p test_run w = (Raise ValueError, w)
      | Ok _, None =>
          _move_unit self p test_run w = (Raise (KeyError "DepartmentLevelIdentifier"), w)
      | Ok _, Some pl =>
          level_index self pl = Raise ValueError ->
          _move_unit self p test_run w = (Raise ValueError, w)
      end
  end.
Proof.
  intros Hsyn.
  assert (forall e, check_parent_level self p w = (Raise e, w) ->
                    _move_unit self p test_run w = (Raise e, w)) as Hfail.
  { intros e He. unfold _move_unit.
    rewrite (bind_ok _ _ _ _ _ (validate_syntax_only self _ true w (or_introl eq_refl))).
    rewrite Hsyn, bool_decide_eq_true_2 by done. cbn [negb].
    by rewrite (bind_raise _ _ _ _ _ He). }
  pose proof (check_parent_level_failures self p w) as H.
  destruct (getDepartment _ _ _ _) as [|pd|l].
  - by apply Hfail.
  - intros Hkeys. specialize (H Hkeys).
    destruct (level_index self (cp_unit_level p)); [|by apply Hfail].
    destruct (DepartmentLevelIdentifier pd); [|by apply Hfail].
    intros Hpl. by apply Hfail, H.
  - destruct H as [s H]. exists s. by apply Hfail.
Qed.

(** X13, at a registry that reports a level for the parent that the
    hierarchy does not have. *)
Lemma move_unit_parent_failures_witness :
  _move_unit Scenario.engine_foreign_level Scenario.payload_sdm2 false Scenario.w0
  = (Raise ValueError, Scenario.w0).
Proof.
  exact (move_unit_parent_failures Scenario.engine_foreign_level Scenario.payload_sdm2
           false Scenario.w0 eq_refl eq_refl eq_refl).
Defined.

(** ** What the operations publish *)

Lemma emits_quiet {A} (P : list string -> Prop) (m : M A) :
  quiet m -> P [] -> emits P m.
Proof.
  intros Hq HP w r w' Hrun. exists []. split; [|done].
  rewrite app_nil_r. by apply (Hq _ _ _ Hrun).
Qed.

Lemma emits_weaken {A} (P Q : list string -> Prop) (m : M A) :
  (forall docs, P docs -> Q docs) -> emits P m -> emits Q m.
Proof.
  intros HPQ Hm w r w' Hrun. destruct (Hm _ _ _ Hrun) as (docs & Hp & HP).
  exists docs. split; [done|]. by apply HPQ.
Qed.

(** After a part that publishes nothing and establishes [R]. *)
Lemma emits_bind_after {A B} (P : list string -> Prop) (R : A -> Prop)
    (m : M A) (k : A -> M B) :
  quiet m -> P [] ->
  (forall w a w1, m w = (Ok a, w1) -> R a) ->
  (forall a, R a -> emits P (k a)) ->
  emits P (bind m k).
Proof.
  intros Hq HP HR Hk w r w' Hrun.
  apply bind_inv in Hrun as [(a & w1 & Hm1 & Hk1) | (e & Hm1 & _)].
  - destruct (Hk a (HR _ _ _ Hm1) _ _ _ Hk1) as (docs & Hp & Hdocs).
    exists docs. split; [|done]. rewrite Hp. f_equal. by apply (Hq _ _ _ Hm1).
  - exists []. split; [|done]. rewrite app_nil_r. by apply (Hq _ _ _ Hm1).
Qed.

(** Before a part that publishes nothing. *)
Lemma emits_bind_before {A B} (P : list string -> Prop) (m : M A) (k : A -> M B) :
  emits P m -> (forall a, quiet (k a)) -> emits P (bind m k).
Proof.
  intros Hm Hk w r w' Hrun.
  apply bind_inv in Hrun as [(a & w1 & Hm1 & Hk1) | (e & Hm1 & _)].
  - destruct (Hm _ _ _ Hm1) as (docs & Hp & Hdocs). exists docs. split; [|done].
    rewrite <- Hp. by apply (Hk _ _ _ _ Hk1).
  - by apply (Hm _ _ _ Hm1).
Qed.

(** One publishing part after another. *)
Lemma emits_bind_seq {A B} (P Q : list string -> Prop) (m : M A) (k : A -> M B) :
  emits P m -> Q [] -> (forall a, emits Q (k a)) ->
  emits (fun docs => exists d1 d2, docs = d1 ++ d2 /\ P d1 /\ Q d2) (bind m k).
Proof.
  intros Hm HQ Hk w r w' Hrun.
  apply bind_inv in Hrun as [(a & w1 & Hm1 & Hk1) | (e & Hm1 & _)].
  - destruct (Hm _ _ _ Hm1) as (d1 & Hp1 & Hd1).
    destruct (Hk _ _ _ _ Hk1) as (d2 & Hp2 & Hd2).
    exists (d1 ++ d2). split; [by rewrite Hp2, Hp1, app_assoc|]. by exists d1, d2.
  - destruct (Hm _ _ _ Hm1) as (d1 & Hp1 & Hd1).
    exists d1. split; [done|]. exists d1, []. by rewrite app_nil_r.
Qed.

Lemma emits_edit_unit self (dry_run : bool) payload :
  emits (fun docs => docs = if dry_run then [] else [_create_xml_ret self payload])
    (_edit_unit self dry_run payload).
Proof.
  intros w r w'. unfold _edit_unit. destruct dry_run; intros [= _ <-].
  - exists []. by rewrite app_nil_r.
  - by exists [_create_xml_ret self payload].
Qed.

Lemma emits_submit self (p : CreatePayload) (test_run can_exist : bool) xml :
  emits (fun docs => docs = [] \/ (test_run = false /\ docs = [xml]))
    (let* code_errors := _validate_unit_code self (cp_unit_code p) can_exist in
     if negb (bool_decide (code_errors = []))
     then raise (SDMoxError (Py.join ", " code_errors))
     else
       check_parent_level self p ;;;
       (if negb test_run then _call xml else ret_ tt) ;;;
       ret_ (cp_unit_uuid p)).
Proof.
  intros w r w' Hrun. destruct (submit_eval self p can_exist w) as (r0 & Hr0).
  rewrite Hr0 in Hrun. destruct r0 as [[]|e].
  - injection Hrun as _ <-. destruct test_run.
    + exists []. split; [by rewrite app_nil_r|by left].
    + exists [xml]. split; [done|]. by right.
  - injection Hrun as _ <-. exists []. split; [by rewrite app_nil_r|by left].
Qed.

Lemma payload_create_fields self unit_uuid unit parent w p w' :
  _payload_create self unit_uuid unit parent w = (Ok p, w') ->
  cp_unit_uuid p = unit_uuid /\ parent_uuid (cp_parent p) = ou_uuid parent.
Proof.
  unfold _payload_create.
  destruct (negb (Py.truthy (level_by_uuid self !! ou_org_unit_level unit))); [done|].
  destruct (negb (Py.truthy (level_by_uuid self !! ou_org_unit_level parent))); [done|].
  by intros [= <- _].
Qed.

Lemma emits_update_ou self unit_uuid unit_data addresses (dry_run : bool) :
  emits (fun docs =>
           docs = []
           \/ (dry_run = false
               /\ exists payload,
                    docs = [_create_xml_ret self payload]
                    /\ ep_unit_name payload = ou_name unit_data
                    /\ ep_unit_uuid payload = unit_uuid))
    (_update_ou self unit_uuid unit_data addresses dry_run).
Proof.
  unfold _update_ou.
  apply (emits_bind_after _
           (fun payload => ep_unit_name payload = ou_name unit_data
                           /\ ep_unit_uuid payload = unit_uuid)).
  - apply quiet_payload_edit.
  - by left.
  - intros w payload w1 Hp.
    apply payload_edit_ok_inv in Hp
      as (_ & _ & _ & _ & _ & _ & _ & _ & _ & _ & _ & Hn & _ & Hu). done.
  - intros payload [Hn Hu]. apply emits_bind_before; [|intros _; apply quiet_check_unit].
    eapply emits_weaken; [|apply emits_edit_unit].
    intros docs ->. destruct dry_run; [by left|]. right. split; [done|]. by exists payload.
Qed.

(** X14. What the operations publish, however they end. A rename, and the
    addition or edit of an address, publish nothing or, when not a dry run,
    one edit document, rendered from a payload that carries the uuid of the
    unit and, for a rename, the new name. A move publishes nothing or, when
    not a dry run, one move document for the unit under the parent asked
    for. A create publishes nothing or, when not a dry run, the create
    document alone or the create document followed by one edit document,
    the latter only for a unit with address details. No operation publishes
    anything in a dry run. *)
Theorem operations_publish (self : Env) :
  (forall unit_uuid new_unit_name at_ dry_run,
     emits (fun docs =>
              docs = []
              \/ (dry_run = false
                  /\ exists payload,
                       docs = [_create_xml_ret self payload]
                       /\ ep_unit_name payload = Some new_unit_name
                       /\ ep_unit_uuid payload = unit_uuid))
       (rename_unit self unit_uuid new_unit_name at_ dry_run))
  /\ (forall unit_uuid new_parent_uuid at_ dry_run,
        emits (fun docs =>
                 docs = []
                 \/ (dry_run = false
                     /\ exists p,
                          docs = [_create_xml_flyt self p]
                          /\ cp_unit_uuid p = unit_uuid
                          /\ parent_uuid (cp_parent p)
                             = ou_uuid (read_ou self new_parent_uuid None)))
          (move_unit self unit_uuid new_parent_uuid at_ dry_run))
  /\ (forall unit_uuid address_data at_ dry_run,
        emits (fun docs =>
                 docs = []
                 \/ (dry_run = false
                     /\ exists payload,
                          docs = [_create_xml_ret self payload]
                          /\ ep_unit_uuid payload = unit_uuid))
          (create_address self unit_uuid address_data at_ dry_run)
        /\ emits (fun docs =>
                    docs = []
                    \/ (dry_run = false
                        /\ exists payload,
                             docs = [_create_xml_ret self payload]
                             /\ ep_unit_uuid payload = unit_uuid))
             (edit_address self unit_uuid address_data at_ dry_run))
  /\ (forall unit_uuid unit_data parent_data dry_run,
        emits (fun docs =>
                 docs = []
                 \/ (dry_run = false
                     /\ exists p,
                          cp_unit_uuid p = unit_uuid
                          /\ (docs = [_create_xml_import self p]
                              \/ (ou_details unit_data <> []
                                  /\ exists payload,
                                       docs = [_create_xml_import self p;
                                               _create_xml_ret self payload]
                                       /\ ep_unit_uuid payload = unit_uuid))))
          (create_unit self unit_uuid unit_data parent_data dry_run)).
Proof.
  split; [|split; [|split]].
  - intros unit_uuid new_unit_name at_ dry_run. unfold rename_unit. cbv zeta.
    apply (emits_bind_after _ (fun _ => True));
      [apply quiet_validate_unit_code|by left|done|].
    intros errs _. destruct (negb _); [apply emits_quiet; [apply quiet_raise|by left]|].
    eapply emits_weaken; [|apply emits_update_ou].
    intros docs [->|(-> & payload & -> & Hn & Hu)]; [by left|].
    right. split; [done|]. by exists payload.
  - intros unit_uuid new_parent_uuid at_ dry_run. unfold move_unit. cbv zeta.
    apply (emits_bind_after _ (fun _ => True));
      [apply quiet_validate_unit_code|by left|done|].
    intros errs _. destruct (negb _); [apply emits_quiet; [apply quiet_raise|by left]|].
    apply (emits_bind_after _
             (fun p => cp_unit_uuid p = unit_uuid
                       /\ parent_uuid (cp_parent p)
                          = ou_uuid (read_ou self new_parent_uuid None)));
      [apply quiet_payload_create|by left| |].
    { intros w p w1 Hp. by apply payload_create_fields in Hp. }
    intros p [Hu Hp]. apply emits_bind_before; [|intros _; apply quiet_check_unit].
    eapply emits_weaken; [|apply emits_submit].
    intros docs [->|(-> & ->)]; [by left|]. right. split; [done|]. by exists p.
  - intros unit_uuid address_data at_ dry_run. unfold edit_address, create_address.
    assert (forall docs,
              docs = []
              \/ (dry_run = false
                  /\ exists payload,
                       docs = [_create_xml_ret self payload]
                       /\ ep_unit_name payload
                          = ou_name (read_ou self unit_uuid (Some at_))
                       /\ ep_unit_uuid payload = unit_uuid) ->
              docs = []
              \/ (dry_run = false
                  /\ exists payload,
                       docs = [_create_xml_ret self payload]
                       /\ ep_unit_uuid payload = unit_uuid)) as Hweak.
    { intros docs [->|(-> & payload & -> & _ & Hu)]; [by left|].
      right. split; [done|]. by exists payload. }
    split; (eapply emits_weaken; [exact Hweak|apply emits_update_ou]).
  - intros unit_uuid unit_data parent_data dry_run. unfold create_unit.
    apply (emits_bind_after _ (fun p => cp_unit_uuid p = unit_uuid));
      [apply quiet_payload_create|by left| |].
    { intros w p w1 Hp. by apply payload_create_fields in Hp as [? _]. }
    intros p Hu.
    assert (emits (fun docs =>
                     docs = []
                     \/ (dry_run = false /\ ou_details unit_data <> []
                         /\ exists payload,
                              docs = [_create_xml_ret self payload]
                              /\ ep_unit_uuid payload = unit_uuid))
              ((match ou_details unit_data with
                | _ :: _ =>
                    _update_ou self unit_uuid unit_data (ou_details unit_data) dry_run ;;;
                    ret_ tt
                | [] => ret_ tt
                end) ;;;
               _check_unit self import (check_args_of_create p))) as Hrest.
    { apply emits_bind_before; [|intros _; apply quiet_check_unit].
      destruct (ou_details unit_data) as [|d ds] eqn:Hd.
      - apply emits_quiet; [apply quiet_ret|by left].
      - apply emits_bind_before; [|intros _; apply quiet_ret].
        eapply emits_weaken; [|apply emits_update_ou].
        intros docs [->|(-> & payload & -> & _ & Hpu)]; [by left|].
        right. split; [done|]. split; [done|]. by exists payload. }
    intros w r w' Hrun. unfold _create_unit in Hrun. cbv zeta in Hrun.
    apply bind_inv in Hrun as [(u & w1 & Hc & Hrun)|(e & Hc & _)].
    + destruct (submit_eval self p false w) as (r0 & Hr0). rewrite Hr0 in Hc.
      destruct r0 as [[]|e0]; [|done]. injection Hc as _ <-.
      destruct (Hrest _ _ _ Hrun) as (d2 & Hp2 & Hd2). destruct dry_run.
      * exists []. split; [|by left]. rewrite app_nil_r, Hp2.
        destruct Hd2 as [->|(? & _)]; [by rewrite app_nil_r|done].
      * exists (_create_xml_import self p :: d2).
        split; [rewrite Hp2; cbn; by rewrite <- app_assoc|].
        right. split; [done|]. exists p. split; [done|].
        destruct Hd2 as [->|(_ & Hd & payload & -> & Hpu)]; [by left|].
        right. split; [done|]. by exists payload.
    + destruct (submit_eval self p false w) as (r0 & Hr0). rewrite Hr0 in Hc.
      destruct r0 as [[]|e0]; [done|]. injection Hc as _ <-.
      exists []. split; [by rewrite app_nil_r|by left].
Qed.

(** X14, at the rename of the slow registry: one edit document, for the
    unit renamed. *)
Lemma operations_publish_witness :
  exists docs,
    ["<ret/>"] = [] ++ docs
    /\ (docs = []
        \/ (false = false
            /\ exists payload,
                 docs = [_create_xml_ret Scenario.engine_slow_registry payload]
                 /\ ep_unit_name payload = Some "A-sdm1"
                 /\ ep_unit_uuid payload = "12345-22-22-22-12345")).
Proof.
  exact (proj1 (operations_publish Scenario.engine_slow_registry)
           "12345-22-22-22-12345" "A-sdm1" "2019-07-01" false Scenario.w0
           (Raise (SDMoxError "Følgende felter kunne ikke opdateres i SD: Name"))
           {| published := ["<ret/>"]; lookups := []; clock := 1 |}
           ltac:(vm_compute; reflexivity)).
Defined.

(** ** The update of the validity window *)

(** X15. [_update_virkning] raises the start-date error exactly when the
    from-date is not the first of a month. It has then already replaced
    [virkning] and has left [_times] as it was, so that after a failed
    update that follows a successful one the two attributes describe
    different windows. When it succeeds, [_times] holds the two dates
    formatted, the end being that of 9999-12-31 when no to-date is
    given. *)
Theorem update_virkning_outcome {date V : Type} (day : date -> nat) (far : date)
    (strftime : date -> string) (sd_virkning : date -> option date -> V)
    (from_date : date) (to_date : option date) (s : Validity V) :
  let run := _update_virkning day far strftime sd_virkning from_date to_date s in
  (run.1 = Raise (SDMoxError "Startdato skal altid være den første i en måned")
   <-> day from_date <> 1)
  /\ (run.1 = Ok tt <-> day from_date = 1)
  /\ virkning run.2 = Some (sd_virkning from_date to_date)
  /\ (day from_date <> 1 -> _times run.2 = _times s)
  /\ (day from_date = 1 ->
      _times run.2
      = Some (strftime from_date,
              match to_date with Some t => strftime t | None => strftime far end))
  /\ (forall from_date' to_date',
        day from_date = 1 -> day from_date' <> 1 ->
        let run' := _update_virkning day far strftime sd_virkning from_date' to_date'
                      run.2 in
        virkning run'.2 = Some (sd_virkning from_date' to_date')
        /\ _times run'.2 = _times run.2).
Proof.
  unfold _update_virkning. cbv zeta.
  destruct (Nat.eqb_spec (day from_date) 1) as [H1|H1]; cbn [negb fst snd virkning _times].
  - split; [done|]. split; [done|]. split; [done|]. split; [done|].
    split; [by destruct to_date|].
    intros from_date' to_date' _ H1'.
    by destruct (Nat.eqb_spec (day from_date') 1).
  - split; [done|]. split; [split; [done|by intros]|]. done.
Qed.

(** X15, at dates given by their day of the month. *)
Lemma update_virkning_outcome_witness :
  _times (_update_virkning (fun d : nat => d) 31 (fun d => "day") (fun _ _ => tt) 15 None
            {| virkning := None; _times := Some ("earlier", "window") |}).2
  = Some ("earlier", "window").
Proof.
  refine (proj1 (proj2 (proj2 (proj2
            (update_virkning_outcome (fun d : nat => d) 31 (fun d => "day")
               (fun _ _ => tt) 15 None
               {| virkning := None; _times := Some ("earlier", "window") |})))) _).
  cbn. lia.
Defined.

(** ** The parts of a postal address *)

Lemma rstrip_cons c t :
  Py.rstrip (String c t)
  = match Py.rstrip t with
    | EmptyString => if Py.is_space c then EmptyString else String c EmptyString
    | r => String c r
    end.
Proof. reflexivity. Qed.

Lemma rstrip_idem s : Py.rstrip (Py.rstrip s) = Py.rstrip s.
Proof.
  induction s as [|c t IH]; [done|]. rewrite rstrip_cons.
  destruct (Py.rstrip t) as [|a r] eqn:E.
  - destruct (Py.is_space c) eqn:Hc; [done|]. rewrite rstrip_cons. cbn [Py.rstrip].
    by rewrite Hc.
  - by rewrite rstrip_cons, IH.
Qed.

Lemma lstrip_head s :
  Py.lstrip s = "" \/ exists c t, Py.lstrip s = String c t /\ Py.is_space c = false.
Proof.
  induction s as [|c t IH]; [by left|]. cbn [Py.lstrip].
  destruct (Py.is_space c) eqn:Hc; [done|]. right. by exists c, t.
Qed.

Lemma rstrip_head c t :
  Py.is_space c = false -> exists r, Py.rstrip (String c t) = String c r.
Proof.
  intros Hc. rewrite rstrip_cons. destruct (Py.rstrip t); rewrite ?Hc; by eexists.
Qed.

Lemma strip_idem s : Py.strip (Py.strip s) = Py.strip s.
Proof.
  unfold Py.strip. destruct (lstrip_head s) as [->|(c & t & -> & Hc)]; [done|].
  destruct (rstrip_head c t Hc) as [r Hr]. rewrite Hr.
  cbn [Py.lstrip]. rewrite Hc, <- Hr. apply rstrip_idem.
Qed.

Lemma blanks_lstrip s : blanks (Py.lstrip s) <= blanks s.
Proof.
  induction s as [|c t IH]; [done|]. cbn [Py.lstrip].
  destruct (Py.is_space c); [|done]. simpl. lia.
Qed.

Lemma blanks_rstrip s : blanks (Py.rstrip s) <= blanks s.
Proof.
  induction s as [|c t IH]; [done|]. rewrite rstrip_cons.
  destruct (Py.rstrip t) as [|a r].
  - destruct (Py.is_space c); simpl; lia.
  - simpl in *. lia.
Qed.

Lemma blanks_strip s : blanks s = 0 -> blanks (Py.strip s) = 0.
Proof.
  intros Hs. unfold Py.strip.
  pose proof (blanks_rstrip (Py.lstrip s)). pose proof (blanks_lstrip s). lia.
Qed.

(** X16. The parts of an address that [_mo_to_sd_address] returns are
    free of surrounding white space, so that stripping them again changes
    nothing, and its postal code and its city contain no blank. An absent
    address gives an absent result. *)
Theorem mo_to_sd_address_parts (address : option string) (r : option SDAddress) :
  _mo_to_sd_address address = Ok r ->
  (address = None <-> r = None)
  /\ (forall adr, r = Some adr ->
        Py.strip (AdresseNavn adr) = AdresseNavn adr
        /\ Py.strip (PostKodeIdentifikator adr) = PostKodeIdentifikator adr
        /\ Py.strip (ByNavn adr) = ByNavn adr
        /\ blanks (PostKodeIdentifikator adr) = 0
        /\ blanks (ByNavn adr) = 0).
Proof.
  unfold _mo_to_sd_address. destruct address as [a|].
  2: { intros [= <-]. split; [done|]. by intros adr. }
  cbn [Py.rsplit].
  destruct (Py.rpartition a) as [[l city]|] eqn:E1; [|done].
  destruct (Py.rpartition l) as [[street zip_code]|] eqn:E2; [|done].
  cbn [app]. intros [= <-]. split; [done|].
  intros adr [= <-]. cbn [AdresseNavn PostKodeIdentifikator ByNavn].
  apply rpartition_blanks in E1 as [_ Hc]. apply rpartition_blanks in E2 as [_ Hz].
  rewrite !strip_idem. repeat split; by apply blanks_strip.
Qed.

(** X16, at the label of the unit tests. *)
Lemma mo_to_sd_address_parts_witness :
  blanks "2750" = 0 /\ blanks "Ballerup" = 0.
Proof.
  destruct (proj2 (mo_to_sd_address_parts (Some "Toftebjerghaven 4, 2750 Ballerup")
                     (Some {| AdresseNavn := "Toftebjerghaven 4";
                              PostKodeIdentifikator := "2750";
                              ByNavn := "Ballerup" |}) eq_refl) _ eq_refl)
    as (_ & _ & _ & Hz & Hc).
  exact (conj Hz Hc).
Defined.

(** ** Errors during the poll *)

Lemma check_unit_loop_raise self a operation k n w unit errors e :
  1 <= k <= n ->
  (forall j, 1 <= j < k -> registry_answer self a (waited j w) = NoDepartment) ->
  _check_department self a operation (waited k w) = (Raise e, waited k w) ->
  check_unit_loop self n a operation unit errors w = (Raise e, waited k w).
Proof.
  intros Hk Hnone Hraise.
  replace n with ((k - 1) + S (n - k)) by lia.
  rewrite check_unit_loop_skip by (intros; apply Hnone; lia).
  cbn [check_unit_loop]. rewrite bind_sleep, waited_waited.
  replace (k - 1 + 1) with k by lia.
  by rewrite (bind_raise _ _ _ _ _ Hraise).
Qed.

(** X17. An error raised while the registry is read ends the poll at once:
    no further attempt is made and the error leaves [_check_unit] as it
    is, not as one of its own two messages. After polls that found
    nothing, a registry that shows several departments gives the
    not-unique error, a department without a name gives [TypeError] when a
    name is expected, and a department with an empty list of telephone
    numbers gives [IndexError]. *)
Theorem check_unit_aborts (self : Env) (operation : Operation) (a : CheckArgs)
    (w : World) (k : nat) :
  1 <= k <= amqp_check_retries self ->
  (forall j, 1 <= j < k -> registry_answer self a (waited j w) = NoDepartment) ->
  (forall l, registry_answer self a (waited k w) = DepartmentList l ->
     _check_unit self operation a w
     = (Raise (SDMoxError ("Afdeling ikke unik. Code " +:+ Py.str (unit_code a)
                           +:+ ", uuid " +:+ Py.str (unit_uuid a)
                           +:+ ", level " +:+ Py.str (unit_level a))), waited k w))
  /\ (forall d, registry_answer self a (waited k w) = OneDepartment d ->
        is_Some (unit_name a) -> DepartmentName d = None ->
        _check_unit self operation a w = (Raise TypeError, waited k w))
  /\ (forall d ci, registry_answer self a (waited k w) = OneDepartment d ->
        (is_Some (unit_name a) -> is_Some (DepartmentName d)) ->
        ContactInformation_ d = Some ci -> TelephoneNumberIdentifier ci = Some [] ->
        _check_unit self operation a w = (Raise IndexError, waited k w)).
Proof.
  intros Hk Hnone.
  assert (Hloop : forall e,
    _check_department self a operation (waited k w) = (Raise e, waited k w) ->
    _check_unit self operation a w = (Raise e, waited k w)).
  { intros e He. unfold _check_unit.
    by rewrite (bind_raise _ _ _ _ _
                  (check_unit_loop_raise self a operation k _ w None None e Hk Hnone He)). }
  split; [|split].
  - intros l Hl. apply Hloop. by rewrite check_department_eval, Hl.
  - intros d Hd [n Hn] Hname. apply Hloop.
    by rewrite check_department_eval, Hd, Hn, Hname.
  - intros d ci Hd Hname Hci Htel. apply Hloop.
    rewrite check_department_eval, Hd.
    assert (Hph : observed_phone d = Raise IndexError).
    { unfold observed_phone. by rewrite Hci, Htel. }
    rewrite Hph. destruct (unit_name a) as [n|]; [|done].
    by destruct (Hname (ex_intro _ n eq_refl)) as [x ->].
Qed.

(** X17, at a registry that shows the unit twice from the second poll
    on. *)
Lemma check_unit_aborts_witness :
  _check_unit Scenario.engine_ambiguous ret Scenario.rename_args Scenario.w0
  = (Raise (SDMoxError
       "Afdeling ikke unik. Code SDM2, uuid 12345-22-22-22-12345, level None"),
     waited 2 Scenario.w0).
Proof.
  refine (proj1 (check_unit_aborts Scenario.engine_ambiguous ret Scenario.rename_args
                   Scenario.w0 2 _ _) _ eq_refl).
  - cbn. lia.
  - intros j Hj. assert (j = 1) as -> by lia. reflexivity.
Defined.
